(** * BillMap: bill-metadata aggregation and identical-bill resolution

    A shallow embedding of [scripts/billdata.py] (the offline metadata
    aggregator) and of the bill detail view of
    [server_py/flatgov/bills/views.py] (identical-bill resolution, the
    merged cosponsor roster and the cosponsor display order), with the
    properties the specification states about them. *)

From Stdlib Require Import ZArith String Ascii List Bool Lia Permutation Sorted.
From Stdlib Require Import Floats.
From stdpp Require Import base option list gmap strings fin_maps pretty.

Local Open Scope string_scope.
Local Open Scope list_scope.

(** ** Python primitives used by both files *)

Module Py.

(** The exceptions the modelled code can raise. *)
Inductive exn : Type :=
  | IndexError
  | KeyError
  | ValueError
  | StopIteration
  | ZeroDivisionError
  | DoesNotExist
  | TypeError.

(** [s.split(sep)] for a non-empty separator [sep]: the pieces between the
    non-overlapping occurrences of [sep], scanned from the left.  [skip]
    counts the characters of a separator occurrence still to be dropped. *)
Fixpoint split_from (sep : string) (skip : nat) (s : string) : list string :=
  match s with
  | EmptyString => [ EmptyString ]
  | String c s' =>
      match skip with
      | S k => split_from sep k s'
      | O =>
          if String.prefix sep s
          then EmptyString :: split_from sep (String.length sep - 1) s'
          else match split_from sep 0 s' with
               | h :: t => String c h :: t
               | [] => [ String c EmptyString ]
               end
      end
  end.

Definition split (sep s : string) : list string := split_from sep 0 s.

(** [''.join(l)] *)
Definition join (l : list string) : string :=
  fold_right String.append EmptyString l.

(** Truthiness of a string: non-empty. *)
Definition truthy (s : string) : bool :=
  match s with EmptyString => false | _ => true end.

(** [str(x)] of an optional string field ([None] prints as "None"). *)
Definition str_of (o : option string) : string :=
  match o with Some s => s | None => "None" end.

(** Number of occurrences of the character [c] in [s]. *)
Fixpoint count_char (c : ascii) (s : string) : nat :=
  match s with
  | EmptyString => 0
  | String d s' => (if Ascii.eqb d c then 1 else 0) + count_char c s'
  end.

(** [sorted(l, key=...)], given the strict order [lt] on the elements' keys:
    a stable sort, so elements with equal keys keep their order. *)
Fixpoint insert_by {A} (lt : A -> A -> bool) (x : A) (l : list A) : list A :=
  match l with
  | [] => [x]
  | y :: l' => if lt y x then y :: insert_by lt x l' else x :: y :: l'
  end.

Definition sorted_by {A} (lt : A -> A -> bool) (l : list A) : list A :=
  fold_right (insert_by lt) [] l.

(** [l.remove(x)]: drops the first element equal to [x]; [None] stands for
    the [ValueError] raised when there is none. *)
Fixpoint remove {A} `{EqDecision A} (x : A) (l : list A) : option (list A) :=
  match l with
  | [] => None
  | y :: l' =>
      if bool_decide (y = x) then Some l'
      else match remove x l' with
           | Some r => Some (y :: r)
           | None => None
           end
  end.

End Py.

Definition hyphen : ascii := "-"%char.

(** ** A state-and-exception monad

    Python code mutates objects in place and may raise: a computation takes
    the current state and yields either a value or the exception raised,
    together with the state as the mutation left it (a [dict] keeps what was
    written to it before an exception). *)

Module Eff.

Definition M (S A : Type) : Type := S -> (Py.exn + A) * S.

Definition ret {S A} (a : A) : M S A := fun s => (inr a, s).

Definition raise {S A} (e : Py.exn) : M S A := fun s => (inl e, s).

Definition bind {S A B} (m : M S A) (k : A -> M S B) : M S B :=
  fun s =>
    match m s with
    | (inr a, s') => k a s'
    | (inl e, s') => (inl e, s')
    end.

Definition get {S} : M S S := fun s => (inr s, s).

Definition modify {S} (f : S -> S) : M S unit := fun s => (inr tt, f s).

(** [for x in l: body(x)] *)
Fixpoint for_each {S A} (body : A -> M S unit) (l : list A) : M S unit :=
  match l with
  | [] => ret tt
  | x :: l' => bind (body x) (fun _ => for_each body l')
  end.

(** [[f(x) for x in l]], evaluated left to right. *)
Fixpoint map_m {S A B} (f : A -> M S B) (l : list A) : M S (list B) :=
  match l with
  | [] => ret []
  | x :: l' => bind (f x) (fun y => bind (map_m f l') (fun ys => ret (y :: ys)))
  end.

(** [[x for x in l if p(x)]], evaluated left to right. *)
Fixpoint filter_m {S A} (p : A -> M S bool) (l : list A) : M S (list A) :=
  match l with
  | [] => ret []
  | x :: l' =>
      bind (p x) (fun b =>
      bind (filter_m p l') (fun xs => ret (if b then x :: xs else xs)))
  end.

(** A computation that leaves the state alone. *)
Definition lift {S A} (r : Py.exn + A) : M S A := fun s => (r, s).

(** [l[i]] *)
Definition index {S A} (l : list A) (i : nat) : M S A :=
  match nth_error l i with
  | Some x => ret x
  | None => raise Py.IndexError
  end.

End Eff.

Declare Scope eff_scope.
Delimit Scope eff_scope with eff.
Notation "x <- m ;; k" := (Eff.bind m (fun x => k))
  (at level 100, m at next level, right associativity) : eff_scope.
Notation "m ;;; k" := (Eff.bind m (fun _ => k))
  (at level 100, right associativity) : eff_scope.

(** ** scripts/billdata.py *)

Module billdata.

Definition SAVE_ON_COUNT : nat := 1000.

Definition BILL_TYPES (k : string) : option string :=
  if String.eqb k "ih" then Some "introduced"
  else if String.eqb k "rh" then Some "reported to house"
  else None.

(** One element of a record's [titles]. [is_for_portion] is read for its
    truth value only; an absent field reads as [None]. *)
Record Title : Type := {
  title : option string;
  is_for_portion : bool;
  as_ : option string
}.

(** A cosponsor object of [data.json]: field name to value, where the value
    [None] is JSON [null]. *)
Abbreviation JsonObj := (gmap string (option string)).

(** [d.get(field)] *)
Definition obj_get (d : JsonObj) (field : string) : option string :=
  match d !! field with Some v => v | None => None end.

(** The fields of a [data.json] document the aggregator reads.  All four
    are read with [get], so each may be absent: [None] is what [get]
    returns then. *)
Record BillRecord : Type := {
  bill_id : option string;
  bill_type : option string;
  titles : option (list Title);
  cosponsors : option (list JsonObj)
}.

(** A value of the [billsMeta] dict: a dict with up to three keys; [None]
    is an absent key.  The value under [cosponsors] is what
    [getCosponsors] returned, a list or [None]. *)
Record Entry : Type := {
  e_titles : option (list (option string));
  e_titles_whole_bill : option (list (option string));
  e_cosponsors : option (option (list JsonObj))
}.

Definition empty_entry : Entry :=
  {| e_titles := None; e_titles_whole_bill := None; e_cosponsors := None |}.

(** Truthiness of an entry: a dict with at least one key. *)
Definition entry_truthy (e : Entry) : bool :=
  match e_titles e, e_titles_whole_bill e, e_cosponsors e with
  | None, None, None => false
  | _, _, _ => true
  end.

Abbreviation BillsMeta := (gmap string Entry).

(** What the batch job can change: the [billsMeta] dict it accumulates
    into, the lines sent to the log, and the snapshots written to
    [PATH_TO_BILLS_META] (oldest first; the last one is the file's
    content). *)
Record St : Type := {
  billsMeta : BillsMeta;
  log : list string;
  disk : list BillsMeta
}.

Definition set_meta (f : BillsMeta -> BillsMeta) (st : St) : St :=
  {| billsMeta := f (billsMeta st); log := log st; disk := disk st |}.

Definition logging_error (msg : string) : Eff.M St unit :=
  Eff.modify (fun st =>
    {| billsMeta := billsMeta st; log := log st ++ [msg]; disk := disk st |}).

Local Open Scope eff_scope.

Definition getBillCongressTypeNumber (fileDict : BillRecord)
  : Eff.M St (option string) :=
  match bill_id fileDict with
  | Some b =>
      if Py.truthy b then
        let bill_id_parts := Py.split "-" b in
        p1 <- Eff.index bill_id_parts 1 ;;
        p0 <- Eff.index bill_id_parts 0 ;;
        Eff.ret (Some (p1 +:+ p0))
      else
        logging_error ("No bill_id: " +:+ Py.str_of (bill_type fileDict)) ;;;
        Eff.ret None
  | None =>
      logging_error ("No bill_id: " +:+ Py.str_of (bill_type fileDict)) ;;;
      Eff.ret None
  end.

(** [for x in l] on a value that may be [None]: iterating [None] raises
    [TypeError]. *)
Definition iterable {A} (l : option (list A)) : Py.exn + list A :=
  match l with
  | Some l => inr l
  | None => inl Py.TypeError
  end.

Definition getCosponsors (fileDict : BillRecord) (includeFields : list string)
  : Py.exn + option (list JsonObj) :=
  let cosponsors := cosponsors fileDict in
  match includeFields with
  | [] => inr cosponsors
  | _ =>
      match iterable cosponsors with
      | inl e => inl e
      | inr cosponsors =>
          inr (Some
                 (map (fun cosponsor : JsonObj =>
                         fold_left (fun (d : JsonObj) field =>
                                      <[field := obj_get cosponsor field]> d)
                                   includeFields (∅ : JsonObj))
                      cosponsors))
      end
  end.

Definition opt_string_eqb (a b : option string) : bool :=
  match a, b with
  | Some x, Some y => String.eqb x y
  | None, None => true
  | _, _ => false
  end.

(** [[title for title in titles if keep(title)]] *)
Definition comprehension {A} (keep : A -> bool) (l : option (list A))
  : Py.exn + option (list A) :=
  match iterable l with
  | inl e => inl e
  | inr l => inr (Some (List.filter keep l))
  end.

Definition getBillTitles (fileDict : BillRecord) (include_partial : bool)
    (billType : string) : Py.exn + option (list Title) :=
  let titles := titles fileDict in
  match (if include_partial then inr titles
         else comprehension (fun t => negb (is_for_portion t)) titles) with
  | inl e => inl e
  | inr titles =>
      match BILL_TYPES billType with
      | Some label =>
          if negb (String.eqb billType "all") && Py.truthy label
          then comprehension (fun t => opt_string_eqb (Some label) (as_ t))
                             titles
          else inr titles
      | None => inr titles
      end
  end.

Definition saveBillsMeta : Eff.M St unit :=
  Eff.modify (fun st =>
    {| billsMeta := billsMeta st; log := log st;
       disk := disk st ++ [billsMeta st] |}).

(** [billsMeta[k][field] = v] for the three fields, on the entry found
    (or created) under [k]. *)
Definition set_titles (v : list (option string)) (e : Entry) : Entry :=
  {| e_titles := Some v; e_titles_whole_bill := e_titles_whole_bill e;
     e_cosponsors := e_cosponsors e |}.
Definition set_titles_whole_bill (v : list (option string)) (e : Entry) : Entry :=
  {| e_titles := e_titles e; e_titles_whole_bill := Some v;
     e_cosponsors := e_cosponsors e |}.
Definition set_cosponsors (v : option (list JsonObj)) (e : Entry) : Entry :=
  {| e_titles := e_titles e; e_titles_whole_bill := e_titles_whole_bill e;
     e_cosponsors := Some v |}.

(** [billsMeta[k][...] = ...]: the entry under [k] is updated in place. *)
Definition update_entry (k : string) (f : Entry -> Entry) : Eff.M St unit :=
  st <- Eff.get ;;
  match billsMeta st !! k with
  | Some e => Eff.modify (set_meta (fun m => <[k := f e]> m))
  | None => Eff.raise Py.KeyError
  end.

(** The callback of [updateBillsMeta], applied to the document loaded from
    one [data.json]. *)
Definition addToBillsMeta (billDict : BillRecord) : Eff.M St unit :=
  billCongressTypeNumber <- getBillCongressTypeNumber billDict ;;
  match billCongressTypeNumber with
  | None => Eff.ret tt
  | Some k =>
      if negb (Py.truthy k) then Eff.ret tt
      else
        st <- Eff.get ;;
        (match billsMeta st !! k with
         | Some e =>
             if entry_truthy e then Eff.ret tt
             else Eff.modify (set_meta (fun m => <[k := empty_entry]> m))
         | None => Eff.modify (set_meta (fun m => <[k := empty_entry]> m))
         end) ;;;
        titles <- Eff.lift (getBillTitles billDict true "all") ;;
        all_titles <- Eff.lift (iterable titles) ;;
        update_entry k (set_titles (map title all_titles)) ;;;
        whole_bill <- Eff.lift (iterable titles) ;;
        update_entry k
          (set_titles_whole_bill
             (map title
                  (List.filter (fun t => negb (is_for_portion t)) whole_bill))) ;;;
        cosponsors <-
          Eff.lift (getCosponsors billDict ["name"; "bioguide_id"]) ;;
        update_entry k (set_cosponsors cosponsors) ;;;
        st <- Eff.get ;;
        let billCount := size (billsMeta st) in
        if Nat.eqb (billCount mod SAVE_ON_COUNT) 0 then saveBillsMeta
        else Eff.ret tt
  end.

(** [walkBillDirs(processFile=addToBillsMeta)]: [walk] is the sequence of
    documents loaded from the [data.json] files of the bill directories, in
    the order the directory walk visits them. *)
Definition walkBillDirs (processFile : BillRecord -> Eff.M St unit)
    (walk : list BillRecord) : Eff.M St unit :=
  Eff.for_each processFile walk.

Definition updateBillsMeta (walk : list BillRecord) : Eff.M St BillsMeta :=
  walkBillDirs addToBillsMeta walk ;;;
  saveBillsMeta ;;;
  st <- Eff.get ;;
  Eff.ret (billsMeta st).

End billdata.

(** ** server_py/flatgov/bills/views.py *)

Module views.

Local Open Scope eff_scope.

(** [SIMILARITY_THRESHOLD = .1]: the binary64 value nearest to one tenth. *)
Definition SIMILARITY_THRESHOLD : float := 0x1.999999999999ap-4%float.

Definition IDENTICAL_REASONS : list string :=
  ["identical"; "nearly identical"; "title match (main)"].

Definition billIdToBillNumber (bill_id : string) : string :=
  Py.join (rev (Py.split "-" bill_id)).

(** A JSON scalar as far as the views tell values apart: [type(v) == int]
    holds for [PyInt] only. *)
Inductive pyval : Type :=
  | PyNone
  | PyInt (z : Z)
  | PyStr (s : string).

(** One element of [Bill.get_similar_bills].  The bill key is read with
    [get(..., '')], so it may be absent ([None]); [reason] and [score] are
    read unguarded. *)
Record SimilarityMatch : Type := {
  bill_congress_type_number : option string;
  score : float;
  reason : string
}.

(** One element of [Bill.committees_dict]. *)
Record CommitteeItem : Type := {
  committee : option string;
  committee_id : option string
}.

(** One element of a cosponsor's [committees]: the committee code, the
    member it belongs to and the member's rank on it. *)
Record Membership : Type := {
  m_committee : option string;
  m_bioguide : option string;
  m_rank : option pyval
}.

(** A cosponsor (or the sponsor) as the bill's JSON lists it, with the keys
    [get_cosponsors_dict] reads or writes.  [name] is the sort key; a
    sponsor without a name reads as [''].  [rank] is [PyNone] until set. *)
Record Person : Type := {
  name : string;
  bioguide_id : option string;
  original_cosponsor : bool;
  rank : pyval;
  sponsor : bool;
  current : option bool;
  party : option string;
  name_full_official : option string;
  p_committee_id : option string;
  committee_name : option string
}.

#[global] Instance pyval_eq_dec : EqDecision pyval.
Proof. solve_decision. Defined.

#[global] Instance Person_eq_dec : EqDecision Person.
Proof. solve_decision. Defined.

(** A row of the [Cosponsor] table, as [Cosponsor.objects.get] returns it. *)
Record CosponsorItem : Type := {
  ci_party : option string;
  ci_name_full_official : option string;
  ci_committees : list Membership
}.

(** A row of [Cosponsor.objects.filter(bill__in=...).values(...)]. *)
Record CosponsorRow : Type := {
  r_bioguide_id : option string;
  r_name_full_official : option string;
  r_party : option string;
  r_state : option string;
  r_leadership : option string;
  r_committees : list Membership;
  r_bill : Z
}.

(** A value of [cosponsors_deduped]: the fetched row with the three keys
    the merge adds to it. *)
Record Merged : Type := {
  row : CosponsorRow;
  bill_congress_type_numbers : list string;
  committees_named : list (option string);
  ranks : list pyval
}.

(** [self.object]: the [Bill] the detail view shows. *)
Record Bill : Type := {
  b_bill_congress_type_number : string;
  get_similar_bills : list SimilarityMatch;
  committees_dict : list CommitteeItem;
  cosponsors_dict : list Person;
  b_sponsor : Person
}.

(** The view instance: its [identical_bill_numbers] attribute, and the
    divisors of the true divisions evaluated so far (a ghost record of what
    the interpreter did). *)
Record ViewSt : Type := {
  identical_bill_numbers : list string;
  divisions : list float
}.

Abbreviation V := (Eff.M ViewSt).

(** [x / y] on floats: raises [ZeroDivisionError] on a zero divisor. *)
Definition truediv (x y : float) : V float :=
  fun st =>
    let st' := {| identical_bill_numbers := identical_bill_numbers st;
                  divisions := divisions st ++ [y] |} in
    if PrimFloat.eqb y 0%float then (inl Py.ZeroDivisionError, st')
    else (inr (PrimFloat.div x y), st').

(** [x in l] for a list of strings. *)
Definition str_in (x : string) (l : list string) : bool :=
  existsb (String.eqb x) l.

Definition opt_eqb (a b : option string) : bool :=
  match a, b with
  | Some x, Some y => String.eqb x y
  | None, None => true
  | _, _ => false
  end.

(** [bill.get('bill_congress_type_number', '')] *)
Definition key_or_empty (bill : SimilarityMatch) : string :=
  match bill_congress_type_number bill with Some k => k | None => "" end.

Definition get_billnumbers_similar (object : Bill) : list string :=
  map key_or_empty (get_similar_bills object).

Definition get_current_bill_score (object : Bill) : V float :=
  if str_in (b_bill_congress_type_number object) (get_billnumbers_similar object)
  then
    match List.find
            (fun bill => opt_eqb (bill_congress_type_number bill)
                                 (Some (b_bill_congress_type_number object)))
            (get_similar_bills object) with
    | Some current_bill => Eff.ret (score current_bill)
    | None => Eff.raise Py.StopIteration
    end
  else Eff.ret 0%float.

Definition get_committees_dict_deduped (object : Bill) : list CommitteeItem :=
  let fix go (l : list CommitteeItem) (seen : list string) : list CommitteeItem :=
    match l with
    | [] => []
    | committeeItem :: l' =>
        let k := match committee committeeItem with Some k => k | None => "" end in
        if negb (Py.truthy k) || str_in k seen then go l' seen
        else committeeItem :: go l' (seen ++ [k])
    end in
  go (committees_dict object) [].

(** A dict comprehension: later items overwrite earlier ones. *)
Definition get_committees_map (object : Bill)
  : gmap (option string) (option string) :=
  fold_left (fun m c => <[committee_id c := committee c]> m)
            (get_committees_dict_deduped object) ∅.

Section Collaborators.

(** [bills.models.cleanReasons] and [bills.utils.sort_bills_for_congress]
    (the latter by its effect on the list it is given), and the three
    database queries: [Bill.objects.get(bill_congress_type_number=n).id]
    and [Cosponsor.objects.get(bioguide_id=b)], where [None] stands for the
    exception the ORM raises, and
    [Cosponsor.objects.filter(bill__in=ids).values(...)]. *)
Variable cleanReasons : list string -> list string.
Variable sort_bills_for_congress : list string -> list string.
Variable Bill_objects_get_id : string -> option Z.
Variable Cosponsor_objects_get : string -> option CosponsorItem.
Variable Cosponsor_objects_filter : list Z -> list CosponsorRow.

(** [any(x in cleanReasons(bill.get('reason').split(", ")) for x in IDENTICAL_REASONS)] *)
Definition reason_hit (bill : SimilarityMatch) : bool :=
  let reasons := cleanReasons (Py.split ", " (reason bill)) in
  existsb (fun x => str_in x reasons) IDENTICAL_REASONS.

(** [current_bill_score > 0 and abs(bill.get('score') - current_bill_score)
    / current_bill_score < SIMILARITY_THRESHOLD] *)
Definition score_close (current_bill_score : float) (bill : SimilarityMatch)
  : V bool :=
  if PrimFloat.ltb 0%float current_bill_score then
    q <- truediv (PrimFloat.abs (PrimFloat.sub (score bill) current_bill_score))
                 current_bill_score ;;
    Eff.ret (PrimFloat.ltb q SIMILARITY_THRESHOLD)
  else Eff.ret false.

(** The condition of the inner comprehension; [or] evaluates its right
    operand only when the left one is false. *)
Definition is_identical (current_bill_score : float) (bill : SimilarityMatch)
  : V bool :=
  if reason_hit bill then Eff.ret true
  else score_close current_bill_score bill.

(** The body of [get_identical_bill_numbers] once [current_bill_score] is
    known: the two nested comprehensions, the assignment to the instance
    attribute, and the sort of that same list. *)
Definition identical_bill_numbers_for (current_bill_score : float)
    (similar : list SimilarityMatch) : V (list string) :=
  kept <- Eff.filter_m (is_identical current_bill_score) similar ;;
  let identical_bill_numbers := List.filter Py.truthy (map key_or_empty kept) in
  let sorted := sort_bills_for_congress identical_bill_numbers in
  Eff.modify (fun st => {| identical_bill_numbers := sorted;
                           divisions := divisions st |}) ;;;
  Eff.ret sorted.

Definition get_identical_bill_numbers (object : Bill) : V (list string) :=
  current_bill_score <- get_current_bill_score object ;;
  identical_bill_numbers_for current_bill_score (get_similar_bills object).

(** *** The merged cosponsor roster *)

(** [cosponsors_deduped]: a dict keyed by [bioguide_id] ([None] is a valid
    key), kept in insertion order because its values are listed at the end. *)
Fixpoint dict_get (k : option string) (d : list (option string * Merged))
  : option Merged :=
  match d with
  | [] => None
  | (k', v) :: d' => if opt_eqb k k' then Some v else dict_get k d'
  end.

(** [d[k] = v]: overwrite in place, or add at the end. *)
Fixpoint dict_set (k : option string) (v : Merged)
    (d : list (option string * Merged)) : list (option string * Merged) :=
  match d with
  | [] => [(k, v)]
  | (k', v') :: d' =>
      if opt_eqb k k' then (k', v) :: d' else (k', v') :: dict_set k v d'
  end.

Definition append_bill (bctn : string) (e : Merged) : Merged :=
  {| row := row e;
     bill_congress_type_numbers := bill_congress_type_numbers e ++ [bctn];
     committees_named := committees_named e;
     ranks := ranks e |}.

(** [bctn = bill_dict.get(cosponsor.get('bill', ''), '')] *)
Definition bctn_of (bill_dict : gmap Z string) (cosponsor : CosponsorRow)
  : string :=
  match bill_dict !! r_bill cosponsor with Some n => n | None => "" end.

(** [committees_relevant]: the cosponsor's committees that are keys of
    [committees_map]. *)
Definition committees_relevant
    (committees_map : gmap (option string) (option string))
    (cosponsor : CosponsorRow) : list Membership :=
  List.filter (fun committeeItem =>
                 match committees_map !! m_committee committeeItem with
                 | Some _ => true | None => false end)
              (r_committees cosponsor).

(** The value stored at the first occurrence of a [bioguide_id]. *)
Definition first_entry (committees_map : gmap (option string) (option string))
    (bctn : string) (cosponsor : CosponsorRow) : Merged :=
  {| row := cosponsor;
     bill_congress_type_numbers := [bctn];
     committees_named :=
       map (fun committeeItem =>
              match committees_map !! m_committee committeeItem with
              | Some v => v | None => Some "" end)
           (committees_relevant committees_map cosponsor);
     ranks :=
       map (fun committeeItem =>
              match m_rank committeeItem with
              | Some v => v | None => PyStr "" end)
           (committees_relevant committees_map cosponsor) |}.

(** One iteration of [for cosponsor in cosponsors_for_bills]. A stored
    value always has keys, so [if cosponsors_deduped.get(bioguide_id)]
    tests presence. *)
Definition merge_row (committees_map : gmap (option string) (option string))
    (bill_dict : gmap Z string)
    (cosponsors_deduped : list (option string * Merged))
    (cosponsor : CosponsorRow) : list (option string * Merged) :=
  let bctn := bctn_of bill_dict cosponsor in
  let bioguide_id := r_bioguide_id cosponsor in
  match dict_get bioguide_id cosponsors_deduped with
  | Some e => dict_set bioguide_id (append_bill bctn e) cosponsors_deduped
  | None =>
      dict_set bioguide_id (first_entry committees_map bctn cosponsor)
               cosponsors_deduped
  end.

Definition merge_rows (committees_map : gmap (option string) (option string))
    (bill_dict : gmap Z string) (rows : list CosponsorRow)
  : list (option string * Merged) :=
  fold_left (merge_row committees_map bill_dict) rows [].

(** [{billid: billnumbers[i] for i, billid in enumerate(billids)}] *)
Definition make_bill_dict (billids : list Z) (billnumbers : list string)
  : gmap Z string :=
  fold_left (fun m p => <[fst p := snd p]> m) (combine billids billnumbers) ∅.

Definition lookup_bill_id (billnumber : string) : V Z :=
  match Bill_objects_get_id billnumber with
  | Some i => Eff.ret i
  | None => Eff.raise Py.DoesNotExist
  end.

(** [billnumbers]: the identical bills, with the current bill put in
    front when it is not among them. *)
Definition roster_billnumbers (object : Bill) (identical : list string)
  : list string :=
  if negb (str_in (b_bill_congress_type_number object) identical)
  then b_bill_congress_type_number object :: identical
  else identical.

Definition get_cosponsors_for_same_bills (object : Bill) : V (list Merged) :=
  let committees_map := get_committees_map object in
  st <- Eff.get ;;
  let billnumbers := roster_billnumbers object (identical_bill_numbers st) in
  billids <- Eff.map_m lookup_bill_id billnumbers ;;
  let bill_dict := make_bill_dict billids billnumbers in
  let cosponsors_for_bills := Cosponsor_objects_filter billids in
  Eff.ret (map snd (merge_rows committees_map bill_dict cosponsors_for_bills)).

(** *** The cosponsor display order *)

Definition with_sponsor (b : bool) (p : Person) : Person :=
  {| name := name p; bioguide_id := bioguide_id p;
     original_cosponsor := original_cosponsor p; rank := rank p;
     sponsor := b; current := current p; party := party p;
     name_full_official := name_full_official p;
     p_committee_id := p_committee_id p; committee_name := committee_name p |}.

Definition with_current (b : bool) (p : Person) : Person :=
  {| name := name p; bioguide_id := bioguide_id p;
     original_cosponsor := original_cosponsor p; rank := rank p;
     sponsor := sponsor p; current := Some b; party := party p;
     name_full_official := name_full_official p;
     p_committee_id := p_committee_id p; committee_name := committee_name p |}.

Definition with_party_and_name (pty nm : option string) (p : Person) : Person :=
  {| name := name p; bioguide_id := bioguide_id p;
     original_cosponsor := original_cosponsor p; rank := rank p;
     sponsor := sponsor p; current := current p; party := pty;
     name_full_official := nm;
     p_committee_id := p_committee_id p; committee_name := committee_name p |}.

Definition with_committee (cid : option string) (rk : pyval)
    (cname : option string) (p : Person) : Person :=
  {| name := name p; bioguide_id := bioguide_id p;
     original_cosponsor := original_cosponsor p; rank := rk;
     sponsor := sponsor p; current := current p; party := party p;
     name_full_official := name_full_official p;
     p_committee_id := cid; committee_name := cname |}.

(** The body of [for i, cosponsor in enumerate(cosponsors)]: what it
    writes into one cosponsor. *)
Definition enrich (object : Bill) (cosponsor : Person) : Person :=
  let bioguide := match bioguide_id cosponsor with Some b => b | None => "" end in
  if Py.truthy bioguide then
    match Cosponsor_objects_get bioguide with
    | None => with_current false cosponsor
    | Some cosponsor_item =>
        let cosponsor := with_current true cosponsor in
        let cosponsor :=
          with_party_and_name (ci_party cosponsor_item)
                              (ci_name_full_official cosponsor_item) cosponsor in
        fold_left
          (fun cosponsor membership =>
             if opt_eqb (Some bioguide) (m_bioguide membership) then
               let committee_id' := m_committee membership in
               fold_left
                 (fun cosponsor committee_dict =>
                    if opt_eqb committee_id' (committee_id committee_dict) then
                      with_committee committee_id'
                        (match m_rank membership with Some v => v | None => PyNone end)
                        (committee committee_dict) cosponsor
                    else cosponsor)
                 (committees_dict object) cosponsor
             else cosponsor)
          (ci_committees cosponsor_item) cosponsor
    end
  else cosponsor.

(** [type(c.get('rank')) == int] *)
Definition has_int_rank (c : Person) : bool :=
  match rank c with PyInt _ => true | _ => false end.

(** The order on the [rank] keys; only integer ranks reach the sort. *)
Definition rank_lt (a b : Person) : bool :=
  match rank a, rank b with
  | PyInt x, PyInt y => Z.ltb x y
  | _, _ => false
  end.

Definition name_lt (a b : Person) : bool := String.ltb (name a) (name b).

(** The first part of [get_cosponsors_dict]: the cosponsors sorted by name
    with the sponsor put in front. *)
Definition place_sponsor (object : Bill) : Py.exn + list Person :=
  let cosponsors := Py.sorted_by name_lt (cosponsors_dict object) in
  let sponsor := with_sponsor true (b_sponsor object) in
  let sponsor_name := name sponsor in
  if Py.truthy sponsor_name then
    let sponsors :=
      List.filter (fun cosponsor => String.eqb (name cosponsor) sponsor_name)
                  cosponsors in
    match sponsors with
    | s0 :: _ =>
        match Py.remove s0 cosponsors with
        | Some l => inr (s0 :: l)
        | None => inl Py.ValueError
        end
    | [] => inr (sponsor :: cosponsors)
    end
  else inr cosponsors.

Definition get_cosponsors_dict (object : Bill) : Py.exn + list Person :=
  match place_sponsor object with
  | inl e => inl e
  | inr cosponsors =>
      let cosponsors := map (enrich object) cosponsors in
      let rest := tl cosponsors in
      let original_cosponsors := List.filter original_cosponsor rest in
      let unoriginal_cosponsors :=
        List.filter (fun c => negb (original_cosponsor c)) rest in
      let sorted_original_ranked_cosponsors :=
        Py.sorted_by rank_lt (List.filter has_int_rank original_cosponsors) in
      let original_unranked_cosponsors :=
        List.filter (fun c => negb (has_int_rank c)) original_cosponsors in
      let sorted_unoriginal_ranked_cosponsors :=
        Py.sorted_by rank_lt (List.filter has_int_rank unoriginal_cosponsors) in
      let unoriginal_unranked_cosponsors :=
        List.filter (fun c => negb (has_int_rank c)) unoriginal_cosponsors in
      inr (firstn 1 cosponsors
             ++ sorted_original_ranked_cosponsors
             ++ original_unranked_cosponsors
             ++ sorted_unoriginal_ranked_cosponsors
             ++ unoriginal_unranked_cosponsors)
  end.

End Collaborators.

End views.

(** ** Notions used to state the aggregator's properties *)

Module aggregator.

Import billdata.

Local Open Scope string_scope.

(** The aggregator before its first document: an empty mapping, nothing
    logged, nothing on disk. *)
Definition idle : St := {| billsMeta := ∅; log := []; disk := [] |}.

(** The document has its titles and its cosponsors, so that storing it
    does not raise. *)
Definition storable (r : BillRecord) : bool :=
  match titles r, cosponsors r with
  | Some _, Some _ => true
  | _, _ => false
  end.

(** The two fields of a cosponsor that are stored. *)
Definition name_and_id (cosponsor : JsonObj) : JsonObj :=
  <["bioguide_id" := obj_get cosponsor "bioguide_id"]>
    (<["name" := obj_get cosponsor "name"]> ∅).

(** What processing a document that has its titles and its cosponsors
    stores under its key. *)
Definition entry_of (r : BillRecord) : Entry :=
  let titles := default [] (titles r) in
  {| e_titles := Some (map title titles);
     e_titles_whole_bill :=
       Some (map title (List.filter (fun t => negb (is_for_portion t)) titles));
     e_cosponsors := Some (Some (map name_and_id (default [] (cosponsors r)))) |}.

(** The normalizer's outcome, apart from the log. *)
Definition normalized (r : BillRecord) : Py.exn + option string :=
  fst (getBillCongressTypeNumber r idle).

(** The log line of a document without [bill_id], if it has none. *)
Definition complaint (r : BillRecord) : list string :=
  match bill_id r with
  | Some b => if Py.truthy b then [] else ["No bill_id: " +:+ Py.str_of (bill_type r)]
  | None => ["No bill_id: " +:+ Py.str_of (bill_type r)]
  end.

Definition logged (l : list string) (st : St) : St :=
  {| billsMeta := billsMeta st; log := log st ++ l; disk := disk st |}.

(** What is under [k] once a document that lacks its titles or its
    cosponsors has raised: the entry that was there, or an empty one,
    with the titles of the document if it has them. *)
Definition broken_entry (r : BillRecord) (e : option Entry) : Entry :=
  let e := match e with
           | Some e => if entry_truthy e then e else empty_entry
           | None => empty_entry
           end in
  match titles r with
  | Some ts =>
      set_titles_whole_bill
        (map title (List.filter (fun t => negb (is_for_portion t)) ts))
        (set_titles (map title ts) e)
  | None => e
  end.

(** The state after such a document with key [k] has raised. *)
Definition broken_off (k : string) (r : BillRecord) (st : St) : St :=
  {| billsMeta := <[k := broken_entry r (billsMeta st !! k)]> (billsMeta st);
     log := log st; disk := disk st |}.

(** The state after a document with key [k] has been stored. *)
Definition stored (k : string) (r : BillRecord) (st : St) : St :=
  let m := <[k := entry_of r]> (billsMeta st) in
  {| billsMeta := m; log := log st;
     disk := if Nat.eqb (size m mod SAVE_ON_COUNT) 0 then disk st ++ [m]
             else disk st |}.

(** How a walk ends: it gets through, or a normalizer's exception stops
    it, or a document that cannot be stored does, after the normalizer
    gave it the key [k]. *)
Inductive ending : Type :=
  | finished
  | raised (e : Py.exn)
  | broke (k : string) (r : BillRecord).

(** The documents the walk gets through before an exception stops it,
    as the writes they make, and how the walk ends. *)
Fixpoint writes (walk : list BillRecord) : list (string * Entry) * ending :=
  match walk with
  | [] => ([], finished)
  | r :: walk' =>
      match normalized r with
      | inl e => ([], raised e)
      | inr None => writes walk'
      | inr (Some k) =>
          if Py.truthy k
          then if storable r
               then ((k, entry_of r) :: fst (writes walk'), snd (writes walk'))
               else ([], broke k r)
          else writes walk'
      end
  end.

(** The outcome of a walk that ends so. *)
Definition outcome (e : ending) : Py.exn + unit :=
  match e with
  | finished => inr tt
  | raised e => inl e
  | broke _ _ => inl Py.TypeError
  end.

(** What a walk that ends so leaves of the mapping it reached. *)
Definition left_by (e : ending) (m : BillsMeta) : BillsMeta :=
  match e with
  | broke k r => <[k := broken_entry r (m !! k)]> m
  | _ => m
  end.

Definition apply_writes (w : list (string * Entry)) (m : BillsMeta) : BillsMeta :=
  fold_left (fun m p => <[fst p := snd p]> m) w m.

End aggregator.

(** ** The identity rule in the specification's words *)

Module identity.

Import views.

Section Rule.

Variable cleanReasons : list string -> list string.

(** The reason list of a match, as the view reads it. *)
Definition reasons (bill : SimilarityMatch) : list string :=
  cleanReasons (Py.split ", " (reason bill)).

(** (a) the reason list shares an element with the fixed vocabulary. *)
Definition reasons_intersect (bill : SimilarityMatch) : Prop :=
  exists x, In x IDENTICAL_REASONS /\ In x (reasons bill).

(** (b) [currentScore > 0] and
    [abs(score - currentScore) / currentScore < 0.1], in binary64. *)
Definition score_near (currentScore : float) (bill : SimilarityMatch) : Prop :=
  PrimFloat.ltb 0%float currentScore = true
  /\ PrimFloat.ltb
       (PrimFloat.div (PrimFloat.abs (PrimFloat.sub (score bill) currentScore))
                      currentScore)
       SIMILARITY_THRESHOLD = true.

Definition identical (currentScore : float) (bill : SimilarityMatch) : Prop :=
  reasons_intersect bill \/ score_near currentScore bill.

(** The same rule as a test. *)
Definition score_nearb (currentScore : float) (bill : SimilarityMatch) : bool :=
  PrimFloat.ltb 0%float currentScore
  && PrimFloat.ltb
       (PrimFloat.div (PrimFloat.abs (PrimFloat.sub (score bill) currentScore))
                      currentScore)
       SIMILARITY_THRESHOLD.

Definition identicalb (currentScore : float) (bill : SimilarityMatch) : bool :=
  reason_hit cleanReasons bill || score_nearb currentScore bill.

(** The divisors one evaluation of the condition adds to the record. *)
Definition divisors_of (cs : float) (bill : SimilarityMatch) : list float :=
  if reason_hit cleanReasons bill then []
  else if PrimFloat.ltb 0%float cs then [cs] else [].

Definition divided (l : list float) (st : ViewSt) : ViewSt :=
  {| identical_bill_numbers := identical_bill_numbers st;
     divisions := divisions st ++ l |}.

End Rule.

End identity.

(** ** Notions used to state the roster's properties *)

Module roster.

Import views.

(** The fetched rows of one person. *)
Definition rows_of (bioguide_id : option string) (rows : list CosponsorRow)
  : list CosponsorRow :=
  List.filter (fun r => opt_eqb (r_bioguide_id r) bioguide_id) rows.

(** The merged entry of a person as the rows determine it: the first row,
    with the bill keys of all the person's rows in fetch order. *)
Definition entry_for (committees_map : gmap (option string) (option string))
    (bill_dict : gmap Z string) (first : CosponsorRow)
    (mine : list CosponsorRow) : Merged :=
  {| row := first;
     bill_congress_type_numbers := map (bctn_of bill_dict) mine;
     committees_named :=
       committees_named (first_entry committees_map EmptyString first);
     ranks := ranks (first_entry committees_map EmptyString first) |}.

End roster.

(** ** Notions used to state the display order's properties *)

Module display.

Import views.

(** What the enrichment loop leaves alone in an entry. *)
Definition same_identity (c c' : Person) : Prop :=
  name c' = name c
  /\ sponsor c' = sponsor c
  /\ bioguide_id c' = bioguide_id c
  /\ original_cosponsor c' = original_cosponsor c.

End display.

(** ** Sample documents, matches and database rows *)

#[local] Set Warnings "-inexact-float".

Module samples.

Import billdata aggregator.

Local Open Scope string_scope.

Definition hr299 : BillRecord :=
  {| bill_id := Some "hr299-116"; bill_type := Some "hr";
     titles := Some []; cosponsors := Some [] |}.

Definition no_bill_id : BillRecord :=
  {| bill_id := None; bill_type := Some "hr"; titles := Some []; cosponsors := Some [] |}.

(** A [bill_id] without hyphen. *)
Definition hr299_bare : BillRecord :=
  {| bill_id := Some "hr299"; bill_type := Some "hr";
     titles := Some []; cosponsors := Some [] |}.

(** The document of bill [hr<n>] of the 116th Congress. *)
Definition bill_hr (n : nat) : BillRecord :=
  {| bill_id := Some ("hr" +:+ pretty n +:+ "-116"); bill_type := Some "hr";
     titles := Some []; cosponsors := Some [] |}.

(** The bills [hr1] to [hr1000], each once. *)
Definition thousand_bills : list BillRecord := map bill_hr (seq 1 1000).

(** The two matches of the specification's example. *)
Definition hr300_match : views.SimilarityMatch :=
  {| views.bill_congress_type_number := Some "116hr300";
     views.score := 0.95%float; views.reason := "identical" |}.

Definition hr301_match : views.SimilarityMatch :=
  {| views.bill_congress_type_number := Some "116hr301";
     views.score := 0.5%float; views.reason := "similar text" |}.

(** The entry of "116hr299" among its own similar bills, with the score
    the other matches are compared to. *)
Definition hr299_match : views.SimilarityMatch :=
  {| views.bill_congress_type_number := Some "116hr299";
     views.score := 0.9%float; views.reason := "bill text" |}.

(** A view that has resolved nothing yet. *)
Definition fresh_view : views.ViewSt :=
  {| views.identical_bill_numbers := []; views.divisions := [] |}.

(** Stand-ins for the collaborators: reasons kept as they are, bill keys
    sorted as strings. *)
Definition keep_reasons (reasons : list string) : list string := reasons.

Definition by_key (l : list string) : list string := Py.sorted_by String.ltb l.

(** A database with two bills and three cosponsor rows: one person
    cosponsors both bills, another only the first. *)
Definition bill_table (billnumber : string) : option Z :=
  if String.eqb billnumber "116hr1" then Some 1%Z
  else if String.eqb billnumber "116s5" then Some 2%Z
  else None.

Definition cosponsor_row (bioguide name : string) (bill : Z)
  : views.CosponsorRow :=
  {| views.r_bioguide_id := Some bioguide;
     views.r_name_full_official := Some name;
     views.r_party := Some "D"; views.r_state := Some "CA";
     views.r_leadership := None;
     views.r_committees :=
       [ {| views.m_committee := Some "HSJU"; views.m_bioguide := Some bioguide;
            views.m_rank := Some (views.PyInt 3) |} ];
     views.r_bill := bill |}.

Definition cosponsor_table : list views.CosponsorRow :=
  [ cosponsor_row "A000001" "Ann Adams" 1;
    cosponsor_row "B000002" "Bob Brown" 1;
    cosponsor_row "A000001" "Ann Adams" 2 ].

Definition cosponsors_of_bills (billids : list Z) : list views.CosponsorRow :=
  List.filter (fun r => existsb (Z.eqb (views.r_bill r)) billids)
              cosponsor_table.

Definition plain_person (name : string) : views.Person :=
  {| views.name := name; views.bioguide_id := None;
     views.original_cosponsor := false; views.rank := views.PyNone;
     views.sponsor := false; views.current := None; views.party := None;
     views.name_full_official := None; views.p_committee_id := None;
     views.committee_name := None |}.

(** The bill "116hr1", referred to one committee. *)
Definition hr1 : views.Bill :=
  {| views.b_bill_congress_type_number := "116hr1";
     views.get_similar_bills := [];
     views.committees_dict :=
       [ {| views.committee := Some "House Judiciary";
            views.committee_id := Some "HSJU" |} ];
     views.cosponsors_dict := [];
     views.b_sponsor := plain_person "Cy Clark" |}.

(** The bill "116hr299" with the two matches of the specification's
    example after its own entry. *)
Definition hr299_bill : views.Bill :=
  {| views.b_bill_congress_type_number := "116hr299";
     views.get_similar_bills := [hr299_match; hr300_match; hr301_match];
     views.committees_dict := [];
     views.cosponsors_dict := [];
     views.b_sponsor := plain_person "" |}.

(** The view once it has found "116s5" identical to the bill shown. *)
Definition resolved_view : views.ViewSt :=
  {| views.identical_bill_numbers := ["116s5"]; views.divisions := [] |}.

(** A [Cosponsor] table with one member, ranked 7th on the committee of
    "116hr1". *)
Definition cosponsor_items (bioguide : string) : option views.CosponsorItem :=
  if String.eqb bioguide "C000003" then
    Some {| views.ci_party := Some "R";
            views.ci_name_full_official := Some "Cyrus Clark";
            views.ci_committees :=
              [ {| views.m_committee := Some "HSJU";
                   views.m_bioguide := Some "C000003";
                   views.m_rank := Some (views.PyInt 7) |} ] |}
  else None.

Definition ranked_person (name : string) (original : bool) (rank : Z)
  : views.Person :=
  {| views.name := name; views.bioguide_id := None;
     views.original_cosponsor := original; views.rank := views.PyInt rank;
     views.sponsor := false; views.current := None; views.party := None;
     views.name_full_official := None; views.p_committee_id := None;
     views.committee_name := None |}.

Definition clark : views.Person :=
  {| views.name := "Cy Clark"; views.bioguide_id := Some "C000003";
     views.original_cosponsor := false; views.rank := views.PyNone;
     views.sponsor := false; views.current := None; views.party := None;
     views.name_full_official := None; views.p_committee_id := None;
     views.committee_name := None |}.

(** "116hr1" with its sponsor, ranked 7th, also listed among cosponsors
    ranked 1st and 2nd. *)
Definition hr1_cosponsored : views.Bill :=
  {| views.b_bill_congress_type_number := "116hr1";
     views.get_similar_bills := [];
     views.committees_dict := views.committees_dict hr1;
     views.cosponsors_dict :=
       [ ranked_person "Zoe Zane" true 2; clark;
         ranked_person "Amy Ames" true 1 ];
     views.b_sponsor := clark |}.

(** A bill whose sponsor object carries no name. *)
Definition hr2_unnamed_sponsor : views.Bill :=
  {| views.b_bill_congress_type_number := "116hr2";
     views.get_similar_bills := [];
     views.committees_dict := [];
     views.cosponsors_dict := [ plain_person "Amy Ames" ];
     views.b_sponsor := plain_person "" |}.

End samples.

(** ** Notions used to state what the aggregator keeps true *)

Module invariants.

Import billdata.

Local Open Scope string_scope.

(** A key as the normalizer builds it: not empty, and without hyphen. *)
Definition well_formed_key (k : string) : Prop :=
  k <> "" /\ Py.count_char hyphen k = 0.

(** An entry with its three fields, whose whole-bill titles are taken, in
    order, from its titles, and whose cosponsors have the two fields
    [name] and [bioguide_id] and no other. *)
Definition complete (e : Entry) : Prop :=
  exists ts ws cs,
    e_titles e = Some ts
    /\ e_titles_whole_bill e = Some ws
    /\ e_cosponsors e = Some (Some cs)
    /\ sublist ws ts
    /\ Forall (fun d : gmap string (option string) =>
                 dom d = ({[ "name"; "bioguide_id" ]} : gset string)) cs.

(** The snapshots a checkpoint may write: a positive multiple of
    [SAVE_ON_COUNT] keys. *)
Definition full_thousands (m : gmap string Entry) : Prop :=
  size m <> 0 /\ size m mod SAVE_ON_COUNT = 0.

Definition only_adds (a b : St) : Prop :=
  dom (billsMeta a) ⊆ dom (billsMeta b)
  /\ log a `prefix_of` log b
  /\ exists d, disk b = (disk a ++ d)%list /\ Forall full_thousands d.

End invariants.

(** ** scripts/billdata.py: the directory walk *)

Module walker.

Local Open Scope string_scope.

Definition is_lower (c : ascii) : bool :=
  let n := nat_of_ascii c in Nat.leb 97 n && Nat.leb n 122.

Definition is_digit (c : ascii) : bool :=
  let n := nat_of_ascii c in Nat.leb 48 n && Nat.leb n 57.

(** A regular expression [[p]+k] tried at the start of [s]: one or more
    characters of the class [p], as many as possible first, then [k] on
    what follows. *)
Fixpoint plus_then (p : ascii -> bool) (k : string -> bool) (s : string)
  : bool :=
  match s with
  | String c s' => p c && (plus_then p k s' || k s')
  | EmptyString => false
  end.

(** [re.match(r'[a-z]+[0-9]+', s) is not None] *)
Definition re_match_bill (s : string) : bool :=
  plus_then is_lower (plus_then is_digit (fun _ => true)) s.

(** [l[-k]] for [k >= 1] *)
Definition index_from_end {A} (l : list A) (k : nat) : Py.exn + A :=
  if Nat.leb k (length l) then
    match nth_error l (length l - k) with
    | Some x => inr x
    | None => inl Py.IndexError
    end
  else inl Py.IndexError.

Definition getTopBillLevel (dirName : string) : Py.exn + bool :=
  let dirName_parts := Py.split "/" dirName in
  match index_from_end dirName_parts 1 with
  | inl e => inl e
  | inr last =>
      if re_match_bill last then
        match index_from_end dirName_parts 3 with
        | inl e => inl e
        | inr third => inr (String.eqb third "bills")
        end
      else inr false
  end.

Definition isDataJson (fileName : string) : bool :=
  String.eqb fileName "data.json".

(** [os.path.join(a, b)] on POSIX, for two components. *)
Definition path_join (a b : string) : string :=
  if String.prefix "/" b then b
  else match a with
       | EmptyString => b
       | _ => if String.eqb (String.substring (String.length a - 1) 1 a) "/"
              then a +:+ b else a +:+ "/" +:+ b
       end.

(** What [testWalkDirs] can change: its list of paths, the lines sent to
    the log, and the lists its [print] shows, one per call. *)
Record WalkSt : Type := {
  filePathList : list string;
  info : list string;
  printed : list (list string)
}.

Definition logger_info (msg : string) : Eff.M WalkSt unit :=
  Eff.modify (fun st =>
    {| filePathList := filePathList st; info := (info st ++ [msg])%list;
       printed := printed st |}).

Definition lift {A} (r : Py.exn + A) : Eff.M WalkSt A := fun st => (r, st).

Local Open Scope eff_scope.

(** [walkBillDirs]; [os_walk] is what [os.walk(rootDir)] yields: the
    directories with their sub-directories and files. *)
Definition walkBillDirs (os_walk : list (string * list string * list string))
    (processFile : string -> string -> Eff.M WalkSt unit)
    (dirMatch : string -> Py.exn + bool) (fileMatch : string -> bool)
  : Eff.M WalkSt unit :=
  Eff.for_each
    (fun entry : string * list string * list string =>
       let '(dirName, subdirList, fileList) := entry in
       matched <- lift (dirMatch dirName) ;;
       if (matched : bool) then
         logger_info ("Entering directory: " +:+ dirName) ;;;
         let filteredFileList := List.filter fileMatch fileList in
         Eff.for_each (fun fname => processFile dirName fname) filteredFileList
       else Eff.ret tt)
    os_walk.

Definition addToFilePathList (dirName fileName : string) : Eff.M WalkSt unit :=
  Eff.modify (fun st =>
    let l := (filePathList st ++ [path_join dirName fileName])%list in
    {| filePathList := l; info := info st;
       printed := (printed st ++ [l])%list |}).

Definition testWalkDirs (os_walk : list (string * list string * list string))
  : Eff.M WalkSt (list string) :=
  Eff.modify (fun st => {| filePathList := []; info := info st;
                           printed := printed st |}) ;;;
  walkBillDirs os_walk addToFilePathList getTopBillLevel isDataJson ;;;
  st <- Eff.get ;;
  Eff.ret (filePathList st).

(** Every character of [s] is in the class [p]. *)
Fixpoint every (p : ascii -> bool) (s : string) : bool :=
  match s with
  | String c s' => p c && every p s'
  | EmptyString => true
  end.

(** The paths the walk hands to its callback for the directories of
    [os_walk] that [getTopBillLevel] accepts: one per file named
    [data.json], in walk order. *)
Definition collected (os_walk : list (string * list string * list string))
  : list string :=
  flat_map
    (fun entry : string * list string * list string =>
       let '(dirName, _, fileList) := entry in
       match getTopBillLevel dirName with
       | inr true => map (path_join dirName) (List.filter isDataJson fileList)
       | _ => []
       end)
    os_walk.

(** The default [rootDir] of [walkBillDirs], the one [testWalkDirs] and
    [updateBillsMeta] walk. *)
Definition rootDir : string := "../congress/data".

(** A directory that [os.walk(rootDir)] yields: [rootDir] itself, or a
    path that extends it. *)
Definition under_root (entry : string * list string * list string) : Prop :=
  exists rel, fst (fst entry) = rootDir +:+ rel.

(** [getTopBillLevel] answers, without raising. *)
Definition answers (entry : string * list string * list string) : Prop :=
  exists b, getTopBillLevel (fst (fst entry)) = inr b.

End walker.

(** ** Notions used to state the committee map's properties *)

Module committees.

Import views.

(** The loop of [get_committees_dict_deduped], from a given [seen]. *)
Fixpoint dedupe_from (l : list CommitteeItem) (seen : list string)
  : list CommitteeItem :=
  match l with
  | [] => []
  | committeeItem :: l' =>
      let k := match committee committeeItem with Some k => k | None => "" end in
      if negb (Py.truthy k) || str_in k seen then dedupe_from l' seen
      else committeeItem :: dedupe_from l' (seen ++ [k])
  end.

(** The committee is named [k]. *)
Definition named (k : string) (c : CommitteeItem) : bool :=
  opt_eqb (committee c) (Some k).

End committees.

(** ** Notions used to state the score's properties *)

Module scores.

Import views.

(** The match is the one of the bill [k]. *)
Definition has_key (k : string) (bill : SimilarityMatch) : bool :=
  opt_eqb (bill_congress_type_number bill) (Some k).

End scores.

(** ** Notions used to state the display order *)

Module ordering.

Import views.

(** The integer rank of a cosponsor that has one. *)
Definition rank_of (c : Person) : Z :=
  match rank c with PyInt z => z | _ => 0%Z end.

(** [a] does not come after [b] in name order. *)
Definition name_le (a b : Person) : Prop :=
  String.leb (name a) (name b) = true.

(** [a] has a smaller rank than [b], or the same rank and a name that
    does not come after. *)
Definition by_rank_then_name (a b : Person) : Prop :=
  (rank_of a < rank_of b)%Z \/ (rank_of a = rank_of b /\ name_le a b).

(** The sponsor has a name that no cosponsor bears, so that
    [get_cosponsors_dict] adds the sponsor's own entry. *)
Definition sponsor_added (object : Bill) : bool :=
  Py.truthy (name (b_sponsor object))
  && negb (existsb (fun c => String.eqb (name c) (name (b_sponsor object)))
                   (cosponsors_dict object)).

End ordering.

(** ** Further sample data *)

Module more_samples.

Import billdata.

Local Open Scope string_scope.

(** The document of "hr299-116" with one title. *)
Definition hr299_titled (text : string) : BillRecord :=
  {| bill_id := Some "hr299-116"; bill_type := Some "hr";
     titles := Some [ {| title := Some text; is_for_portion := false;
                         as_ := Some "introduced" |} ];
     cosponsors := Some [] |}.

(** A document of "hr299-116" that has cosponsors but no titles. *)
Definition hr299_untitled : BillRecord :=
  {| bill_id := Some "hr299-116"; bill_type := Some "hr";
     titles := None; cosponsors := Some [] |}.

(** A document of "hr300-116" that has a title but no cosponsors. *)
Definition hr300_unsponsored : BillRecord :=
  {| bill_id := Some "hr300-116"; bill_type := Some "hr";
     titles := Some [ {| title := Some "A Bill"; is_for_portion := false;
                         as_ := Some "introduced" |} ];
     cosponsors := None |}.

End more_samples.


(** ** The bill numbers of the related-document queries *)

Module related.

Import views.

(** A string holds the UTF-8 bytes of a Python [str]; a character is a
    byte that is not of the form [10xxxxxx], with the bytes of that form
    that follow it. *)
Definition is_continuation (c : ascii) : bool :=
  let n := nat_of_ascii c in Nat.leb 128 n && Nat.leb n 191.

Fixpoint drop_continuation (s : string) : string :=
  match s with
  | String c rest => if is_continuation c then drop_continuation rest else s
  | EmptyString => EmptyString
  end.

(** [s[n:]]: the string without its first [n] characters. *)
Fixpoint slice_from (n : nat) (s : string) : string :=
  match n, s with
  | O, _ => s
  | S n', String _ rest => slice_from n' (drop_continuation rest)
  | S _, EmptyString => EmptyString
  end.

(** The [bill_numbers] list of [get_related_statements],
    [get_related_committees] and [get_related_cbo]: the page's own number
    without its congress, then the identical bills' numbers without theirs,
    each appended unless the list built so far holds it. *)
Definition bill_numbers (slug : string) (identical_bill_numbers : list string)
  : list string :=
  fold_left
    (fun bill_numbers number =>
       if str_in (slice_from 3 number) bill_numbers then bill_numbers
       else (bill_numbers ++ [slice_from 3 number])%list)
    identical_bill_numbers [slice_from 3 slug].

(** The [bill_numbers] list of [get_crs_reports]: whole numbers are
    appended, while the test still looks for the number without its
    congress. *)
Definition crs_bill_numbers (slug : string)
    (identical_bill_numbers : list string) : list string :=
  fold_left
    (fun bill_numbers number =>
       if str_in (slice_from 3 number) bill_numbers then bill_numbers
       else (bill_numbers ++ [number])%list)
    identical_bill_numbers [slug].

End related.

(** ** [deep_get] *)

Module paths.

(** A parsed JSON value. *)
#[warnings="-register-all"] Inductive json : Type :=
| JNone
| JBool (b : bool)
| JInt (z : Z)
| JStr (s : string)
| JList (l : list json)
| JDict (d : gmap string json).

(** [d.get(key, None) if isinstance(d, dict) else None]. *)
Definition step (d : json) (key : string) : json :=
  match d with
  | JDict m => default JNone (m !! key)
  | _ => JNone
  end.

(** [deep_get(dictionary, *keys)]. *)
Definition deep_get (dictionary : json) (keys : list string) : json :=
  fold_left step keys dictionary.

(** The value is a dict. *)
Definition is_dict (d : json) : bool :=
  match d with JDict _ => true | _ => false end.

End paths.
(** * Properties *)

(** ** Splitting on a hyphen *)

Section SplitHyphen.

Local Open Scope string_scope.

Lemma prefix_hyphen (c : ascii) (s : string) :
  String.prefix "-" (String c s) = Ascii.eqb c hyphen.
Proof.
  change (String.prefix "-" (String c s))
    with (if ascii_dec hyphen c then String.prefix "" s else false).
  destruct (ascii_dec hyphen c) as [<-|Hne].
  - rewrite Ascii.eqb_refl. destruct s; reflexivity.
  - symmetry. apply Ascii.eqb_neq. congruence.
Qed.

Lemma split_hyphen_cons (c : ascii) (s : string) :
  Py.split "-" (String c s) =
  if Ascii.eqb c hyphen then EmptyString :: Py.split "-" s
  else match Py.split "-" s with
       | h :: t => String c h :: t
       | [] => [String c EmptyString]
       end.
Proof.
  unfold Py.split at 1. cbn [Py.split_from].
  rewrite prefix_hyphen. reflexivity.
Qed.

Lemma split_hyphen_length (s : string) :
  length (Py.split "-" s) = S (Py.count_char hyphen s).
Proof.
  induction s as [|c s IH]; [reflexivity|].
  rewrite split_hyphen_cons. cbn [Py.count_char].
  destruct (Ascii.eqb c hyphen); cbn [length].
  - rewrite IH. reflexivity.
  - destruct (Py.split "-" s) as [|h t]; cbn in *; lia.
Qed.

(** A string without hyphen is its own single piece. *)
Lemma split_hyphen_free (s : string) :
  Py.count_char hyphen s = 0 -> Py.split "-" s = [s].
Proof.
  induction s as [|c s IH]; [reflexivity|].
  cbn [Py.count_char]. rewrite split_hyphen_cons.
  destruct (Ascii.eqb c hyphen); [discriminate|].
  cbn. intros H. rewrite (IH H). reflexivity.
Qed.

Lemma append_empty_l (s : string) : EmptyString +:+ s = s.
Proof. reflexivity. Qed.

Lemma append_cons_l (x : ascii) (a s : string) :
  String x a +:+ s = String x (a +:+ s).
Proof. reflexivity. Qed.

(** The first hyphen ends the first piece. *)
Lemma split_hyphen_app (a c : string) :
  Py.count_char hyphen a = 0 ->
  Py.split "-" (a +:+ String hyphen c) = a :: Py.split "-" c.
Proof.
  induction a as [|x a IH]; intros H.
  - rewrite append_empty_l, split_hyphen_cons, Ascii.eqb_refl. reflexivity.
  - rewrite append_cons_l, split_hyphen_cons.
    cbn [Py.count_char] in H.
    destruct (Ascii.eqb x hyphen); [discriminate|].
    rewrite (IH H). reflexivity.
Qed.

Lemma append_empty_r (s : string) : s +:+ EmptyString = s.
Proof.
  induction s as [|x s IH]; [reflexivity|].
  rewrite append_cons_l, IH. reflexivity.
Qed.

Lemma join_two (a b : string) : Py.join [a; b] = a +:+ b.
Proof.
  unfold Py.join. cbn [fold_right]. rewrite append_empty_r. reflexivity.
Qed.

End SplitHyphen.

(** ** The bill-key normalizers *)

Section Normalizers.

Import billdata aggregator samples.

Local Open Scope string_scope.

Lemma truthy_of_hyphen (s : string) :
  0 < Py.count_char hyphen s -> Py.truthy s = true.
Proof. destruct s; cbn; [lia|reflexivity]. Qed.

(** The aggregator's normalizer on a document whose [bill_id] splits into
    exactly two pieces. *)
Lemma getBillCongressTypeNumber_two (fileDict : BillRecord) (st : St)
    (s a b : string) :
  bill_id fileDict = Some s ->
  Py.truthy s = true ->
  Py.split "-" s = [a; b] ->
  getBillCongressTypeNumber fileDict st = (inr (Some (b +:+ a)), st).
Proof.
  intros Hid Ht Hs. unfold getBillCongressTypeNumber.
  rewrite Hid, Ht, Hs. reflexivity.
Qed.

(** C4: for a [bill_id] "<type><number>-<congress>" whose two segments
    hold no hyphen, both normalizers return "<congress><type><number>";
    the aggregator's one returns it without raising and without logging. *)
Theorem normalize_valid_bill_id
    (type_number congress : string) (fileDict : BillRecord) (st : St) :
  Py.count_char hyphen type_number = 0 ->
  Py.count_char hyphen congress = 0 ->
  bill_id fileDict = Some (type_number +:+ "-" +:+ congress) ->
  getBillCongressTypeNumber fileDict st
    = (inr (Some (congress +:+ type_number)), st)
  /\ views.billIdToBillNumber (type_number +:+ "-" +:+ congress)
     = congress +:+ type_number.
Proof.
  intros Ha Hc Hid.
  change ("-" +:+ congress) with (String hyphen congress) in *.
  assert (Py.split "-" (type_number +:+ String hyphen congress)
          = [type_number; congress]) as Hsplit.
  { rewrite split_hyphen_app by exact Ha.
    rewrite split_hyphen_free by exact Hc. reflexivity. }
  split.
  - apply getBillCongressTypeNumber_two
      with (s := type_number +:+ String hyphen congress); auto.
    destruct type_number; reflexivity.
  - unfold views.billIdToBillNumber. rewrite Hsplit.
    cbn [rev app]. apply join_two.
Qed.

Lemma normalize_valid_bill_id_witness :
  getBillCongressTypeNumber hr299 idle = (inr (Some "116hr299"), idle)
  /\ views.billIdToBillNumber "hr299-116" = "116hr299".
Proof.
  apply (normalize_valid_bill_id "hr299" "116" hr299 idle); reflexivity.
Defined.

(** C9: on a [bill_id] with exactly one hyphen the aggregator's normalizer
    returns what the view's normalizer returns; with two hyphens they can
    differ ("a-b-c" gives "ba" and "cba"). *)
Theorem normalizers_agree_on_one_hyphen :
  (forall (s : string) (fileDict : BillRecord) (st : St),
      Py.count_char hyphen s = 1 ->
      bill_id fileDict = Some s ->
      getBillCongressTypeNumber fileDict st
        = (inr (Some (views.billIdToBillNumber s)), st))
  /\ (exists (s : string) (fileDict : BillRecord) (st : St),
         Py.count_char hyphen s = 2
         /\ bill_id fileDict = Some s
         /\ getBillCongressTypeNumber fileDict st
              <> (inr (Some (views.billIdToBillNumber s)), st)).
Proof.
  split.
  - intros s fileDict st Hone Hid.
    pose proof (split_hyphen_length s) as Hlen. rewrite Hone in Hlen.
    destruct (Py.split "-" s) as [|a [|b [|c l]]] eqn:Hs; try discriminate.
    unfold views.billIdToBillNumber. rewrite Hs. cbn [rev app].
    rewrite join_two.
    apply getBillCongressTypeNumber_two with (s := s); auto.
    apply truthy_of_hyphen. lia.
  - exists "a-b-c",
      {| bill_id := Some "a-b-c"; bill_type := None;
         titles := Some []; cosponsors := Some [] |}, idle.
    split; [reflexivity|]. split; [reflexivity|].
    vm_compute. discriminate.
Qed.

Lemma normalizers_agree_on_one_hyphen_witness :
  getBillCongressTypeNumber hr299 idle
    = (inr (Some (views.billIdToBillNumber "hr299-116")), idle).
Proof.
  apply (proj1 normalizers_agree_on_one_hyphen "hr299-116" hr299 idle);
    reflexivity.
Defined.

End Normalizers.

(** ** The metadata aggregator *)

Section Aggregator.

Import billdata aggregator samples.

Local Open Scope string_scope.

Lemma logged_nil (st : St) : logged [] st = st.
Proof. destruct st. unfold logged. cbn. rewrite app_nil_r. reflexivity. Qed.

Lemma getBillCongressTypeNumber_run (r : BillRecord) (st : St) :
  getBillCongressTypeNumber r st = (normalized r, logged (complaint r) st).
Proof.
  unfold normalized, complaint, getBillCongressTypeNumber.
  destruct (bill_id r) as [b|]; [|reflexivity].
  destruct (Py.truthy b); [|reflexivity].
  rewrite logged_nil.
  destruct (Py.split "-" b) as [|p0 [|p1 l]]; reflexivity.
Qed.

Lemma update_entry_present (k : string) (f : Entry -> Entry) (e : Entry)
    (st : St) :
  billsMeta st !! k = Some e ->
  update_entry k f st = (inr tt, set_meta (fun m => <[k := f e]> m) st).
Proof.
  intros H. unfold update_entry, Eff.bind, Eff.get. rewrite H. reflexivity.
Qed.

Lemma getBillTitles_all (r : BillRecord) :
  getBillTitles r true "all" = inr (titles r).
Proof. reflexivity. Qed.

Lemma getCosponsors_name_and_id (r : BillRecord) :
  getCosponsors r ["name"; "bioguide_id"]
  = match cosponsors r with
    | Some cs => inr (Some (map name_and_id cs))
    | None => inl Py.TypeError
    end.
Proof. unfold getCosponsors. destruct (cosponsors r); reflexivity. Qed.

(** The entry a document leaves under its key when storing it starts from
    the entry [e]. *)
Lemma store_fields (k : string) (r : BillRecord) (e : Entry) (st : St) :
  billsMeta st !! k = Some e ->
  Eff.bind (Eff.lift (getBillTitles r true "all")) (fun titles =>
   Eff.bind (Eff.lift (iterable titles)) (fun all_titles =>
   Eff.bind (update_entry k (set_titles (map title all_titles))) (fun _ =>
   Eff.bind (Eff.lift (iterable titles)) (fun whole_bill =>
   Eff.bind (update_entry k
          (set_titles_whole_bill
             (map title
                (List.filter (fun t => negb (is_for_portion t)) whole_bill))))
     (fun _ =>
   Eff.bind (Eff.lift (getCosponsors r ["name"; "bioguide_id"]))
     (fun cosponsors =>
   Eff.bind (update_entry k (set_cosponsors cosponsors)) (fun _ =>
   Eff.bind Eff.get (fun st =>
        let billCount := size (billsMeta st) in
        if Nat.eqb (billCount mod SAVE_ON_COUNT) 0 then saveBillsMeta
        else Eff.ret tt)))))))) st
  = if storable r then (inr tt, stored k r st)
    else (inl Py.TypeError,
          set_meta (fun m => <[k := broken_entry r (Some e)]> m) st).
Proof.
  intros H. rewrite getBillTitles_all, getCosponsors_name_and_id.
  assert ((if entry_truthy e then e else empty_entry) = e) as Hsame.
  { destruct e as [[?|] [?|] [?|]]; reflexivity. }
  unfold storable, broken_entry. rewrite Hsame.
  destruct (titles r) as [ts|] eqn:Hts.
  - unfold Eff.bind at 1, Eff.lift at 1. unfold Eff.bind at 1, Eff.lift at 1.
    cbn [iterable].
    unfold Eff.bind at 1. rewrite (update_entry_present _ _ e) by exact H.
    unfold Eff.bind at 1, Eff.lift at 1.
    unfold Eff.bind at 1. erewrite update_entry_present
      by (unfold set_meta; cbn [billsMeta]; apply lookup_insert_eq).
    unfold Eff.bind at 1, Eff.lift at 1.
    destruct (cosponsors r) as [cs|] eqn:Hcs.
    + unfold Eff.bind at 1. erewrite update_entry_present
        by (unfold set_meta; cbn [billsMeta]; apply lookup_insert_eq).
      unfold Eff.bind, Eff.get, stored, set_meta. cbn [billsMeta log disk].
      rewrite !insert_insert_eq.
      assert (set_cosponsors (Some (map name_and_id cs))
                (set_titles_whole_bill
                   (map title
                      (List.filter (fun t => negb (is_for_portion t)) ts))
                   (set_titles (map title ts) e)) = entry_of r) as ->.
      { unfold entry_of. rewrite Hts, Hcs. reflexivity. }
      destruct (Nat.eqb _ 0); reflexivity.
    + unfold set_meta. cbn [billsMeta log disk].
      rewrite !insert_insert_eq. reflexivity.
  - unfold Eff.bind at 1, Eff.lift at 1. unfold Eff.bind at 1, Eff.lift at 1.
    cbn [iterable]. unfold set_meta.
    rewrite insert_id by exact H. destruct st; reflexivity.
Qed.

Lemma complaint_resolved (r : BillRecord) :
  normalized r <> inr None -> complaint r = [].
Proof.
  unfold normalized, complaint, getBillCongressTypeNumber.
  destruct (bill_id r) as [b|]; [|intros H; exfalso; apply H; reflexivity].
  destruct (Py.truthy b); [reflexivity|].
  intros H; exfalso; apply H; reflexivity.
Qed.

Lemma stored_over_placeholder (k : string) (r : BillRecord) (e : Entry)
    (st : St) :
  stored k r (set_meta (fun m => <[k := e]> m) st) = stored k r st.
Proof.
  unfold stored, set_meta. cbn [billsMeta log disk].
  rewrite insert_insert_eq. reflexivity.
Qed.

Lemma addToBillsMeta_run (r : BillRecord) (st : St) :
  addToBillsMeta r st =
  match normalized r with
  | inl e => (inl e, st)
  | inr None => (inr tt, logged (complaint r) st)
  | inr (Some k) =>
      if Py.truthy k
      then if storable r then (inr tt, stored k r st)
           else (inl Py.TypeError, broken_off k r st)
      else (inr tt, st)
  end.
Proof.
  unfold addToBillsMeta. unfold Eff.bind at 1.
  rewrite getBillCongressTypeNumber_run.
  destruct (normalized r) as [e|[k|]] eqn:Hn; [| |reflexivity].
  - rewrite complaint_resolved, logged_nil by (rewrite Hn; discriminate).
    reflexivity.
  - rewrite complaint_resolved, logged_nil by (rewrite Hn; discriminate).
    destruct (Py.truthy k); [|reflexivity]. cbn [negb].
    unfold Eff.bind at 1, Eff.get.
    destruct (billsMeta st !! k) as [e|] eqn:Hk.
    + destruct (entry_truthy e) eqn:He.
      * unfold Eff.bind at 1, Eff.ret.
        refine (eq_trans (store_fields k r e st Hk) _).
        unfold broken_off, set_meta, broken_entry. rewrite Hk, He.
        reflexivity.
      * unfold Eff.bind at 1, Eff.modify.
        refine (eq_trans (store_fields k r empty_entry _ _) _);
          [unfold set_meta; cbn [billsMeta]; apply lookup_insert_eq|].
        rewrite stored_over_placeholder.
        unfold broken_off, set_meta, broken_entry. cbn [billsMeta log disk].
        rewrite Hk, He, insert_insert_eq. reflexivity.
    + unfold Eff.bind at 1, Eff.modify.
      refine (eq_trans (store_fields k r empty_entry _ _) _);
        [unfold set_meta; cbn [billsMeta]; apply lookup_insert_eq|].
      rewrite stored_over_placeholder.
      unfold broken_off, set_meta, broken_entry. cbn [billsMeta log disk].
      rewrite Hk, insert_insert_eq. reflexivity.
Qed.

Lemma walk_run (walk : list BillRecord) (st : St) :
  billsMeta (snd (walkBillDirs addToBillsMeta walk st))
    = left_by (snd (writes walk))
              (apply_writes (fst (writes walk)) (billsMeta st))
  /\ fst (walkBillDirs addToBillsMeta walk st) = outcome (snd (writes walk)).
Proof.
  revert st. induction walk as [|r walk IH]; intros st; [split; reflexivity|].
  unfold walkBillDirs in *. cbn [Eff.for_each writes]. unfold Eff.bind.
  rewrite addToBillsMeta_run.
  destruct (normalized r) as [e|[k|]]; [split; reflexivity | |].
  - destruct (Py.truthy k).
    + destruct (storable r); [|split; reflexivity].
      destruct (IH (stored k r st)) as [IH1 IH2]. rewrite IH1, IH2.
      split; reflexivity.
    + apply IH.
  - destruct (IH (logged (complaint r) st)) as [IH1 IH2]. rewrite IH1, IH2.
    split; reflexivity.
Qed.

Lemma apply_writes_frame (w : list (string * Entry)) (m1 m2 : BillsMeta)
    (i : string) :
  m1 !! i = m2 !! i \/ In i (map fst w) ->
  apply_writes w m1 !! i = apply_writes w m2 !! i.
Proof.
  revert m1 m2. induction w as [|[k v] w IH]; intros m1 m2 H.
  - destruct H as [H|[]]. exact H.
  - cbn [apply_writes fold_left fst snd]. apply IH.
    destruct (decide (k = i)) as [->|Hne].
    + left. rewrite !lookup_insert_eq. reflexivity.
    + rewrite !lookup_insert_ne by exact Hne.
      destruct H as [H|[H|H]]; [left; exact H | contradiction | right; exact H].
Qed.

Lemma apply_writes_other (w : list (string * Entry)) (m : BillsMeta)
    (i : string) :
  ~ In i (map fst w) -> apply_writes w m !! i = m !! i.
Proof.
  revert m. induction w as [|[k v] w IH]; intros m H; [reflexivity|].
  cbn [apply_writes fold_left fst snd].
  change (apply_writes w (<[k:=v]> m) !! i = m !! i).
  rewrite IH by (intros Hin; apply H; right; exact Hin).
  apply lookup_insert_ne. intros ->. apply H. left. reflexivity.
Qed.

(** Writing the same sequence again changes nothing. *)
Lemma apply_writes_twice (w : list (string * Entry)) (m : BillsMeta) :
  apply_writes w (apply_writes w m) = apply_writes w m.
Proof.
  apply map_eq. intros i.
  destruct (in_dec string_dec i (map fst w)) as [Hin|Hout].
  - apply apply_writes_frame. right. exact Hin.
  - rewrite apply_writes_other by exact Hout. reflexivity.
Qed.

(** Storing an interrupted document again changes nothing. *)
Lemma broken_entry_twice (r : BillRecord) (e : option Entry) :
  broken_entry r (Some (broken_entry r e)) = broken_entry r e.
Proof.
  unfold broken_entry.
  destruct e as [[[?|] [?|] [?|]]|], (titles r); reflexivity.
Qed.

(** Walking the same documents again, from the mapping the first walk
    left, leaves that mapping. *)
Lemma left_by_twice (w : list (string * Entry)) (e : ending) (m : BillsMeta) :
  left_by e (apply_writes w (left_by e (apply_writes w m)))
  = left_by e (apply_writes w m).
Proof.
  destruct e as [|e|k r]; cbn [left_by]; [apply apply_writes_twice..|].
  apply map_eq. intros i.
  destruct (decide (k = i)) as [<-|Hne].
  - rewrite !lookup_insert_eq. f_equal.
    destruct (in_dec string_dec k (map fst w)) as [Hin|Hout].
    + f_equal. etransitivity; [|apply (f_equal (fun m => m !! k)),
                                 (apply_writes_twice w m)].
      apply apply_writes_frame. right. exact Hin.
    + rewrite (apply_writes_other w _ k Hout), lookup_insert_eq.
      apply broken_entry_twice.
  - rewrite !lookup_insert_ne by exact Hne.
    etransitivity; [|apply (f_equal (fun m => m !! i)),
                       (apply_writes_twice w m)].
    apply apply_writes_frame. left. apply lookup_insert_ne. exact Hne.
Qed.

Lemma updateBillsMeta_run (walk : list BillRecord) (st : St) :
  billsMeta (snd (updateBillsMeta walk st))
    = left_by (snd (writes walk))
              (apply_writes (fst (writes walk)) (billsMeta st))
  /\ fst (updateBillsMeta walk st)
     = match outcome (snd (writes walk)) with
       | inl e => inl e
       | inr _ => inr (apply_writes (fst (writes walk)) (billsMeta st))
       end.
Proof.
  destruct (walk_run walk st) as [Hm Hr].
  unfold updateBillsMeta, Eff.bind.
  destruct (walkBillDirs addToBillsMeta walk st) as [[e|[]] st'];
    cbn [fst snd] in Hm, Hr; rewrite <- Hr.
  - split; [exact Hm | reflexivity].
  - cbn [fst snd saveBillsMeta Eff.modify Eff.get Eff.ret billsMeta].
    destruct (snd (writes walk)); try discriminate Hr.
    cbn [left_by] in Hm. rewrite <- Hm. split; reflexivity.
Qed.

(** The last snapshot on disk after a run that ends normally is the
    mapping the run returns. *)
Lemma updateBillsMeta_saved (walk : list BillRecord) (st : St)
    (m : BillsMeta) :
  fst (updateBillsMeta walk st) = inr m ->
  last (disk (snd (updateBillsMeta walk st))) = Some m.
Proof.
  unfold updateBillsMeta, Eff.bind.
  destruct (walkBillDirs addToBillsMeta walk st) as [[e|[]] st'];
    [discriminate|].
  cbn. intros [= <-]. apply last_snoc.
Qed.

(** C7: running the aggregator a second time over the same documents, on
    the mapping the first run left, ends the same way (the same exception,
    or the same returned mapping) and leaves the mapping equal to the one
    the first run left; when the runs end normally the snapshot each
    writes last is that mapping. *)
Theorem rerun_is_idempotent (walk : list BillRecord) (st : St) :
  let run1 := updateBillsMeta walk st in
  let run2 := updateBillsMeta walk (snd run1) in
  billsMeta (snd run2) = billsMeta (snd run1)
  /\ fst run2 = fst run1
  /\ match fst run1 with
     | inr m => last (disk (snd run1)) = Some m
                /\ last (disk (snd run2)) = Some m
     | inl _ => True
     end.
Proof.
  cbv zeta.
  destruct (updateBillsMeta_run walk st) as [Hm1 Hr1].
  destruct (updateBillsMeta_run walk (snd (updateBillsMeta walk st)))
    as [Hm2 Hr2].
  assert (billsMeta (snd (updateBillsMeta walk (snd (updateBillsMeta walk st))))
          = billsMeta (snd (updateBillsMeta walk st))) as Hsame.
  { rewrite Hm2, Hm1. apply left_by_twice. }
  assert (fst (updateBillsMeta walk (snd (updateBillsMeta walk st)))
          = fst (updateBillsMeta walk st)) as Hres.
  { rewrite Hr2, Hr1, Hm1.
    destruct (snd (writes walk)); cbn [outcome left_by]; try reflexivity.
    rewrite apply_writes_twice. reflexivity. }
  split; [exact Hsame|]. split; [exact Hres|].
  destruct (fst (updateBillsMeta walk st)) as [e|m] eqn:Hfst; [exact I|].
  split.
  - apply updateBillsMeta_saved. exact Hfst.
  - apply updateBillsMeta_saved. exact Hres.
Qed.

(** C5, as the code has it: a document whose [bill_id] is missing or empty makes
    the normalizer return [None] and log one line; the aggregator then
    leaves the mapping and the disk as they were, raises nothing, and the
    walk goes on with the remaining documents. *)
Theorem missing_bill_id_is_skipped
    (r : BillRecord) (rest : list BillRecord) (st : St) :
  bill_id r = None \/ bill_id r = Some "" ->
  let st' := snd (addToBillsMeta r st) in
  fst (getBillCongressTypeNumber r st) = inr None
  /\ fst (addToBillsMeta r st) = inr tt
  /\ log st' = (log st ++ ["No bill_id: " +:+ Py.str_of (bill_type r)])%list
  /\ billsMeta st' = billsMeta st
  /\ disk st' = disk st
  /\ updateBillsMeta (r :: rest) st = updateBillsMeta rest st'.
Proof.
  intros Hid. cbv zeta.
  assert (normalized r = inr None
          /\ complaint r = ["No bill_id: " +:+ Py.str_of (bill_type r)])
    as [Hn Hc].
  { unfold normalized, complaint, getBillCongressTypeNumber.
    destruct Hid as [-> | ->]; split; reflexivity. }
  assert (addToBillsMeta r st = (inr tt, logged (complaint r) st)) as Hrun.
  { rewrite addToBillsMeta_run, Hn. reflexivity. }
  rewrite getBillCongressTypeNumber_run, Hrun, Hn, Hc.
  repeat split.
  unfold updateBillsMeta, walkBillDirs. cbn [Eff.for_each].
  unfold Eff.bind. rewrite Hrun, Hc. reflexivity.
Qed.

Lemma missing_bill_id_is_skipped_witness :
  let st' := snd (addToBillsMeta no_bill_id idle) in
  fst (getBillCongressTypeNumber no_bill_id idle) = inr None
  /\ fst (addToBillsMeta no_bill_id idle) = inr tt
  /\ log st' = (log idle ++ ["No bill_id: hr"])%list
  /\ billsMeta st' = billsMeta idle
  /\ disk st' = disk idle
  /\ updateBillsMeta [no_bill_id; hr299] idle = updateBillsMeta [hr299] st'.
Proof.
  apply (missing_bill_id_is_skipped no_bill_id [hr299] idle).
  left. reflexivity.
Defined.

(** C5 as stated fails on a malformed [bill_id]: "hr299" has no second
    piece, the normalizer raises [IndexError] instead of returning [None],
    nothing is logged, and the walk stops before the next document, which
    a run without the malformed one stores. *)
Lemma malformed_bill_id_aborts :
  getBillCongressTypeNumber hr299_bare idle = (inl Py.IndexError, idle)
  /\ updateBillsMeta [hr299_bare; hr299] idle = (inl Py.IndexError, idle)
  /\ fst (updateBillsMeta [hr299] idle)
     = inr (<["116hr299" := entry_of hr299]> ∅).
Proof. repeat split. Qed.

Lemma truthy_nonempty (k : string) : Py.truthy k = true <-> k <> "".
Proof. destruct k; cbn; split; congruence. Qed.

Lemma snoc_not_self {A} (l : list A) (x : A) : (l ++ [x])%list <> l.
Proof.
  intros H. apply (f_equal (@length A)) in H.
  rewrite length_app in H. cbn in H. lia.
Qed.

(** Storing a document under [k] adds a key exactly when [k] is new. *)
Lemma stored_size (k : string) (r : BillRecord) (st : St) :
  size (billsMeta (stored k r st))
  = match billsMeta st !! k with
    | None => S (size (billsMeta st))
    | Some _ => size (billsMeta st)
    end.
Proof.
  unfold stored. cbn [billsMeta].
  destruct (billsMeta st !! k) eqn:Hk.
  - apply map_size_insert_Some. eauto.
  - apply map_size_insert_None. exact Hk.
Qed.

(** Storing a document writes a snapshot or leaves the disk alone,
    according to the count it reaches. *)
Lemma stored_disk (k : string) (r : BillRecord) (st : St) :
  disk (stored k r st)
  = if Nat.eqb (size (billsMeta (stored k r st)) mod SAVE_ON_COUNT) 0
    then (disk st ++ [billsMeta (stored k r st)])%list
    else disk st.
Proof. reflexivity. Qed.

(** A document is stored when it has a non-empty key, its titles and
    its cosponsors. *)
Lemma stored_iff (r : BillRecord) (st : St) :
  (exists k, normalized r = inr (Some k) /\ k <> "" /\ storable r = true)
  <-> exists k, fst (getBillCongressTypeNumber r st) = inr (Some k)
                /\ k <> "" /\ fst (addToBillsMeta r st) = inr tt.
Proof.
  rewrite getBillCongressTypeNumber_run, addToBillsMeta_run. cbn [fst].
  split; intros (k & Hk & Hne & Hs); exists k; rewrite Hk in *;
    (split; [reflexivity|]); (split; [exact Hne|]);
    rewrite (proj2 (truthy_nonempty k) Hne) in *;
    destruct (storable r); try reflexivity; discriminate.
Qed.

(** When processing a document writes a checkpoint. *)
Lemma checkpoint_iff (r : BillRecord) (st : St) :
  disk (snd (addToBillsMeta r st))
    = (disk st ++ [billsMeta (snd (addToBillsMeta r st))])%list
  <-> exists k, fst (getBillCongressTypeNumber r st) = inr (Some k)
                /\ k <> ""
                /\ fst (addToBillsMeta r st) = inr tt
                /\ size (billsMeta (snd (addToBillsMeta r st)))
                     mod SAVE_ON_COUNT = 0.
Proof.
  rewrite getBillCongressTypeNumber_run, addToBillsMeta_run. cbn [fst].
  destruct (normalized r) as [e|[k|]] eqn:Hn.
  - cbn [snd]. split.
    + intros E. destruct (snoc_not_self _ _ (eq_sym E)).
    + intros (k & Hk & _). discriminate.
  - destruct (Py.truthy k) eqn:Ht; [destruct (storable r)|]; cbn [fst snd].
    + apply truthy_nonempty in Ht. rewrite stored_disk.
      destruct (Nat.eqb_spec
                  (size (billsMeta (stored k r st)) mod SAVE_ON_COUNT) 0)
        as [Hz|Hnz]; split.
      * intros _. exists k. auto.
      * intros _. reflexivity.
      * intros E. destruct (snoc_not_self _ _ (eq_sym E)).
      * intros (k' & [= <-] & _ & _ & Hz). contradiction.
    + unfold broken_off. cbn [disk billsMeta]. split.
      * intros E. destruct (snoc_not_self _ _ (eq_sym E)).
      * intros (k' & _ & _ & Hraise & _). discriminate.
    + split.
      * intros E. destruct (snoc_not_self _ _ (eq_sym E)).
      * intros (k' & [= <-] & Hne & _). destruct k; [contradiction|discriminate].
  - cbn [snd]. unfold logged. cbn [billsMeta disk]. split.
    + intros E. destruct (snoc_not_self _ _ (eq_sym E)).
    + intros (k & Hk & _). discriminate.
Qed.

(** A document that cannot be stored still gets its key into the
    mapping. *)
Lemma broken_off_size (k : string) (r : BillRecord) (st : St) :
  size (billsMeta (broken_off k r st))
  = match billsMeta st !! k with
    | None => S (size (billsMeta st))
    | Some _ => size (billsMeta st)
    end.
Proof.
  unfold broken_off. cbn [billsMeta].
  destruct (billsMeta st !! k) eqn:Hk.
  - apply map_size_insert_Some. eauto.
  - apply map_size_insert_None. exact Hk.
Qed.

(** C6, as the code has it: processing a document writes a checkpoint
    exactly when the document has a non-empty key, is stored (processing
    it does not raise) and, once it is stored, the number of keys is a
    multiple of 1000, whether the key is new or not; otherwise the disk
    is untouched.  A new key raises the count by one, a key already
    present leaves it, and a document without key changes neither the
    mapping nor the disk. *)
Theorem checkpoint_rule (r : BillRecord) (st : St) :
  let st' := snd (addToBillsMeta r st) in
  let key := fst (getBillCongressTypeNumber r st) in
  (disk st' = (disk st ++ [billsMeta st'])%list
     <-> exists k, key = inr (Some k) /\ k <> ""
                   /\ fst (addToBillsMeta r st) = inr tt
                   /\ size (billsMeta st') mod SAVE_ON_COUNT = 0)
  /\ (disk st' = (disk st ++ [billsMeta st'])%list \/ disk st' = disk st)
  /\ (forall k, key = inr (Some k) -> k <> "" ->
        size (billsMeta st')
        = match billsMeta st !! k with
          | None => S (size (billsMeta st))
          | Some _ => size (billsMeta st)
          end)
  /\ ((forall k, key = inr (Some k) -> k = "") ->
        billsMeta st' = billsMeta st /\ disk st' = disk st).
Proof.
  cbv zeta. split; [apply checkpoint_iff|].
  rewrite getBillCongressTypeNumber_run, addToBillsMeta_run. cbn [fst].
  destruct (normalized r) as [e|[k|]] eqn:Hn.
  - cbn [snd]. split; [|split].
    + right. reflexivity.
    + intros k Hk. discriminate.
    + intros _. split; reflexivity.
  - destruct (Py.truthy k) eqn:Ht; [destruct (storable r)|]; cbn [snd].
    + apply truthy_nonempty in Ht. split; [|split].
      * rewrite stored_disk.
        destruct (Nat.eqb _ 0); [left|right]; reflexivity.
      * intros k' [= <-] _. apply stored_size.
      * intros Hskip. destruct (Ht (Hskip k eq_refl)).
    + apply truthy_nonempty in Ht. split; [|split].
      * right. reflexivity.
      * intros k' [= <-] _. apply broken_off_size.
      * intros Hskip. destruct (Ht (Hskip k eq_refl)).
    + split; [|split].
      * right. reflexivity.
      * intros k' [= <-] Hne. destruct k; [contradiction|discriminate].
      * intros _. split; reflexivity.
  - cbn [snd]. unfold logged. cbn [billsMeta disk]. split; [|split].
    + right. reflexivity.
    + intros k Hk. discriminate.
    + intros _. split; reflexivity.
Qed.

(** C6 as stated fails: after the thousand bills are stored, processing
    the document of [hr1] again stores under a key that is already there,
    and writes a checkpoint all the same, since the count is still 1000. *)
Lemma checkpoint_without_new_key :
  ~ (forall (r : BillRecord) (st : St),
       let st' := snd (addToBillsMeta r st) in
       disk st' = (disk st ++ [billsMeta st'])%list
       <-> exists k, fst (getBillCongressTypeNumber r st) = inr (Some k)
                     /\ billsMeta st !! k = None
                     /\ size (billsMeta st') mod SAVE_ON_COUNT = 0).
Proof.
  intros H.
  pose (st := snd (walkBillDirs addToBillsMeta thousand_bills idle)).
  assert (fst (getBillCongressTypeNumber (bill_hr 1) st) = inr (Some "116hr1"))
    as Hkey.
  { rewrite getBillCongressTypeNumber_run. reflexivity. }
  destruct (H (bill_hr 1) st) as [Hnew _].
  destruct Hnew as (k & Hk & Hfresh & _).
  - apply (checkpoint_iff (bill_hr 1) st).
    exists "116hr1". split; [exact Hkey|]. split; [discriminate|].
    split; [rewrite addToBillsMeta_run; reflexivity|].
    vm_compute. reflexivity.
  - rewrite Hkey in Hk. injection Hk as <-.
    revert Hfresh. vm_compute. discriminate.
Qed.

End Aggregator.

(** ** Python lists: sorting and removal *)

Section PyLists.

Context {A : Type}.

Lemma insert_by_permutation (lt : A -> A -> bool) (x : A) (l : list A) :
  Permutation (Py.insert_by lt x l) (x :: l).
Proof.
  induction l as [|y l IH]; cbn [Py.insert_by]; [reflexivity|].
  destruct (lt y x); [|reflexivity].
  rewrite IH. apply perm_swap.
Qed.

(** Sorting rearranges. *)
Lemma sorted_by_permutation (lt : A -> A -> bool) (l : list A) :
  Permutation (Py.sorted_by lt l) l.
Proof.
  induction l as [|x l IH]; [reflexivity|].
  unfold Py.sorted_by in *. cbn [fold_right].
  rewrite insert_by_permutation. apply perm_skip. exact IH.
Qed.

(** The two halves of a partition make up the list. *)
Lemma partition_permutation (p : A -> bool) (l : list A) :
  Permutation (List.filter p l ++ List.filter (fun x => negb (p x)) l) l.
Proof.
  induction l as [|x l IH]; [reflexivity|].
  cbn [List.filter]. destruct (p x); cbn [negb app].
  - apply perm_skip. exact IH.
  - rewrite <- Permutation_middle. apply perm_skip. exact IH.
Qed.

Context `{EqDecision A}.

(** Removing an element that is there takes one copy of it away. *)
Lemma remove_present (x : A) (l : list A) :
  In x l -> exists l', Py.remove x l = Some l' /\ Permutation l (x :: l').
Proof.
  induction l as [|y l IH]; [intros []|]. intros Hin. cbn [Py.remove].
  destruct (bool_decide_reflect (y = x)) as [->|Hne].
  - exists l. split; reflexivity.
  - destruct Hin as [E|Hin]; [contradiction|].
    destruct (IH Hin) as (l' & -> & Hperm).
    exists (y :: l'). split; [reflexivity|].
    rewrite Hperm. apply perm_swap.
Qed.

End PyLists.

(** ** Identical bills *)

Section Floats.

(** A float that is strictly positive is not a zero, so dividing by it
    does not raise. *)
Lemma positive_is_nonzero (x : float) :
  PrimFloat.ltb 0%float x = true -> PrimFloat.eqb x 0%float = false.
Proof.
  rewrite FloatAxioms.ltb_spec, FloatAxioms.eqb_spec.
  change (Prim2SF 0%float) with (S754_zero false).
  destruct (Prim2SF x) as [s|s| |s m e]; try destruct s; cbn; congruence.
Qed.

End Floats.

Section StringTests.

Lemma opt_eqb_eq (a b : option string) : views.opt_eqb a b = true <-> a = b.
Proof.
  destruct a as [x|], b as [y|]; cbn; try (split; congruence).
  rewrite String.eqb_eq. split; congruence.
Qed.

Lemma opt_eqb_refl (a : option string) : views.opt_eqb a a = true.
Proof. apply opt_eqb_eq. reflexivity. Qed.

Lemma str_in_In (x : string) (l : list string) :
  views.str_in x l = true <-> In x l.
Proof.
  unfold views.str_in. rewrite existsb_exists. split.
  - intros (y & Hy & E). apply String.eqb_eq in E. subst. exact Hy.
  - intros H. exists x. split; [exact H | apply String.eqb_refl].
Qed.

End StringTests.

#[local] Set Warnings "-inexact-float".

Section Identical.

Import views identity.

Variable cleanReasons : list string -> list string.
Variable sort_bills_for_congress : list string -> list string.

(** The sort rearranges the list it is given and nothing else. *)
Hypothesis sort_permutes :
  forall l, Permutation (sort_bills_for_congress l) l.

Lemma reason_hit_intersects (bill : SimilarityMatch) :
  reason_hit cleanReasons bill = true <-> reasons_intersect cleanReasons bill.
Proof.
  unfold reason_hit, reasons_intersect. rewrite existsb_exists.
  split; intros (x & Hx & H); exists x; (split; [exact Hx|]);
    apply str_in_In; exact H.
Qed.

Lemma score_nearb_near (cs : float) (bill : SimilarityMatch) :
  score_nearb cs bill = true <-> score_near cs bill.
Proof. unfold score_nearb, score_near. apply andb_true_iff. Qed.

Lemma identicalb_identical (cs : float) (bill : SimilarityMatch) :
  identicalb cleanReasons cs bill = true <-> identical cleanReasons cs bill.
Proof.
  unfold identicalb, identical.
  rewrite orb_true_iff, reason_hit_intersects, score_nearb_near. reflexivity.
Qed.

Lemma divided_nil (st : ViewSt) : divided [] st = st.
Proof. destruct st. unfold divided. cbn. rewrite app_nil_r. reflexivity. Qed.

Lemma divided_app (l1 l2 : list float) (st : ViewSt) :
  divided l2 (divided l1 st) = divided (l1 ++ l2) st.
Proof. unfold divided. cbn. rewrite app_assoc. reflexivity. Qed.

Lemma is_identical_run (cs : float) (bill : SimilarityMatch) (st : ViewSt) :
  is_identical cleanReasons cs bill st
  = (inr (identicalb cleanReasons cs bill), divided (divisors_of cleanReasons cs bill) st).
Proof.
  unfold is_identical, identicalb, divisors_of, score_close, score_nearb.
  destruct (reason_hit cleanReasons bill).
  - rewrite divided_nil. reflexivity.
  - cbn [orb]. destruct (PrimFloat.ltb 0%float cs) eqn:Hpos.
    + unfold Eff.bind, truediv. rewrite (positive_is_nonzero cs Hpos).
      reflexivity.
    + rewrite divided_nil. reflexivity.
Qed.

Lemma filter_is_identical_run (cs : float) (similar : list SimilarityMatch)
    (st : ViewSt) :
  Eff.filter_m (is_identical cleanReasons cs) similar st
  = (inr (List.filter (identicalb cleanReasons cs) similar),
     divided (flat_map (divisors_of cleanReasons cs) similar) st).
Proof.
  revert st. induction similar as [|bill similar IH]; intros st.
  - cbn. rewrite divided_nil. reflexivity.
  - cbn [Eff.filter_m List.filter flat_map]. unfold Eff.bind at 1.
    rewrite is_identical_run. unfold Eff.bind at 1. rewrite IH.
    rewrite divided_app. reflexivity.
Qed.

Lemma identical_bill_numbers_for_run (cs : float)
    (similar : list SimilarityMatch) (st : ViewSt) :
  identical_bill_numbers_for cleanReasons sort_bills_for_congress cs similar st
  = (let out :=
       sort_bills_for_congress
         (List.filter Py.truthy
            (map key_or_empty
               (List.filter (identicalb cleanReasons cs) similar))) in
     (inr out,
      {| identical_bill_numbers := out;
         divisions := divisions st ++ flat_map (divisors_of cleanReasons cs) similar |})).
Proof.
  unfold identical_bill_numbers_for. unfold Eff.bind at 1.
  rewrite filter_is_identical_run. reflexivity.
Qed.

(** Which keys the two comprehensions keep. *)
Lemma kept_keys (keep : SimilarityMatch -> bool)
    (similar : list SimilarityMatch) (k : string) :
  In k (List.filter Py.truthy (map key_or_empty (List.filter keep similar)))
  <-> exists bill, In bill similar
                   /\ bill_congress_type_number bill = Some k
                   /\ k <> EmptyString
                   /\ keep bill = true.
Proof.
  rewrite filter_In, in_map_iff. split.
  - intros [(bill & Hkey & Hin) Ht]. apply filter_In in Hin as [Hin Hkeep].
    exists bill. split; [exact Hin|].
    unfold key_or_empty in Hkey.
    destruct (bill_congress_type_number bill) as [k'|]; subst.
    + repeat split; auto. intros ->. discriminate.
    + discriminate.
  - intros (bill & Hin & Hkey & Hne & Hkeep). split.
    + exists bill. split.
      * unfold key_or_empty. rewrite Hkey. reflexivity.
      * apply filter_In. auto.
    + destruct k; [contradiction|reflexivity].
Qed.

(** What the two comprehensions and the sort make of the matches, for any
    current score. *)
Lemma identical_bill_numbers_for_keeps
    (currentScore : float) (similar : list SimilarityMatch) (st : ViewSt) :
  exists out st',
    identical_bill_numbers_for cleanReasons sort_bills_for_congress
      currentScore similar st = (inr out, st')
    /\ identical_bill_numbers st' = out
    /\ Permutation out
         (List.filter Py.truthy
            (map key_or_empty
               (List.filter (identicalb cleanReasons currentScore) similar)))
    /\ (forall k,
          In k out <->
          exists bill, In bill similar
                       /\ bill_congress_type_number bill = Some k
                       /\ k <> EmptyString
                       /\ identical cleanReasons currentScore bill).
Proof.
  rewrite identical_bill_numbers_for_run. cbv zeta.
  eexists. eexists. split; [reflexivity|]. split; [reflexivity|].
  split; [apply sort_permutes|].
  intros k. split.
  - intros Hin. apply (Permutation_in _ (sort_permutes _)) in Hin.
    apply kept_keys in Hin as (bill & H1 & H2 & H3 & H4).
    exists bill. repeat split; auto. apply identicalb_identical. exact H4.
  - intros (bill & H1 & H2 & H3 & H4).
    apply (Permutation_in _ (Permutation_sym (sort_permutes _))).
    apply kept_keys. exists bill. repeat split; auto.
    apply identicalb_identical. exact H4.
Qed.

(** Reading the current score leaves the view as it is. *)
Lemma get_current_bill_score_pure (object : Bill) (st : ViewSt) :
  snd (get_current_bill_score object st) = st.
Proof.
  unfold get_current_bill_score.
  destruct (str_in _ _); [|reflexivity].
  destruct (List.find _ _); reflexivity.
Qed.

(** C1: [get_identical_bill_numbers] reads the current bill's score and,
    whatever the matches and that score, returns (and stores in the view)
    the bill keys of exactly the matches whose reason list meets the
    identical-reason vocabulary or, when the current score is positive,
    whose score is within the relative threshold of it, leaving out the
    matches whose key is absent or empty; the sort only rearranges them.
    When reading the score raises, so does the method, and the view is
    left as it was. *)
Theorem identical_bills_are_the_matching_ones (object : Bill) (st : ViewSt) :
  match fst (get_current_bill_score object st) with
  | inl e =>
      get_identical_bill_numbers cleanReasons sort_bills_for_congress object st
      = (inl e, st)
  | inr currentScore =>
      exists out st',
        get_identical_bill_numbers cleanReasons sort_bills_for_congress
          object st = (inr out, st')
        /\ identical_bill_numbers st' = out
        /\ Permutation out
             (List.filter Py.truthy
                (map key_or_empty
                   (List.filter (identicalb cleanReasons currentScore)
                                (get_similar_bills object))))
        /\ (forall k,
              In k out <->
              exists bill, In bill (get_similar_bills object)
                           /\ bill_congress_type_number bill = Some k
                           /\ k <> EmptyString
                           /\ identical cleanReasons currentScore bill)
  end.
Proof.
  pose proof (get_current_bill_score_pure object st) as Hpure.
  unfold get_identical_bill_numbers, Eff.bind.
  destruct (get_current_bill_score object st) as [[e|currentScore] st0].
  - cbn [fst snd] in *. subst st0. reflexivity.
  - cbn [fst snd] in *. subst st0.
    apply identical_bill_numbers_for_keeps.
Qed.

(** Without a positive score the proximity test is false and divides
    nothing. *)
Lemma no_score_no_division (cs : float) (similar : list SimilarityMatch) :
  PrimFloat.ltb 0%float cs = false ->
  flat_map (divisors_of cleanReasons cs) similar = []
  /\ List.filter (identicalb cleanReasons cs) similar
     = List.filter (reason_hit cleanReasons) similar.
Proof.
  intros Hcs. split.
  - induction similar as [|bill similar IH]; [reflexivity|].
    cbn [flat_map]. rewrite IH. unfold divisors_of. rewrite Hcs.
    destruct (reason_hit cleanReasons bill); reflexivity.
  - apply filter_ext. intros bill. unfold identicalb, score_nearb.
    rewrite Hcs. cbn [andb]. apply orb_false_r.
Qed.

(** C2: when the current score is not strictly positive (zero above all),
    resolving the identical bills evaluates no division at all, so it
    cannot divide by zero, it ends normally, and a key is returned exactly
    when it is the non-empty key of a match whose reason list meets the
    identical-reason vocabulary. *)
Theorem no_division_without_positive_score
    (currentScore : float) (similar : list SimilarityMatch) (st : ViewSt) :
  PrimFloat.ltb 0%float currentScore = false ->
  exists out st',
    identical_bill_numbers_for cleanReasons sort_bills_for_congress
      currentScore similar st = (inr out, st')
    /\ divisions st' = divisions st
    /\ (forall k,
          In k out <->
          exists bill, In bill similar
                       /\ bill_congress_type_number bill = Some k
                       /\ k <> EmptyString
                       /\ reasons_intersect cleanReasons bill).
Proof.
  intros Hcs. rewrite identical_bill_numbers_for_run. cbv zeta.
  destruct (no_score_no_division currentScore similar Hcs) as [Hdiv Hfilter].
  rewrite Hdiv, Hfilter, app_nil_r.
  eexists. eexists. split; [reflexivity|]. split; [reflexivity|].
  intros k. split.
  - intros Hin. apply (Permutation_in _ (sort_permutes _)) in Hin.
    apply kept_keys in Hin as (bill & H1 & H2 & H3 & H4).
    exists bill. repeat split; auto. apply reason_hit_intersects. exact H4.
  - intros (bill & H1 & H2 & H3 & H4).
    apply (Permutation_in _ (Permutation_sym (sort_permutes _))).
    apply kept_keys. exists bill. repeat split; auto.
    apply reason_hit_intersects. exact H4.
Qed.

(** Whatever the current score, every divisor is non-zero: the resolver
    never raises [ZeroDivisionError]. *)
Lemma divisors_are_nonzero (cs : float) (similar : list SimilarityMatch) :
  Forall (fun d => PrimFloat.eqb d 0%float = false)
         (flat_map (divisors_of cleanReasons cs) similar).
Proof.
  induction similar as [|bill similar IH]; [constructor|].
  cbn [flat_map]. apply Forall_app. split; [|exact IH].
  unfold divisors_of. destruct (reason_hit cleanReasons bill); [constructor|].
  destruct (PrimFloat.ltb 0%float cs) eqn:Hpos; [|constructor].
  constructor; [apply positive_is_nonzero; exact Hpos | constructor].
Qed.

(** A bill that is not among its own similar bills has score 0, and
    resolving its identical bills divides nothing. *)
Lemma unscored_bill_divides_nothing (object : Bill) (st : ViewSt) :
  str_in (b_bill_congress_type_number object) (get_billnumbers_similar object)
    = false ->
  get_current_bill_score object st = (inr 0%float, st)
  /\ divisions
       (snd (get_identical_bill_numbers cleanReasons sort_bills_for_congress
               object st))
     = divisions st.
Proof.
  intros Hout.
  assert (get_current_bill_score object st = (inr 0%float, st)) as Hscore.
  { unfold get_current_bill_score. rewrite Hout. reflexivity. }
  split; [exact Hscore|].
  unfold get_identical_bill_numbers, Eff.bind. rewrite Hscore.
  rewrite identical_bill_numbers_for_run. cbv zeta. cbn [snd divisions].
  destruct (no_score_no_division 0%float (get_similar_bills object) eq_refl)
    as [-> _].
  apply app_nil_r.
Qed.

End Identical.

Section IdenticalSamples.

Import views identity samples.

Lemma by_key_permutes (l : list string) : Permutation (by_key l) l.
Proof. apply sorted_by_permutation. Qed.

(** The example of the specification: with current score 0.90, "116hr300"
    is kept for its reason, and "116hr301" is dropped after one division. *)
Example resolve_spec_example :
  identical_bill_numbers_for keep_reasons by_key 0.9%float
    [hr300_match; hr301_match] fresh_view
  = (inr ["116hr300"],
     {| identical_bill_numbers := ["116hr300"]; divisions := [0.9%float] |}).
Proof. vm_compute. reflexivity. Qed.

(** The bill "116hr299", scored 0.90 among its own similar bills: it is
    identical to itself, "116hr300" is kept for its reason, and
    "116hr301" is dropped; the two matches without an identical reason
    cost one division each. *)
Example resolve_for_bill_example :
  get_identical_bill_numbers keep_reasons by_key hr299_bill fresh_view
  = (inr ["116hr299"; "116hr300"],
     {| identical_bill_numbers := ["116hr299"; "116hr300"];
        divisions := [0.9%float; 0.9%float] |}).
Proof. vm_compute. reflexivity. Qed.

Lemma identical_bills_are_the_matching_ones_witness :
  exists out st',
    get_identical_bill_numbers keep_reasons by_key hr299_bill fresh_view
      = (inr out, st')
    /\ identical_bill_numbers st' = out
    /\ Permutation out
         (List.filter Py.truthy
            (map key_or_empty
               (List.filter (identicalb keep_reasons 0.9%float)
                            (get_similar_bills hr299_bill))))
    /\ (forall k,
          In k out <->
          exists bill, In bill (get_similar_bills hr299_bill)
                       /\ bill_congress_type_number bill = Some k
                       /\ k <> EmptyString
                       /\ identical keep_reasons 0.9%float bill).
Proof.
  exact (identical_bills_are_the_matching_ones keep_reasons by_key
           by_key_permutes hr299_bill fresh_view).
Defined.

Lemma no_division_without_positive_score_witness :
  exists out st',
    identical_bill_numbers_for keep_reasons by_key 0%float
      [hr300_match; hr301_match] fresh_view = (inr out, st')
    /\ divisions st' = divisions fresh_view
    /\ (forall k,
          In k out <->
          exists bill, In bill [hr300_match; hr301_match]
                       /\ bill_congress_type_number bill = Some k
                       /\ k <> EmptyString
                       /\ reasons_intersect keep_reasons bill).
Proof.
  apply (no_division_without_positive_score keep_reasons by_key
           by_key_permutes 0%float [hr300_match; hr301_match] fresh_view).
  reflexivity.
Defined.

End IdenticalSamples.

(** ** The merged cosponsor roster *)

Section Roster.

Import views roster.

Variable committees_map : gmap (option string) (option string).
Variable bill_dict : gmap Z string.

Lemma dict_get_set (k k' : option string) (v : Merged)
    (d : list (option string * Merged)) :
  dict_get k (dict_set k' v d) = if opt_eqb k k' then Some v else dict_get k d.
Proof.
  induction d as [|[k1 v1] d IH]; [reflexivity|].
  cbn [dict_set dict_get].
  destruct (opt_eqb k' k1) eqn:E1; cbn [dict_get].
  - apply opt_eqb_eq in E1. subst k1.
    destruct (opt_eqb k k'); reflexivity.
  - rewrite IH. destruct (opt_eqb k k1) eqn:E2; [|reflexivity].
    destruct (opt_eqb k k') eqn:E3; [|reflexivity].
    apply opt_eqb_eq in E2, E3. subst. rewrite opt_eqb_refl in E1.
    discriminate.
Qed.

Lemma dict_set_keys (k : option string) (v : Merged)
    (d : list (option string * Merged)) :
  map fst (dict_set k v d)
  = match dict_get k d with
    | Some _ => map fst d
    | None => map fst d ++ [k]
    end.
Proof.
  induction d as [|[k1 v1] d IH]; [reflexivity|].
  cbn [dict_set dict_get].
  destruct (opt_eqb k k1); [reflexivity|].
  cbn [map fst]. rewrite IH. destruct (dict_get k d); reflexivity.
Qed.

Lemma dict_get_In (k : option string) (e : Merged)
    (d : list (option string * Merged)) :
  dict_get k d = Some e -> In (k, e) d.
Proof.
  induction d as [|[k1 v1] d IH]; [discriminate|].
  cbn [dict_get]. destruct (opt_eqb k k1) eqn:E.
  - apply opt_eqb_eq in E. intros [= ->]. left. congruence.
  - intros H. right. exact (IH H).
Qed.

Lemma dict_get_None (k : option string) (d : list (option string * Merged)) :
  dict_get k d = None -> ~ In k (map fst d).
Proof.
  induction d as [|[k1 v1] d IH]; [intros _ []|].
  cbn [dict_get]. destruct (opt_eqb k k1) eqn:E; [discriminate|].
  intros H [E'|Hin].
  - cbn in E'. subst. rewrite opt_eqb_refl in E. discriminate.
  - exact (IH H Hin).
Qed.

Lemma In_dict_get (k : option string) (e : Merged)
    (d : list (option string * Merged)) :
  List.NoDup (map fst d) -> In (k, e) d -> dict_get k d = Some e.
Proof.
  induction d as [|[k1 v1] d IH]; [intros _ []|].
  cbn [map fst dict_get]. intros Hnd Hin.
  apply List.NoDup_cons_iff in Hnd as [Hout Hnd'].
  destruct Hin as [[= -> ->]|Hin].
  - rewrite opt_eqb_refl. reflexivity.
  - destruct (opt_eqb k k1) eqn:E.
    + apply opt_eqb_eq in E. subst. exfalso. apply Hout.
      apply (in_map fst) in Hin. exact Hin.
    + apply IH; assumption.
Qed.

Lemma merge_rows_snoc (rows : list CosponsorRow) (r : CosponsorRow) :
  merge_rows committees_map bill_dict (rows ++ [r])
  = merge_row committees_map bill_dict
      (merge_rows committees_map bill_dict rows) r.
Proof. unfold merge_rows. apply fold_left_app. Qed.

Lemma rows_of_snoc (b : option string) (rows : list CosponsorRow)
    (r : CosponsorRow) :
  rows_of b (rows ++ [r])
  = rows_of b rows ++ (if opt_eqb (r_bioguide_id r) b then [r] else []).
Proof.
  unfold rows_of. rewrite List.filter_app. cbn [List.filter].
  destruct (opt_eqb (r_bioguide_id r) b); reflexivity.
Qed.

Lemma opt_eqb_sym (a b : option string) : opt_eqb a b = opt_eqb b a.
Proof.
  destruct (opt_eqb a b) eqn:E1, (opt_eqb b a) eqn:E2; try reflexivity.
  - apply opt_eqb_eq in E1. subst. rewrite opt_eqb_refl in E2. discriminate.
  - apply opt_eqb_eq in E2. subst. rewrite opt_eqb_refl in E1. discriminate.
Qed.

(** What the dict holds for a person after the rows are merged: nothing
    if the person has no row, else the entry the person's rows determine. *)
Lemma merge_rows_get (rows : list CosponsorRow) (b : option string) :
  dict_get b (merge_rows committees_map bill_dict rows)
  = match rows_of b rows with
    | [] => None
    | first :: _ =>
        Some (entry_for committees_map bill_dict first (rows_of b rows))
    end.
Proof.
  induction rows as [|r rows IH] using rev_ind; [reflexivity|].
  rewrite merge_rows_snoc, rows_of_snoc. unfold merge_row.
  destruct (opt_eqb (r_bioguide_id r) b) eqn:Eb.
  - apply opt_eqb_eq in Eb. subst b. rewrite IH.
    destruct (rows_of (r_bioguide_id r) rows) as [|first others] eqn:Hmine.
    + rewrite dict_get_set, opt_eqb_refl. reflexivity.
    + rewrite dict_get_set, opt_eqb_refl. cbn [app].
      unfold append_bill, entry_for. cbn [row bill_congress_type_numbers
        committees_named ranks]. do 2 f_equal.
      cbn [map app]. f_equal. rewrite List.map_app. reflexivity.
  - rewrite app_nil_r.
    assert (forall v,
              dict_get b (dict_set (r_bioguide_id r) v
                            (merge_rows committees_map bill_dict rows))
              = dict_get b (merge_rows committees_map bill_dict rows)) as Hother.
    { intros v. rewrite dict_get_set, opt_eqb_sym, Eb. reflexivity. }
    destruct (dict_get (r_bioguide_id r)
                (merge_rows committees_map bill_dict rows));
      rewrite Hother; exact IH.
Qed.

Lemma merge_rows_keys_nodup (rows : list CosponsorRow) :
  List.NoDup (map fst (merge_rows committees_map bill_dict rows)).
Proof.
  induction rows as [|r rows IH] using rev_ind; [constructor|].
  rewrite merge_rows_snoc. unfold merge_row.
  destruct (dict_get (r_bioguide_id r)
              (merge_rows committees_map bill_dict rows)) eqn:Hget;
    rewrite dict_set_keys, Hget; [exact IH|].
  apply List.NoDup_app; [exact IH | |].
  - constructor; [intros []|constructor].
  - intros k Hk [<-|[]]. exact (dict_get_None _ _ Hget Hk).
Qed.

Lemma rows_of_head (b : option string) (rows : list CosponsorRow)
    (first : CosponsorRow) (others : list CosponsorRow) :
  rows_of b rows = first :: others ->
  In first rows /\ r_bioguide_id first = b.
Proof.
  intros H.
  assert (In first (rows_of b rows)) as Hin by (rewrite H; left; reflexivity).
  unfold rows_of in Hin. apply filter_In in Hin as [Hin Hb].
  apply opt_eqb_eq in Hb. auto.
Qed.

(** Every value of the merged dict is the entry its person's rows
    determine. *)
Lemma merge_rows_values (rows : list CosponsorRow) (k : option string)
    (e : Merged) :
  In (k, e) (merge_rows committees_map bill_dict rows) ->
  exists first others,
    rows_of k rows = first :: others
    /\ e = entry_for committees_map bill_dict first (first :: others).
Proof.
  intros Hin.
  apply (In_dict_get _ _ _ (merge_rows_keys_nodup rows)) in Hin.
  rewrite merge_rows_get in Hin.
  destruct (rows_of k rows) as [|first others]; [discriminate|].
  injection Hin as <-. exists first, others. split; reflexivity.
Qed.

(** C10: when a further row arrives for a person the dict already holds,
    the person's entry still rests on the first fetched row of that person
    (its party, state, official name and leadership are that row's, its
    committees and ranks those computed from that row), the new row only
    adds its bill key at the end of [bill_congress_type_numbers], and no
    other entry, nor the order of the entries, changes. *)
Theorem later_rows_only_append
    (rows : list CosponsorRow) (r : CosponsorRow) (e : Merged) :
  dict_get (r_bioguide_id r) (merge_rows committees_map bill_dict rows)
    = Some e ->
  let d := merge_rows committees_map bill_dict rows in
  let d' := merge_rows committees_map bill_dict (rows ++ [r]) in
  (exists first others e',
      rows_of (r_bioguide_id r) rows = first :: others
      /\ dict_get (r_bioguide_id r) d' = Some e'
      /\ row e' = first
      /\ r_party (row e') = r_party first
      /\ r_state (row e') = r_state first
      /\ r_name_full_official (row e') = r_name_full_official first
      /\ r_leadership (row e') = r_leadership first
      /\ committees_named e'
         = committees_named (first_entry committees_map EmptyString first)
      /\ ranks e' = ranks (first_entry committees_map EmptyString first)
      /\ row e' = row e
      /\ committees_named e' = committees_named e
      /\ ranks e' = ranks e
      /\ bill_congress_type_numbers e'
         = bill_congress_type_numbers e ++ [bctn_of bill_dict r])
  /\ (forall k, k <> r_bioguide_id r -> dict_get k d' = dict_get k d)
  /\ map fst d' = map fst d.
Proof.
  intros Hget. cbv zeta. rewrite merge_rows_snoc. unfold merge_row.
  rewrite Hget. split; [|split].
  - rewrite merge_rows_get in Hget.
    destruct (rows_of (r_bioguide_id r) rows) as [|first others];
      [discriminate|].
    injection Hget as <-.
    exists first, others. eexists. split; [reflexivity|].
    split; [rewrite dict_get_set, opt_eqb_refl; reflexivity|].
    cbn. repeat split.
  - intros k Hk. rewrite dict_get_set.
    destruct (opt_eqb k (r_bioguide_id r)) eqn:E; [|reflexivity].
    apply opt_eqb_eq in E. contradiction.
  - rewrite dict_set_keys, Hget. reflexivity.
Qed.

End Roster.

Section RosterView.

Import views roster.

Variable Bill_objects_get_id : string -> option Z.
Variable Cosponsor_objects_filter : list Z -> list CosponsorRow.

(** The keys of the merged dict are the ids of its values. *)
Lemma merged_ids (cm : gmap (option string) (option string))
    (bd : gmap Z string) (rows : list CosponsorRow) :
  map (fun e => r_bioguide_id (row e)) (map snd (merge_rows cm bd rows))
  = map fst (merge_rows cm bd rows).
Proof.
  rewrite List.map_map. apply map_ext_in. intros [k e] Hin.
  destruct (merge_rows_values cm bd rows k e Hin) as (first & others & Hmine & ->).
  cbn. apply (rows_of_head k rows first others Hmine).
Qed.

(** C3: when the bill lookups succeed, the roster has exactly one entry
    for each [bioguide_id] among the fetched rows (every row's id has an
    entry, and no two entries share an id), each entry is built on a
    fetched row, and its [bill_congress_type_numbers] has as many elements
    as there are fetched rows with that id: two for a person who
    cosponsors two of the bills. *)
Theorem roster_has_one_entry_per_person
    (object : Bill) (st : ViewSt) (billids : list Z) :
  let billnumbers := roster_billnumbers object (identical_bill_numbers st) in
  Eff.map_m (lookup_bill_id Bill_objects_get_id) billnumbers st
    = (inr billids, st) ->
  let rows := Cosponsor_objects_filter billids in
  exists out,
    get_cosponsors_for_same_bills Bill_objects_get_id Cosponsor_objects_filter
      object st = (inr out, st)
    /\ List.NoDup (map (fun e => r_bioguide_id (row e)) out)
    /\ (forall r, In r rows ->
          exists e, In e out /\ r_bioguide_id (row e) = r_bioguide_id r)
    /\ (forall e, In e out ->
          In (row e) rows
          /\ length (bill_congress_type_numbers e)
             = length (rows_of (r_bioguide_id (row e)) rows)).
Proof.
  cbv zeta. intros Hids.
  unfold get_cosponsors_for_same_bills. unfold Eff.bind at 1, Eff.get.
  unfold Eff.bind at 1. rewrite Hids. unfold Eff.ret.
  set (cm := get_committees_map object).
  set (bd := make_bill_dict billids _).
  set (rows := Cosponsor_objects_filter billids).
  eexists. split; [reflexivity|]. split; [|split].
  - rewrite merged_ids. apply merge_rows_keys_nodup.
  - intros r Hr.
    pose proof (merge_rows_get cm bd rows (r_bioguide_id r)) as Hget.
    destruct (rows_of (r_bioguide_id r) rows) as [|first others] eqn:Hmine.
    + exfalso.
      assert (In r (rows_of (r_bioguide_id r) rows)) as Hin.
      { apply filter_In. split; [exact Hr | apply opt_eqb_refl]. }
      rewrite Hmine in Hin. exact Hin.
    + apply dict_get_In in Hget. eexists. split.
      * apply in_map_iff. eexists. split; [|exact Hget]. reflexivity.
      * cbn. apply (rows_of_head _ rows first others Hmine).
  - intros e He. apply in_map_iff in He as ([k e'] & <- & Hin). cbn [snd].
    destruct (merge_rows_values cm bd rows k e' Hin)
      as (first & others & Hmine & ->).
    destruct (rows_of_head k rows first others Hmine) as [Hfirst Hk].
    cbn [row bill_congress_type_numbers entry_for]. split; [exact Hfirst|].
    rewrite Hk, Hmine. apply length_map.
Qed.

End RosterView.

Section RosterSamples.

Import views roster samples.

(** The person who cosponsors both bills gets one entry with both bill
    keys; the other person one entry with one key. *)
Example shared_cosponsor_is_merged :
  match get_cosponsors_for_same_bills bill_table cosponsors_of_bills
          hr1 resolved_view with
  | (inr out, _) =>
      map (fun e => (r_bioguide_id (row e), bill_congress_type_numbers e,
                     committees_named e, ranks e)) out
      = [ (Some "A000001", ["116hr1"; "116s5"],
           [Some "House Judiciary"], [PyInt 3]);
          (Some "B000002", ["116hr1"], [Some "House Judiciary"], [PyInt 3]) ]
  | (inl _, _) => False
  end.
Proof. vm_compute. reflexivity. Qed.

Lemma roster_has_one_entry_per_person_witness :
  exists out,
    get_cosponsors_for_same_bills bill_table cosponsors_of_bills
      hr1 resolved_view = (inr out, resolved_view)
    /\ List.NoDup (map (fun e => r_bioguide_id (row e)) out)
    /\ (forall r, In r (cosponsors_of_bills [1%Z; 2%Z]) ->
          exists e, In e out /\ r_bioguide_id (row e) = r_bioguide_id r)
    /\ (forall e, In e out ->
          In (row e) (cosponsors_of_bills [1%Z; 2%Z])
          /\ length (bill_congress_type_numbers e)
             = length (rows_of (r_bioguide_id (row e))
                               (cosponsors_of_bills [1%Z; 2%Z]))).
Proof.
  apply (roster_has_one_entry_per_person bill_table cosponsors_of_bills
           hr1 resolved_view [1%Z; 2%Z]).
  reflexivity.
Defined.

Lemma later_rows_only_append_witness :
  let cm := get_committees_map hr1 in
  let bd := make_bill_dict [1%Z; 2%Z] ["116hr1"; "116s5"] in
  let rows := [cosponsor_row "A000001" "Ann Adams" 1;
               cosponsor_row "B000002" "Bob Brown" 1] in
  let r := cosponsor_row "A000001" "Ann Adams" 2 in
  let e := first_entry cm "116hr1" (cosponsor_row "A000001" "Ann Adams" 1) in
  let d := merge_rows cm bd rows in
  let d' := merge_rows cm bd (rows ++ [r]) in
  (exists first others e',
      rows_of (r_bioguide_id r) rows = first :: others
      /\ dict_get (r_bioguide_id r) d' = Some e'
      /\ row e' = first
      /\ r_party (row e') = r_party first
      /\ r_state (row e') = r_state first
      /\ r_name_full_official (row e') = r_name_full_official first
      /\ r_leadership (row e') = r_leadership first
      /\ committees_named e' = committees_named (first_entry cm EmptyString first)
      /\ ranks e' = ranks (first_entry cm EmptyString first)
      /\ row e' = row e
      /\ committees_named e' = committees_named e
      /\ ranks e' = ranks e
      /\ bill_congress_type_numbers e'
         = bill_congress_type_numbers e ++ [bctn_of bd r])
  /\ (forall k, k <> r_bioguide_id r -> dict_get k d' = dict_get k d)
  /\ map fst d' = map fst d.
Proof.
  cbv zeta.
  apply (later_rows_only_append
           (get_committees_map hr1)
           (make_bill_dict [1%Z; 2%Z] ["116hr1"; "116s5"])
           [cosponsor_row "A000001" "Ann Adams" 1;
            cosponsor_row "B000002" "Bob Brown" 1]
           (cosponsor_row "A000001" "Ann Adams" 2)).
  vm_compute. reflexivity.
Defined.

End RosterSamples.

(** ** The order on strings *)

Section StringOrder.

Lemma ascii_compare_refl (a : ascii) : Ascii.compare a a = Eq.
Proof. unfold Ascii.compare. apply N.compare_refl. Qed.

Lemma ascii_compare_lt_trans (a b c : ascii) :
  Ascii.compare a b = Lt -> Ascii.compare b c = Lt -> Ascii.compare a c = Lt.
Proof.
  unfold Ascii.compare. rewrite !N.compare_lt_iff. apply N.lt_trans.
Qed.

Lemma string_compare_refl (s : string) : String.compare s s = Eq.
Proof.
  induction s as [|x s IH]; [reflexivity|].
  cbn [String.compare]. rewrite ascii_compare_refl. exact IH.
Qed.

Lemma string_compare_lt_trans (a b c : string) :
  String.compare a b = Lt -> String.compare b c = Lt ->
  String.compare a c = Lt.
Proof.
  revert b c. induction a as [|x a IH]; intros [|y b] [|z c];
    cbn [String.compare]; try discriminate; try reflexivity.
  destruct (Ascii.compare x y) eqn:Hxy; try discriminate;
    destruct (Ascii.compare y z) eqn:Hyz; try discriminate; intros Hab Hbc.
  - apply Ascii.compare_eq_iff in Hxy, Hyz. subst.
    rewrite ascii_compare_refl. exact (IH _ _ Hab Hbc).
  - apply Ascii.compare_eq_iff in Hxy. subst. rewrite Hyz. reflexivity.
  - apply Ascii.compare_eq_iff in Hyz. subst. rewrite Hxy. reflexivity.
  - rewrite (ascii_compare_lt_trans _ _ _ Hxy Hyz). reflexivity.
Qed.

Lemma string_leb_trans (a b c : string) :
  String.leb a b = true -> String.leb b c = true -> String.leb a c = true.
Proof.
  unfold String.leb.
  destruct (String.compare a b) eqn:Hab; try discriminate;
    destruct (String.compare b c) eqn:Hbc; try discriminate; intros _ _.
  - apply String.compare_eq_iff in Hab, Hbc. subst.
    rewrite string_compare_refl. reflexivity.
  - apply String.compare_eq_iff in Hab. subst. rewrite Hbc. reflexivity.
  - apply String.compare_eq_iff in Hbc. subst. rewrite Hab. reflexivity.
  - rewrite (string_compare_lt_trans _ _ _ Hab Hbc). reflexivity.
Qed.

(** [b] is not before [a] exactly when [a] is not after [b]. *)
Lemma string_ltb_leb (a b : string) :
  String.ltb b a = false <-> String.leb a b = true.
Proof.
  unfold String.ltb, String.leb. rewrite (String.compare_antisym b a).
  destruct (String.compare a b); cbn; split; congruence.
Qed.

End StringOrder.


(** ** The cosponsor display order *)

Section Display.

Import views display.

Variable Cosponsor_objects_get : string -> option CosponsorItem.

Lemma same_identity_refl (c : Person) : same_identity c c.
Proof. repeat split. Qed.

Lemma same_identity_trans (a b c : Person) :
  same_identity a b -> same_identity b c -> same_identity a c.
Proof.
  intros (H1 & H2 & H3 & H4) (K1 & K2 & K3 & K4).
  repeat split; congruence.
Qed.

Lemma fold_left_same_identity {B} (f : Person -> B -> Person) (l : list B)
    (c : Person) :
  (forall p x, same_identity p (f p x)) ->
  same_identity c (fold_left f l c).
Proof.
  intros Hf. revert c. induction l as [|x l IH]; intros c.
  - apply same_identity_refl.
  - cbn [fold_left]. eapply same_identity_trans; [apply Hf | apply IH].
Qed.

Lemma enrich_same_identity (object : Bill) (c : Person) :
  same_identity c (enrich Cosponsor_objects_get object c).
Proof.
  unfold enrich.
  destruct (Py.truthy _); [|apply same_identity_refl].
  destruct (Cosponsor_objects_get _) as [item|]; [|repeat split].
  eapply same_identity_trans; [|apply fold_left_same_identity].
  - repeat split.
  - intros p membership. destruct (opt_eqb _ _); [|apply same_identity_refl].
    apply fold_left_same_identity. intros q committee_dict.
    destruct (opt_eqb _ _); [repeat split | apply same_identity_refl].
Qed.

(** The four groups after the head hold the remaining cosponsors, each
    once. *)
Lemma groups_permutation (rest : list Person) :
  Permutation
    (Py.sorted_by rank_lt
       (List.filter has_int_rank (List.filter original_cosponsor rest))
     ++ List.filter (fun c => negb (has_int_rank c))
          (List.filter original_cosponsor rest)
     ++ Py.sorted_by rank_lt
          (List.filter has_int_rank
             (List.filter (fun c => negb (original_cosponsor c)) rest))
     ++ List.filter (fun c => negb (has_int_rank c))
          (List.filter (fun c => negb (original_cosponsor c)) rest))
    rest.
Proof.
  rewrite !sorted_by_permutation.
  rewrite app_assoc.
  rewrite (partition_permutation has_int_rank
             (List.filter original_cosponsor rest)).
  rewrite (partition_permutation has_int_rank
             (List.filter (fun c => negb (original_cosponsor c)) rest)).
  apply partition_permutation.
Qed.

(** The display order keeps the head of the placed list and rearranges
    the others. *)
Lemma get_cosponsors_dict_run (object : Bill) (h : Person) (t : list Person) :
  place_sponsor object = inr (h :: t) ->
  exists rest,
    get_cosponsors_dict Cosponsor_objects_get object
      = inr (enrich Cosponsor_objects_get object h :: rest)
    /\ Permutation rest (map (enrich Cosponsor_objects_get object) t).
Proof.
  intros Hplace. unfold get_cosponsors_dict. rewrite Hplace.
  cbn [map tl firstn app]. eexists. split; [reflexivity|].
  apply groups_permutation.
Qed.

(** The sort by name is stable: the cosponsors that bear one name come
    out of it in the order in which they went in. *)
Lemma insert_by_same_name (n : string) (x : Person) (l : list Person) :
  List.filter (fun c => String.eqb (name c) n) (Py.insert_by name_lt x l)
  = List.filter (fun c => String.eqb (name c) n) (x :: l).
Proof.
  induction l as [|y l IH]; [reflexivity|].
  cbn [Py.insert_by]. destruct (name_lt y x) eqn:Hlt; [|reflexivity].
  cbn [List.filter] in *. rewrite IH.
  destruct (String.eqb_spec (name x) n) as [Hx|Hx]; [|reflexivity].
  destruct (String.eqb_spec (name y) n) as [Hy|Hy]; [|reflexivity].
  exfalso. unfold name_lt, String.ltb in Hlt. rewrite Hx, Hy in Hlt.
  rewrite string_compare_refl in Hlt. discriminate.
Qed.

Lemma sorted_by_same_name (n : string) (l : list Person) :
  List.filter (fun c => String.eqb (name c) n) (Py.sorted_by name_lt l)
  = List.filter (fun c => String.eqb (name c) n) l.
Proof.
  induction l as [|x l IH]; [reflexivity|].
  change (Py.sorted_by name_lt (x :: l))
    with (Py.insert_by name_lt x (Py.sorted_by name_lt l)).
  rewrite insert_by_same_name. cbn [List.filter]. rewrite IH. reflexivity.
Qed.

Lemma find_is_first_kept {A} (p : A -> bool) (l : list A) :
  List.find p l = hd_error (List.filter p l).
Proof.
  induction l as [|x l IH]; [reflexivity|].
  cbn [List.find List.filter]. destruct (p x); [reflexivity|exact IH].
Qed.

(** C8, as the code has it: when the sponsor has a name, the display order starts
    with the sponsor whatever the ranks are: with the cosponsor entry that
    bears the sponsor's name if there is one, the first of them in name
    order, which is the first of them listed since they bear the same
    name and the sort is stable; it is moved to the front so that the
    result holds the cosponsors and nothing more.  Otherwise the order
    starts with the sponsor's own entry, flagged as sponsor and put before
    all the cosponsors. *)
Theorem sponsor_comes_first (object : Bill) :
  name (b_sponsor object) <> EmptyString ->
  exists head rest,
    get_cosponsors_dict Cosponsor_objects_get object = inr (head :: rest)
    /\ nth_error (head :: rest) 0 = Some head
    /\ name head = name (b_sponsor object)
    /\ ((exists c,
            List.find (fun c => String.eqb (name c) (name (b_sponsor object)))
                      (cosponsors_dict object) = Some c
            /\ hd_error
                 (List.filter
                    (fun c => String.eqb (name c) (name (b_sponsor object)))
                    (Py.sorted_by name_lt (cosponsors_dict object)))
               = Some c
            /\ In c (cosponsors_dict object)
            /\ name c = name (b_sponsor object)
            /\ head = enrich Cosponsor_objects_get object c
            /\ Permutation (head :: rest)
                 (map (enrich Cosponsor_objects_get object)
                      (cosponsors_dict object)))
        \/ ((forall c, In c (cosponsors_dict object) ->
                       name c <> name (b_sponsor object))
            /\ head = enrich Cosponsor_objects_get object
                        (with_sponsor true (b_sponsor object))
            /\ sponsor head = true
            /\ Permutation rest
                 (map (enrich Cosponsor_objects_get object)
                      (cosponsors_dict object)))).
Proof.
  intros Hname.
  pose proof (sorted_by_permutation name_lt (cosponsors_dict object)) as Hsorted.
  set (sorted := Py.sorted_by name_lt (cosponsors_dict object)) in *.
  assert (Py.truthy (name (b_sponsor object)) = true) as Htruthy
    by (destruct (name (b_sponsor object)); [contradiction|reflexivity]).
  destruct (List.filter
              (fun c => String.eqb (name c) (name (b_sponsor object))) sorted)
    as [|s0 others] eqn:Hfilter.
  - (* no cosponsor bears the sponsor's name *)
    assert (place_sponsor object
            = inr (with_sponsor true (b_sponsor object) :: sorted)) as Hplace.
    { unfold place_sponsor. cbn [name with_sponsor]. rewrite Htruthy.
      fold sorted. rewrite Hfilter. reflexivity. }
    destruct (get_cosponsors_dict_run object _ _ Hplace) as (rest & Hrun & Hperm).
    destruct (enrich_same_identity object (with_sponsor true (b_sponsor object)))
      as (Hn & Hs & _).
    eexists. exists rest. split; [exact Hrun|]. split; [reflexivity|].
    split; [exact Hn|]. right. split; [|split; [reflexivity|split]].
    + intros c Hc Heq.
      assert (In c (List.filter
                (fun c => String.eqb (name c) (name (b_sponsor object))) sorted))
        as Hin.
      { apply filter_In. split.
        - apply (Permutation_in _ (Permutation_sym Hsorted)). exact Hc.
        - apply String.eqb_eq. exact Heq. }
      rewrite Hfilter in Hin. exact Hin.
    + exact Hs.
    + rewrite Hperm. apply Permutation_map. exact Hsorted.
  - (* the first cosponsor bearing the sponsor's name is moved to the front *)
    assert (In s0 sorted /\ name s0 = name (b_sponsor object)) as [Hin Hs0].
    { assert (In s0 (List.filter
                (fun c => String.eqb (name c) (name (b_sponsor object))) sorted))
        as H by (rewrite Hfilter; left; reflexivity).
      apply filter_In in H as [H1 H2]. apply String.eqb_eq in H2. auto. }
    destruct (remove_present s0 sorted Hin) as (l & Hremove & Hl).
    assert (place_sponsor object = inr (s0 :: l)) as Hplace.
    { unfold place_sponsor. cbn [name with_sponsor]. rewrite Htruthy.
      fold sorted. rewrite Hfilter, Hremove. reflexivity. }
    destruct (get_cosponsors_dict_run object _ _ Hplace) as (rest & Hrun & Hperm).
    destruct (enrich_same_identity object s0) as (Hn & _).
    eexists. exists rest. split; [exact Hrun|]. split; [reflexivity|].
    split; [congruence|]. left. exists s0.
    split; [rewrite find_is_first_kept, <- sorted_by_same_name;
            fold sorted; rewrite Hfilter; reflexivity|].
    split; [reflexivity|].
    split; [apply (Permutation_in _ Hsorted); exact Hin|].
    split; [exact Hs0|]. split; [reflexivity|].
    rewrite Hperm. change (Permutation
      (map (enrich Cosponsor_objects_get object) (s0 :: l))
      (map (enrich Cosponsor_objects_get object) (cosponsors_dict object))).
    apply Permutation_map. rewrite <- Hl. exact Hsorted.
Qed.

End Display.

Section DisplaySamples.

Import views samples.

(** The sponsor, ranked 7th, comes before the cosponsors ranked 1st and
    2nd, and is not listed a second time. *)
Example sponsor_first_whatever_the_rank :
  match get_cosponsors_dict cosponsor_items hr1_cosponsored with
  | inr out => map (fun p => (name p, rank p)) out
               = [ ("Cy Clark", PyInt 7); ("Amy Ames", PyInt 1);
                   ("Zoe Zane", PyInt 2) ]
  | inl _ => False
  end.
Proof. vm_compute. reflexivity. Qed.

(** Of two cosponsors that bear the sponsor's name, the one listed first
    is moved to the front; the other stays among the cosponsors, ahead of
    the unranked one because it has a rank. *)
Example first_namesake_is_moved :
  match get_cosponsors_dict cosponsor_items
          {| b_bill_congress_type_number := "116hr1";
             get_similar_bills := [];
             committees_dict := [];
             cosponsors_dict :=
               [ ranked_person "Cy Clark" true 4; plain_person "Amy Ames";
                 ranked_person "Cy Clark" false 9 ];
             b_sponsor := plain_person "Cy Clark" |} with
  | inr out => map (fun p => (name p, rank p)) out
               = [ ("Cy Clark", PyInt 4); ("Cy Clark", PyInt 9);
                   ("Amy Ames", PyNone) ]
  | inl _ => False
  end.
Proof. vm_compute. reflexivity. Qed.

Lemma sponsor_comes_first_witness :
  exists head rest,
    get_cosponsors_dict cosponsor_items hr1_cosponsored = inr (head :: rest)
    /\ nth_error (head :: rest) 0 = Some head
    /\ name head = name (b_sponsor hr1_cosponsored)
    /\ ((exists c,
            List.find
              (fun c => String.eqb (name c) (name (b_sponsor hr1_cosponsored)))
              (cosponsors_dict hr1_cosponsored) = Some c
            /\ hd_error
                 (List.filter
                    (fun c => String.eqb (name c)
                                         (name (b_sponsor hr1_cosponsored)))
                    (Py.sorted_by name_lt (cosponsors_dict hr1_cosponsored)))
               = Some c
            /\ In c (cosponsors_dict hr1_cosponsored)
            /\ name c = name (b_sponsor hr1_cosponsored)
            /\ head = enrich cosponsor_items hr1_cosponsored c
            /\ Permutation (head :: rest)
                 (map (enrich cosponsor_items hr1_cosponsored)
                      (cosponsors_dict hr1_cosponsored)))
        \/ ((forall c, In c (cosponsors_dict hr1_cosponsored) ->
                       name c <> name (b_sponsor hr1_cosponsored))
            /\ head = enrich cosponsor_items hr1_cosponsored
                        (with_sponsor true (b_sponsor hr1_cosponsored))
            /\ sponsor head = true
            /\ Permutation rest
                 (map (enrich cosponsor_items hr1_cosponsored)
                      (cosponsors_dict hr1_cosponsored)))).
Proof.
  apply (sponsor_comes_first cosponsor_items hr1_cosponsored).
  discriminate.
Defined.

(** C8 as stated fails when the sponsor has no name: the sponsor is not
    put into the list at all, so index 0 holds the first cosponsor by
    name, and with no cosponsor the list is empty. *)
Lemma unnamed_sponsor_is_not_placed :
  (get_cosponsors_dict cosponsor_items hr2_unnamed_sponsor
   = inr [plain_person "Amy Ames"]
   /\ plain_person "Amy Ames" <> b_sponsor hr2_unnamed_sponsor
   /\ plain_person "Amy Ames"
      <> with_sponsor true (b_sponsor hr2_unnamed_sponsor))
  /\ get_cosponsors_dict cosponsor_items
       {| b_bill_congress_type_number := "116hr2";
          get_similar_bills := [];
          committees_dict := [];
          cosponsors_dict := [];
          b_sponsor := plain_person "" |}
     = inr [].
Proof.
  split; [split; [|split]|].
  - vm_compute. reflexivity.
  - discriminate.
  - discriminate.
  - vm_compute. reflexivity.
Qed.

End DisplaySamples.

(** ** Titles and cosponsors of a document *)

Section Extractors.

Import billdata.

Lemma filter_sublist {A} (p : A -> bool) (l : list A) :
  sublist (List.filter p l) l.
Proof.
  induction l as [|x l IH]; [constructor|].
  cbn [List.filter]. destruct (p x); [apply sublist_skip | apply sublist_cons];
    exact IH.
Qed.

Lemma opt_string_eqb_eq (a b : option string) :
  opt_string_eqb a b = true <-> a = b.
Proof.
  destruct a as [x|], b as [y|]; cbn; try (split; congruence).
  rewrite String.eqb_eq. split; congruence.
Qed.

Lemma BILL_TYPES_label (billType label : string) :
  BILL_TYPES billType = Some label ->
  negb (String.eqb billType "all") && Py.truthy label = true.
Proof.
  unfold BILL_TYPES.
  destruct (String.eqb_spec billType "ih") as [->|_]; [intros [= <-]; reflexivity|].
  destruct (String.eqb_spec billType "rh") as [->|_]; [intros [= <-]; reflexivity|].
  discriminate.
Qed.

(** X1: for a document with titles, the titles [getBillTitles] returns are
    those of the document, in the document's order, that pass the two
    filters: whole-bill titles only when [include_partial] is false, and
    titles of the stage's label only when [billType] is a key of
    [BILL_TYPES] (any other [billType], 'all' included, filters nothing).
    For a document without titles it returns [None] when no filter
    applies and raises [TypeError] when one does. *)
Theorem getBillTitles_selects
    (fileDict : BillRecord) (include_partial : bool) (billType : string) :
  (forall all_titles,
      titles fileDict = Some all_titles ->
      exists kept,
        getBillTitles fileDict include_partial billType = inr (Some kept)
        /\ sublist kept all_titles
        /\ (forall t,
              In t kept
              <-> In t all_titles
                  /\ (include_partial = false -> is_for_portion t = false)
                  /\ (forall label, BILL_TYPES billType = Some label ->
                                    as_ t = Some label)))
  /\ (titles fileDict = None ->
      getBillTitles fileDict include_partial billType
      = match include_partial, BILL_TYPES billType with
        | true, None => inr None
        | _, _ => inl Py.TypeError
        end)
  /\ (BILL_TYPES billType = None ->
      getBillTitles fileDict include_partial billType
      = getBillTitles fileDict include_partial "all").
Proof.
  unfold getBillTitles. split; [|split].
  - intros all_titles ->. cbv zeta.
    set (kept := if include_partial then all_titles
                 else List.filter (fun t => negb (is_for_portion t))
                                  all_titles).
    assert ((if include_partial then inr (Some all_titles)
             else comprehension (fun t => negb (is_for_portion t))
                                (Some all_titles))
            = (inr (Some kept) : Py.exn + option (list Title))) as ->
      by (unfold kept; destruct include_partial; reflexivity).
    assert (sublist kept all_titles) as Hsub.
    { unfold kept. destruct include_partial; [reflexivity|apply filter_sublist]. }
    assert (forall t, In t kept <->
                      In t all_titles
                      /\ (include_partial = false -> is_for_portion t = false))
      as Hkept.
    { intros t. unfold kept. destruct include_partial.
      - split; [intros H; split; [exact H|discriminate] | intros [H _]; exact H].
      - rewrite filter_In, negb_true_iff. split.
        + intros [H1 H2]. auto.
        + intros [H1 H2]. auto. }
    destruct (BILL_TYPES billType) as [label|] eqn:Hlabel.
    + rewrite (BILL_TYPES_label billType label Hlabel).
      eexists. split; [reflexivity|]. split.
      * etransitivity; [apply filter_sublist | exact Hsub].
      * intros t. rewrite filter_In, Hkept, opt_string_eqb_eq. split.
        -- intros [[H1 H2] H3]. repeat split; auto. intros l [= <-]. auto.
        -- intros (H1 & H2 & H3). repeat split; auto. symmetry. auto.
    + exists kept. split; [reflexivity|]. split; [exact Hsub|].
      intros t. rewrite Hkept. split.
      * intros [H1 H2]. repeat split; auto. discriminate.
      * intros (H1 & H2 & _). auto.
  - intros ->. cbv zeta. destruct include_partial; [|reflexivity].
    destruct (BILL_TYPES billType) as [label|] eqn:Hlabel; [|reflexivity].
    rewrite (BILL_TYPES_label billType label Hlabel). reflexivity.
  - intros ->. reflexivity.
Qed.

(** The dict a field list projects a cosponsor onto. *)
Lemma projection_lookup (cosponsor : gmap string (option string))
    (fields : list string) (seed : gmap string (option string)) (f : string) :
  fold_left (fun (d : gmap string (option string)) field =>
               <[field := obj_get cosponsor field]> d) fields seed !! f
  = if bool_decide (f ∈ fields) then Some (obj_get cosponsor f)
    else seed !! f.
Proof.
  revert seed. induction fields as [|g fields IH]; intros seed.
  - cbn. reflexivity.
  - cbn [fold_left]. rewrite IH.
    destruct (bool_decide_reflect (f ∈ fields)) as [Hin|Hout].
    + rewrite bool_decide_eq_true_2 by (apply elem_of_cons; right; exact Hin).
      reflexivity.
    + destruct (decide (g = f)) as [->|Hne].
      * rewrite bool_decide_eq_true_2 by (apply elem_of_cons; left; reflexivity).
        apply lookup_insert_eq.
      * rewrite bool_decide_eq_false_2
          by (rewrite elem_of_cons; intros [E|E]; [congruence|contradiction]).
        apply lookup_insert_ne. exact Hne.
Qed.

(** X2: with a non-empty field list, [getCosponsors] returns one dict per
    cosponsor, in order, whose keys are exactly the listed fields, each
    with the cosponsor's value for it, [None] when the cosponsor has no
    such field, and raises [TypeError] for a document without cosponsors;
    with an empty list it returns what the document has under
    [cosponsors], as it is. *)
Theorem getCosponsors_projects
    (fileDict : BillRecord) (field : string) (fields : list string) :
  (forall all_cosponsors,
      cosponsors fileDict = Some all_cosponsors ->
      exists projected,
        getCosponsors fileDict (field :: fields) = inr (Some projected)
        /\ Forall2 (fun (cosponsor d : gmap string (option string)) =>
                      forall f, d !! f = if bool_decide (f ∈ field :: fields)
                                         then Some (obj_get cosponsor f)
                                         else None)
                   all_cosponsors projected)
  /\ (cosponsors fileDict = None ->
      getCosponsors fileDict (field :: fields) = inl Py.TypeError)
  /\ getCosponsors fileDict [] = inr (cosponsors fileDict).
Proof.
  unfold getCosponsors. split; [|split; [intros ->; reflexivity|reflexivity]].
  intros all_cosponsors ->. cbv zeta. cbn [iterable].
  eexists. split; [reflexivity|].
  induction all_cosponsors as [|c l IH]; [constructor|].
  cbn [map]. constructor; [|exact IH].
  intros f. rewrite projection_lookup. destruct (bool_decide _); [reflexivity|].
  apply lookup_empty.
Qed.

End Extractors.

(** ** What the aggregator keeps true *)

Section AggregatorInvariants.

Import billdata aggregator invariants samples more_samples.

Local Open Scope string_scope.

Lemma count_char_append (c : ascii) (a b : string) :
  Py.count_char c (a +:+ b) = Py.count_char c a + Py.count_char c b.
Proof.
  induction a as [|x a IH]; [reflexivity|].
  rewrite append_cons_l. cbn [Py.count_char]. rewrite IH. lia.
Qed.

(** The pieces of a split hold no hyphen. *)
Lemma split_hyphen_pieces (s : string) :
  Forall (fun p => Py.count_char hyphen p = 0) (Py.split "-" s).
Proof.
  induction s as [|c s IH]; [repeat constructor|].
  rewrite split_hyphen_cons.
  destruct (Ascii.eqb c hyphen) eqn:Ec; [constructor; [reflexivity|exact IH]|].
  destruct (Py.split "-" s) as [|h t]; [repeat constructor|].
  - cbn. rewrite Ec. reflexivity.
  - inversion IH as [|? ? Hh Ht]; subst. constructor; [|exact Ht].
    cbn [Py.count_char]. rewrite Ec, Hh. reflexivity.
Qed.

(** A key the normalizer returns is built from the first two pieces of
    the [bill_id], and holds no hyphen. *)
Lemma normalized_key (r : BillRecord) (k : string) :
  normalized r = inr (Some k) ->
  Py.count_char hyphen k = 0
  /\ exists b p0 p1 rest,
       bill_id r = Some b /\ Py.split "-" b = p0 :: p1 :: rest
       /\ k = p1 +:+ p0.
Proof.
  unfold normalized, getBillCongressTypeNumber.
  destruct (bill_id r) as [b|]; [|discriminate].
  destruct (Py.truthy b); [|discriminate].
  pose proof (split_hyphen_pieces b) as Hpieces.
  destruct (Py.split "-" b) as [|p0 [|p1 rest]] eqn:Hs; [discriminate..|].
  cbn. intros [= <-].
  inversion Hpieces as [|? ? H0 Hrest]; subst.
  inversion Hrest as [|? ? H1 _]; subst.
  split; [rewrite count_char_append; lia|].
  exists b, p0, p1, rest. auto.
Qed.

Lemma projected_fields (cs : list (gmap string (option string))) :
  Forall (fun d : gmap string (option string) =>
            dom d = ({[ "name"; "bioguide_id" ]} : gset string))
         (map name_and_id cs).
Proof.
  apply Forall_forall. intros d Hd.
  apply list_elem_of_In, in_map_iff in Hd as (c & <- & _).
  unfold name_and_id. rewrite !dom_insert_L, dom_empty_L. set_solver.
Qed.

Lemma entry_of_complete (r : BillRecord) : complete (entry_of r).
Proof.
  unfold complete, entry_of. cbv zeta. do 3 eexists.
  split; [reflexivity|]. split; [reflexivity|]. split; [reflexivity|].
  split; [|apply projected_fields].
  induction (default [] (titles r)) as [|t l IH]; [constructor|].
  cbn [List.filter map]. destruct (is_for_portion t); cbn [negb map].
  - apply sublist_cons. exact IH.
  - apply sublist_skip. exact IH.
Qed.

(** What the walk writes: under well-formed keys, complete entries. *)
Lemma writes_well_formed (walk : list BillRecord) :
  Forall (fun p => well_formed_key (fst p) /\ complete (snd p))
         (fst (writes walk)).
Proof.
  induction walk as [|r walk IH]; [constructor|].
  cbn [writes]. destruct (normalized r) as [e|[k|]] eqn:Hn;
    [constructor | | exact IH].
  destruct (Py.truthy k) eqn:Ht; [|exact IH].
  destruct (storable r); [|constructor].
  cbn [fst]. constructor; [|exact IH]. cbn [fst snd].
  split; [|apply entry_of_complete].
  split; [apply truthy_nonempty; exact Ht|].
  apply (normalized_key r k Hn).
Qed.

(** The key of the document that interrupts a walk is well formed. *)
Lemma writes_broke (walk : list BillRecord) (k : string) (r : BillRecord) :
  snd (writes walk) = broke k r -> well_formed_key k.
Proof.
  induction walk as [|r' walk IH]; [discriminate|].
  cbn [writes]. destruct (normalized r') as [e|[k'|]] eqn:Hn;
    [discriminate | | exact IH].
  destruct (Py.truthy k') eqn:Ht; [|exact IH].
  destruct (storable r'); [exact IH|].
  cbn [snd]. intros [= <- <-].
  split; [apply truthy_nonempty; exact Ht|].
  apply (normalized_key r' k' Hn).
Qed.

Lemma apply_writes_Forall (P : string -> Entry -> Prop)
    (w : list (string * Entry)) (m : gmap string Entry) :
  Forall (fun p => P (fst p) (snd p)) w ->
  map_Forall P m -> map_Forall P (apply_writes w m).
Proof.
  revert m. induction w as [|[k e] w IH]; intros m Hw Hm; [exact Hm|].
  inversion Hw as [|? ? Hke Hw']; subst.
  cbn [apply_writes fold_left fst snd]. apply IH; [exact Hw'|].
  apply map_Forall_insert_2; assumption.
Qed.

(** X3: if every key of the mapping is well formed and every entry complete
    before a run, then after it, however it ends, every key is well
    formed and every entry but at most one is complete; all of them are
    unless the run raised [TypeError], as it does on a document that has
    a key but lacks its titles or its cosponsors, after it has written
    under that key. *)
Theorem run_keeps_mapping_well_formed (walk : list BillRecord) (st : St) :
  map_Forall (fun k e => well_formed_key k /\ complete e) (billsMeta st) ->
  let run := updateBillsMeta walk st in
  map_Forall (fun k _ => well_formed_key k) (billsMeta (snd run))
  /\ (fst run <> inl Py.TypeError ->
      map_Forall (fun _ e => complete e) (billsMeta (snd run)))
  /\ (exists k, forall k' e, billsMeta (snd run) !! k' = Some e ->
                             k' <> k -> complete e).
Proof.
  intros Hm. cbv zeta.
  destruct (updateBillsMeta_run walk st) as [-> ->].
  assert (map_Forall (fun k e => well_formed_key k /\ complete e)
            (apply_writes (fst (writes walk)) (billsMeta st))) as Hall.
  { apply apply_writes_Forall; [apply writes_well_formed | exact Hm]. }
  destruct (snd (writes walk)) as [|e|k r] eqn:Hend; cbn [left_by outcome].
  - split; [intros k e H; apply (Hall k e H)|].
    split; [intros _ k e H; apply (Hall k e H)|].
    exists "". intros k e H _. apply (Hall k e H).
  - split; [intros k e' H; apply (Hall k e' H)|].
    split; [intros _ k e' H; apply (Hall k e' H)|].
    exists "". intros k e' H _. apply (Hall k e' H).
  - split; [|split].
    + apply map_Forall_insert_2; [apply (writes_broke walk k r Hend)|].
      intros k' e H. apply (Hall k' e H).
    + intros H. destruct (H eq_refl).
    + exists k. intros k' e H Hne.
      rewrite lookup_insert_ne in H by congruence. apply (Hall k' e H).
Qed.

Lemma run_keeps_mapping_well_formed_witness :
  let run := updateBillsMeta [hr299; no_bill_id; hr300_unsponsored] idle in
  map_Forall (fun k _ => well_formed_key k) (billsMeta (snd run))
  /\ (fst run <> inl Py.TypeError ->
      map_Forall (fun _ e => complete e) (billsMeta (snd run)))
  /\ (exists k, forall k' e, billsMeta (snd run) !! k' = Some e ->
                             k' <> k -> complete e).
Proof.
  apply (run_keeps_mapping_well_formed [hr299; no_bill_id; hr300_unsponsored]
                                       idle).
  apply map_Forall_empty.
Defined.

(** A document without cosponsors stops the run with [TypeError] after its
    titles were written under its key: the entry is left without
    cosponsors, the documents after it are not read, and nothing is
    saved.  A document without titles stops it before anything but the
    empty entry is written. *)
Example document_without_cosponsors_breaks_off :
  let run := updateBillsMeta [hr299; hr300_unsponsored; hr299_titled "An Act"]
                             idle in
  fst run = inl Py.TypeError
  /\ billsMeta (snd run) !! "116hr300"
     = Some {| e_titles := Some [Some "A Bill"];
               e_titles_whole_bill := Some [Some "A Bill"];
               e_cosponsors := None |}
  /\ billsMeta (snd run) !! "116hr299" = Some (entry_of hr299)
  /\ disk (snd run) = []
  /\ billsMeta (snd (updateBillsMeta [hr299_untitled] idle)) !! "116hr299"
     = Some empty_entry.
Proof. vm_compute. repeat split. Qed.

(** A relation between states that every processed document respects
    holds between the start and the end of a walk. *)
Lemma walk_respects (R : St -> St -> Prop) :
  (forall st, R st st) ->
  (forall a b c, R a b -> R b c -> R a c) ->
  (forall r st, R st (snd (addToBillsMeta r st))) ->
  forall walk st, R st (snd (walkBillDirs addToBillsMeta walk st)).
Proof.
  intros Hrefl Htrans Hstep walk. unfold walkBillDirs.
  induction walk as [|r walk IH]; intros st; [apply Hrefl|].
  cbn [Eff.for_each]. unfold Eff.bind.
  pose proof (Hstep r st) as H1.
  destruct (addToBillsMeta r st) as [[e|[]] st1]; cbn [snd] in *.
  - exact H1.
  - eapply Htrans; [exact H1 | apply IH].
Qed.

Lemma only_adds_refl (st : St) : only_adds st st.
Proof.
  split; [reflexivity|]. split; [reflexivity|].
  exists []. split; [symmetry; apply app_nil_r | constructor].
Qed.

Lemma only_adds_trans (a b c : St) :
  only_adds a b -> only_adds b c -> only_adds a c.
Proof.
  intros (H1 & H2 & d1 & H3 & H4) (K1 & K2 & d2 & K3 & K4).
  split; [etransitivity; eassumption|].
  split; [etransitivity; eassumption|].
  exists (d1 ++ d2)%list. split.
  - rewrite K3, H3, app_assoc. reflexivity.
  - apply Forall_app. auto.
Qed.

Lemma addToBillsMeta_only_adds (r : BillRecord) (st : St) :
  only_adds st (snd (addToBillsMeta r st)).
Proof.
  rewrite addToBillsMeta_run.
  destruct (normalized r) as [e|[k|]]; cbn [snd].
  - apply only_adds_refl.
  - destruct (Py.truthy k); cbn [snd]; [|apply only_adds_refl].
    destruct (storable r); cbn [snd];
      [|split; [unfold broken_off; cbn [billsMeta]; apply dom_insert_subseteq|];
        split; [reflexivity|];
        exists []; split; [symmetry; apply app_nil_r | constructor]].
    split; [|split].
    + unfold stored. cbn [billsMeta]. apply dom_insert_subseteq.
    + reflexivity.
    + rewrite stored_disk.
      destruct (Nat.eqb_spec
                  (size (billsMeta (stored k r st)) mod SAVE_ON_COUNT) 0)
        as [Hz|Hnz].
      * eexists. split; [reflexivity|]. constructor; [|constructor].
        split; [|exact Hz].
        apply (map_size_ne_0_lookup_2 _ k). unfold stored. cbn [billsMeta].
        rewrite lookup_insert_eq. eauto.
      * exists []. split; [symmetry; apply app_nil_r | constructor].
  - split; [reflexivity|]. split.
    + unfold logged. cbn [log]. apply prefix_app_r. reflexivity.
    + exists []. split; [symmetry; apply app_nil_r | constructor].
Qed.

(** X4: a run never removes a key from the mapping nor a line from the log,
    however it ends. *)
Theorem run_never_forgets (walk : list BillRecord) (st : St) :
  let st' := snd (updateBillsMeta walk st) in
  dom (billsMeta st) ⊆ dom (billsMeta st')
  /\ log st `prefix_of` log st'.
Proof.
  cbv zeta.
  destruct (walk_respects only_adds only_adds_refl only_adds_trans
              addToBillsMeta_only_adds walk st) as (Hdom & Hlog & _).
  unfold updateBillsMeta, Eff.bind.
  destruct (walkBillDirs addToBillsMeta walk st) as [[e|[]] st1];
    cbn [snd] in *; auto.
Qed.

(** X5: the snapshots a run adds to the disk, and nothing it removes: during
    the walk only mappings with a positive multiple of 1000 keys, and at
    the end the returned mapping, unless the walk raised, in which case
    the final save does not happen. *)
Theorem run_saves_full_thousands_then_all (walk : list BillRecord) (st : St) :
  let run := updateBillsMeta walk st in
  exists checkpoints,
    Forall full_thousands checkpoints
    /\ disk (snd run)
       = (disk st ++ checkpoints
            ++ match fst run with inr m => [m] | inl _ => [] end)%list.
Proof.
  cbv zeta.
  destruct (walk_respects only_adds only_adds_refl only_adds_trans
              addToBillsMeta_only_adds walk st) as (_ & _ & d & Hd & Hfull).
  exists d. split; [exact Hfull|].
  unfold updateBillsMeta, Eff.bind, saveBillsMeta, Eff.modify, Eff.get, Eff.ret.
  destruct (walkBillDirs addToBillsMeta walk st) as [[e|[]] st1];
    cbn [snd fst billsMeta disk] in *.
  - rewrite Hd, app_nil_r. reflexivity.
  - rewrite Hd, app_assoc. reflexivity.
Qed.

Lemma writes_app (a b : list BillRecord) :
  snd (writes (a ++ b)) = finished ->
  fst (writes (a ++ b)) = (fst (writes a) ++ fst (writes b))%list
  /\ snd (writes b) = finished.
Proof.
  induction a as [|r a IH]; [intros H; split; [reflexivity|exact H]|].
  cbn [app writes]. destruct (normalized r) as [e|[k|]]; [discriminate| |exact IH].
  destruct (Py.truthy k); [|exact IH].
  destruct (storable r); [|discriminate].
  cbn [fst snd]. intros H. destruct (IH H) as [-> Hb].
  split; [reflexivity|exact Hb].
Qed.

Lemma writes_keys (walk : list BillRecord) (k : string) :
  In k (map fst (fst (writes walk))) ->
  exists r, In r walk /\ normalized r = inr (Some k).
Proof.
  induction walk as [|r walk IH]; [intros []|].
  cbn [writes]. destruct (normalized r) as [e|[k'|]] eqn:Hn.
  - intros [].
  - destruct (Py.truthy k').
    + destruct (storable r); [|intros []].
      cbn [fst map]. intros [<-|Hin].
      * exists r. split; [left; reflexivity|exact Hn].
      * destruct (IH Hin) as (r' & H1 & H2). exists r'. split; [right|]; auto.
    + intros Hin. destruct (IH Hin) as (r' & H1 & H2).
      exists r'. split; [right|]; auto.
  - intros Hin. destruct (IH Hin) as (r' & H1 & H2).
    exists r'. split; [right|]; auto.
Qed.

(** X6: after a run that ends normally, a key holds what the last document
    that normalizes to it stores: the document has titles and cosponsors,
    and the key holds its titles, its whole-bill titles and its
    cosponsors' names and ids.  A key no document normalizes to holds
    what it held before. *)
Theorem last_document_wins
    (walk : list BillRecord) (st : St) (m : gmap string Entry) (k : string) :
  fst (updateBillsMeta walk st) = inr m ->
  (forall before r after,
      walk = (before ++ r :: after)%list ->
      fst (getBillCongressTypeNumber r st) = inr (Some k) ->
      k <> "" ->
      (forall r', In r' after ->
                  fst (getBillCongressTypeNumber r' st) <> inr (Some k)) ->
      exists all_titles all_cosponsors,
        titles r = Some all_titles
        /\ cosponsors r = Some all_cosponsors
        /\ m !! k
           = Some {| e_titles := Some (map title all_titles);
                     e_titles_whole_bill :=
                       Some (map title
                               (List.filter
                                  (fun t => negb (is_for_portion t))
                                  all_titles));
                     e_cosponsors :=
                       Some (Some
                         (map (fun c : gmap string (option string) =>
                                 <["bioguide_id" := obj_get c "bioguide_id"]>
                                   (<["name" := obj_get c "name"]> ∅))
                              all_cosponsors)) |})
  /\ ((forall r, In r walk ->
                 fst (getBillCongressTypeNumber r st) <> inr (Some k)) ->
      m !! k = billsMeta st !! k).
Proof.
  intros Hrun.
  destruct (updateBillsMeta_run walk st) as [_ Hfst]. rewrite Hrun in Hfst.
  destruct (snd (writes walk)) eqn:Hok; try discriminate Hfst.
  cbn [outcome] in Hfst. injection Hfst as ->.
  split.
  - intros before r after -> Hkey Hne Hlast.
    rewrite getBillCongressTypeNumber_run in Hkey. cbn [fst] in Hkey.
    destruct (writes_app before (r :: after) Hok) as [-> Hafter].
    cbn [writes] in *. rewrite Hkey in *.
    rewrite (proj2 (truthy_nonempty k) Hne) in *.
    destruct (storable r) eqn:Hstorable; [|discriminate Hafter].
    cbn [fst snd] in *.
    unfold storable in Hstorable.
    destruct (titles r) as [ts|] eqn:Hts; [|discriminate].
    destruct (cosponsors r) as [cs|] eqn:Hcs; [|discriminate].
    exists ts, cs. split; [reflexivity|]. split; [reflexivity|].
    unfold apply_writes. rewrite fold_left_app. cbn [fold_left fst snd].
    change (apply_writes (fst (writes after))
              (<[k:=entry_of r]> (apply_writes (fst (writes before))
                                               (billsMeta st))) !! k
            = Some {| e_titles := Some (map title ts);
                      e_titles_whole_bill :=
                        Some (map title
                                (List.filter
                                   (fun t => negb (is_for_portion t)) ts));
                      e_cosponsors := Some (Some (map name_and_id cs)) |}).
    rewrite apply_writes_other.
    + rewrite lookup_insert_eq. unfold entry_of. rewrite Hts, Hcs. reflexivity.
    + intros Hin. destruct (writes_keys after k Hin) as (r' & Hr' & Hn').
      apply (Hlast r' Hr'). rewrite getBillCongressTypeNumber_run. exact Hn'.
  - intros Hnone. apply apply_writes_other.
    intros Hin. destruct (writes_keys walk k Hin) as (r' & Hr' & Hn').
    apply (Hnone r' Hr'). rewrite getBillCongressTypeNumber_run. exact Hn'.
Qed.

Lemma last_document_wins_witness :
  (forall before r after,
      [hr299_titled "An Act"; no_bill_id; hr299_titled "A Bill"]
        = (before ++ r :: after)%list ->
      fst (getBillCongressTypeNumber r idle) = inr (Some "116hr299") ->
      "116hr299" <> "" ->
      (forall r', In r' after ->
                  fst (getBillCongressTypeNumber r' idle)
                    <> inr (Some "116hr299")) ->
      exists all_titles all_cosponsors,
        titles r = Some all_titles
        /\ cosponsors r = Some all_cosponsors
        /\ (<["116hr299" := entry_of (hr299_titled "A Bill")]> ∅
              : gmap string Entry) !! "116hr299"
           = Some {| e_titles := Some (map title all_titles);
                     e_titles_whole_bill :=
                       Some (map title
                               (List.filter
                                  (fun t => negb (is_for_portion t))
                                  all_titles));
                     e_cosponsors :=
                       Some (Some
                         (map (fun c : gmap string (option string) =>
                                 <["bioguide_id" := obj_get c "bioguide_id"]>
                                   (<["name" := obj_get c "name"]> ∅))
                              all_cosponsors)) |})
  /\ ((forall r, In r [hr299_titled "An Act"; no_bill_id;
                       hr299_titled "A Bill"] ->
                 fst (getBillCongressTypeNumber r idle)
                   <> inr (Some "116hr299")) ->
      (<["116hr299" := entry_of (hr299_titled "A Bill")]> ∅
         : gmap string Entry) !! "116hr299"
      = billsMeta idle !! "116hr299").
Proof.
  apply (last_document_wins
           [hr299_titled "An Act"; no_bill_id; hr299_titled "A Bill"] idle
           (<["116hr299" := entry_of (hr299_titled "A Bill")]> ∅) "116hr299").
  vm_compute. reflexivity.
Defined.

End AggregatorInvariants.

(** ** The directory walk *)

Section SplitChar.

Local Open Scope string_scope.

Variable c : ascii.

Lemma prefix_char (x : ascii) (s : string) :
  String.prefix (String c "") (String x s) = Ascii.eqb x c.
Proof.
  change (String.prefix (String c "") (String x s))
    with (if ascii_dec c x then String.prefix "" s else false).
  destruct (ascii_dec c x) as [<-|Hne].
  - rewrite Ascii.eqb_refl. destruct s; reflexivity.
  - symmetry. apply Ascii.eqb_neq. congruence.
Qed.

Lemma split_char_cons (x : ascii) (s : string) :
  Py.split (String c "") (String x s) =
  if Ascii.eqb x c then EmptyString :: Py.split (String c "") s
  else match Py.split (String c "") s with
       | h :: t => String x h :: t
       | [] => [String x EmptyString]
       end.
Proof.
  unfold Py.split at 1. cbn [Py.split_from].
  rewrite prefix_char. reflexivity.
Qed.

Lemma split_char_cases (s : string) :
  exists h t, Py.split (String c "") s = h :: t.
Proof.
  induction s as [|x s (h & t & IH)]; [exists "", []; reflexivity|].
  rewrite split_char_cons, IH. destruct (Ascii.eqb x c); eauto.
Qed.

(** Splitting on a character splits each side of an occurrence. *)
Lemma split_char_app (a b : string) :
  Py.split (String c "") (a +:+ String c b)
  = (Py.split (String c "") a ++ Py.split (String c "") b)%list.
Proof.
  induction a as [|x a IH].
  - rewrite append_empty_l, split_char_cons, Ascii.eqb_refl. reflexivity.
  - rewrite append_cons_l, !split_char_cons, IH.
    destruct (Ascii.eqb x c); [reflexivity|].
    destruct (split_char_cases a) as (h & t & ->). reflexivity.
Qed.

Lemma split_char_free (s : string) :
  Py.count_char c s = 0 -> Py.split (String c "") s = [s].
Proof.
  induction s as [|x s IH]; [reflexivity|].
  cbn [Py.count_char]. rewrite split_char_cons.
  destruct (Ascii.eqb x c); [discriminate|].
  cbn. intros H. rewrite (IH H). reflexivity.
Qed.

Lemma split_char_length (s : string) :
  length (Py.split (String c "") s) = S (Py.count_char c s).
Proof.
  induction s as [|x s IH]; [reflexivity|].
  rewrite split_char_cons. cbn [Py.count_char].
  destruct (Ascii.eqb x c); cbn [length].
  - rewrite IH. reflexivity.
  - destruct (Py.split (String c "") s) as [|h t]; cbn in *; lia.
Qed.

End SplitChar.

Section TopBillLevel.

Import walker.

Local Open Scope string_scope.

Local Abbreviation slash := ("/"%char) (only parsing).

Lemma index_from_end_snoc {A} (l : list A) (x : A) :
  index_from_end (l ++ [x]) 1 = inr x.
Proof.
  unfold index_from_end. rewrite length_app. cbn [length].
  replace (length l + 1 - 1) with (length l) by lia.
  replace (Nat.leb 1 (length l + 1)) with true
    by (symmetry; apply Nat.leb_le; lia).
  rewrite nth_error_app2 by lia. rewrite Nat.sub_diag. reflexivity.
Qed.

Lemma index_from_end_third {A} (l : list A) (x y z : A) :
  index_from_end (l ++ [x; y; z]) 3 = inr x.
Proof.
  unfold index_from_end. rewrite length_app. cbn [length].
  replace (length l + 3 - 3) with (length l) by lia.
  replace (Nat.leb 3 (length l + 3)) with true
    by (symmetry; apply Nat.leb_le; lia).
  rewrite nth_error_app2 by lia. rewrite Nat.sub_diag. reflexivity.
Qed.

(** [getTopBillLevel] on the segments of a path that has at least three. *)
Lemma getTopBillLevel_segments (dirName : string) (front : list string)
    (third mid last : string) :
  Py.split "/" dirName = (front ++ [third; mid; last])%list ->
  getTopBillLevel dirName
  = inr (re_match_bill last && String.eqb third "bills").
Proof.
  intros Hs. unfold getTopBillLevel. rewrite Hs.
  change (front ++ [third; mid; last])%list
    with (front ++ [third; mid] ++ [last])%list at 1.
  rewrite app_assoc, index_from_end_snoc, index_from_end_third.
  destruct (re_match_bill last); reflexivity.
Qed.

(** X7: on a path [<root>/bills/<mid>/<last>], and on [bills/<mid>/<last>],
    [getTopBillLevel] tells whether [<last>] starts like a bill directory;
    on a path of one or two segments it raises [IndexError] when the last
    segment starts so, and answers [False] otherwise. *)
Theorem getTopBillLevel_by_depth (root mid last : string) :
  Py.count_char slash mid = 0 ->
  Py.count_char slash last = 0 ->
  getTopBillLevel (root +:+ "/bills/" +:+ mid +:+ "/" +:+ last)
    = inr (re_match_bill last)
  /\ getTopBillLevel ("bills/" +:+ mid +:+ "/" +:+ last)
     = inr (re_match_bill last)
  /\ getTopBillLevel (mid +:+ "/" +:+ last)
     = (if re_match_bill last then inl Py.IndexError else inr false)
  /\ getTopBillLevel last
     = (if re_match_bill last then inl Py.IndexError else inr false).
Proof.
  intros Hmid Hlast.
  assert (Py.split "/" (mid +:+ "/" +:+ last) = [mid; last]) as Htwo.
  { change ("/" +:+ last) with (String slash last).
    rewrite (split_char_app slash), !(split_char_free slash) by assumption.
    reflexivity. }
  assert (Py.split "/" ("bills/" +:+ mid +:+ "/" +:+ last)
          = ["bills"; mid; last]) as Hthree.
  { change ("bills/" +:+ mid +:+ "/" +:+ last)
      with ("bills" +:+ String slash (mid +:+ "/" +:+ last)).
    rewrite (split_char_app slash), Htwo. reflexivity. }
  split; [|split; [|split]].
  - rewrite (getTopBillLevel_segments _ (Py.split "/" root) "bills" mid last).
    + rewrite andb_true_r. reflexivity.
    + change (root +:+ "/bills/" +:+ mid +:+ "/" +:+ last)
        with (root +:+ String slash ("bills/" +:+ mid +:+ "/" +:+ last)).
      rewrite (split_char_app slash), Hthree. reflexivity.
  - rewrite (getTopBillLevel_segments _ [] "bills" mid last Hthree).
    rewrite andb_true_r. reflexivity.
  - unfold getTopBillLevel. rewrite Htwo. cbn.
    destruct (re_match_bill last); reflexivity.
  - unfold getTopBillLevel. rewrite (split_char_free slash) by assumption.
    cbn. destruct (re_match_bill last); reflexivity.
Qed.

Lemma getTopBillLevel_by_depth_witness :
  getTopBillLevel ("../congress/data/116" +:+ "/bills/" +:+ "hr" +:+ "/" +:+ "hr1")
    = inr (re_match_bill "hr1")
  /\ getTopBillLevel ("bills/" +:+ "hr" +:+ "/" +:+ "hr1")
     = inr (re_match_bill "hr1")
  /\ getTopBillLevel ("hr" +:+ "/" +:+ "hr1")
     = (if re_match_bill "hr1" then inl Py.IndexError else inr false)
  /\ getTopBillLevel "hr1"
     = (if re_match_bill "hr1" then inl Py.IndexError else inr false).
Proof.
  apply (getTopBillLevel_by_depth "../congress/data/116" "hr" "hr1");
    reflexivity.
Defined.

End TopBillLevel.

Section BillPattern.

Import walker.

Local Open Scope string_scope.

Lemma plus_then_runs (p : ascii -> bool) (k : string -> bool) (s : string) :
  plus_then p k s = true
  <-> exists run tail,
        run <> "" /\ every p run = true /\ s = run +:+ tail /\ k tail = true.
Proof.
  split.
  - induction s as [|c s IH]; [discriminate|].
    cbn [plus_then]. intros H. apply andb_true_iff in H as [Hc H].
    apply orb_true_iff in H as [H|H].
    + destruct (IH H) as (run & tail & Hne & Hrun & -> & Hk).
      exists (String c run), tail.
      split; [discriminate|]. split; [|split; [reflexivity|exact Hk]].
      cbn [every]. rewrite Hc, Hrun. reflexivity.
    + exists (String c ""), s.
      split; [discriminate|]. split; [|split; [reflexivity|exact H]].
      cbn [every]. rewrite Hc. reflexivity.
  - intros (run & tail & Hne & Hrun & -> & Hk).
    induction run as [|c run IH]; [contradiction|].
    rewrite append_cons_l. cbn [plus_then every] in *.
    apply andb_true_iff in Hrun as [-> Hrun]. cbn [andb].
    destruct run as [|c' run'].
    + rewrite append_empty_l, Hk. apply orb_true_r.
    + rewrite IH; [reflexivity | discriminate | exact Hrun].
Qed.

(** X8: the directory names [getTopBillLevel] takes for bills are those that
    start with one or more lower-case letters followed by a digit,
    whatever comes after. *)
Theorem re_match_bill_prefix (s : string) :
  re_match_bill s = true
  <-> exists letters digit rest,
        s = letters +:+ String digit rest
        /\ letters <> ""
        /\ every is_lower letters = true
        /\ is_digit digit = true.
Proof.
  unfold re_match_bill. rewrite plus_then_runs. split.
  - intros (run & tail & Hne & Hrun & -> & Hk).
    destruct tail as [|d rest]; [discriminate|].
    cbn [plus_then] in Hk. apply andb_true_iff in Hk as [Hd _].
    exists run, d, rest. auto.
  - intros (letters & d & rest & -> & Hne & Hrun & Hd).
    exists letters, (String d rest). repeat split; auto.
    cbn [plus_then]. rewrite Hd. apply orb_true_r.
Qed.

End BillPattern.

Section TestWalkDirs.

Import walker.

Local Open Scope string_scope.

Lemma collect_files (dirName : string) (files : list string) (st : WalkSt) :
  exists st',
    Eff.for_each (fun fname => addToFilePathList dirName fname) files st
      = (inr tt, st')
    /\ filePathList st'
       = (filePathList st ++ map (path_join dirName) files)%list
    /\ info st' = info st.
Proof.
  revert st. induction files as [|f files IH]; intros st.
  - exists st. cbn. rewrite app_nil_r. auto.
  - cbn [Eff.for_each]. unfold Eff.bind at 1, addToFilePathList at 1, Eff.modify.
    destruct (IH {| filePathList :=
                      (filePathList st ++ [path_join dirName f])%list;
                    info := info st;
                    printed := (printed st ++
                      [(filePathList st ++ [path_join dirName f])%list])%list |})
      as (st' & Hrun & Hpaths & Hinfo).
    exists st'. split; [exact Hrun|]. cbn [filePathList info] in *.
    split; [|exact Hinfo].
    rewrite Hpaths, <- app_assoc. reflexivity.
Qed.

(** One directory of the walk, when [getTopBillLevel] answers. *)
Lemma walk_step (entry : string * list string * list string)
    (rest : list (string * list string * list string)) (st : WalkSt) :
  answers entry ->
  exists st',
    walkBillDirs (entry :: rest) addToFilePathList getTopBillLevel isDataJson st
    = walkBillDirs rest addToFilePathList getTopBillLevel isDataJson st'
    /\ filePathList st' = (filePathList st ++ collected [entry])%list.
Proof.
  destruct entry as [[dirName subdirs] files]. intros [b Hb]. cbn in Hb.
  unfold walkBillDirs. cbn [Eff.for_each]. unfold Eff.bind at 1.
  unfold Eff.bind at 1, lift. rewrite Hb.
  unfold collected. cbn [flat_map]. rewrite Hb, app_nil_r.
  destruct b.
  - unfold Eff.bind at 1, logger_info, Eff.modify.
    destruct (collect_files dirName (List.filter isDataJson files)
                {| filePathList := filePathList st;
                   info := (info st ++ ["Entering directory: " +:+ dirName])%list;
                   printed := printed st |})
      as (st' & -> & Hpaths & _).
    exists st'. split; [reflexivity|exact Hpaths].
  - exists st. split; [reflexivity|]. rewrite app_nil_r. reflexivity.
Qed.

Lemma collected_app (a b : list (string * list string * list string)) :
  collected (a ++ b) = (collected a ++ collected b)%list.
Proof. unfold collected. apply flat_map_app. Qed.

Lemma walk_answered (os_walk : list (string * list string * list string))
    (st : WalkSt) :
  Forall answers os_walk ->
  exists st',
    walkBillDirs os_walk addToFilePathList getTopBillLevel isDataJson st
      = (inr tt, st')
    /\ filePathList st' = (filePathList st ++ collected os_walk)%list.
Proof.
  intros Hall. revert st.
  induction Hall as [|entry rest Hentry _ IH]; intros st.
  - exists st. split; [reflexivity|]. cbn. rewrite app_nil_r. reflexivity.
  - destruct (walk_step entry rest st Hentry) as (st1 & -> & H1).
    destruct (IH st1) as (st' & -> & H2).
    exists st'. split; [reflexivity|].
    rewrite H2, H1, <- app_assoc.
    change (entry :: rest) with ([entry] ++ rest)%list.
    rewrite collected_app. reflexivity.
Qed.

(** X9: when [getTopBillLevel] answers on every directory of the walk,
    [testWalkDirs] returns, in walk order, the path of every file named
    [data.json] of every directory [getTopBillLevel] accepts, and no
    other path. *)
Theorem testWalkDirs_collects
    (os_walk : list (string * list string * list string)) (st : WalkSt) :
  Forall answers os_walk ->
  exists st',
    testWalkDirs os_walk st = (inr (collected os_walk), st')
    /\ (forall p,
          In p (collected os_walk)
          <-> exists dirName subdirList fileList,
                In (dirName, subdirList, fileList) os_walk
                /\ getTopBillLevel dirName = inr true
                /\ In "data.json" fileList
                /\ p = path_join dirName "data.json").
Proof.
  intros Hall. unfold testWalkDirs. unfold Eff.bind at 1, Eff.modify.
  destruct (walk_answered os_walk
              {| filePathList := []; info := info st; printed := printed st |}
              Hall) as (st' & Hrun & Hpaths).
  unfold Eff.bind at 1. rewrite Hrun. cbn [filePathList app] in Hpaths.
  exists st'. split.
  - unfold Eff.bind, Eff.get, Eff.ret. rewrite Hpaths. reflexivity.
  - intros p. unfold collected. rewrite in_flat_map. split.
    + intros ([[dirName subdirs] files] & Hin & Hp).
      destruct (getTopBillLevel dirName) as [e|[|]] eqn:Hd; try destruct Hp.
      apply in_map_iff in Hp as (f & <- & Hf).
      apply filter_In in Hf as [Hf Hname].
      apply String.eqb_eq in Hname. subst f.
      exists dirName, subdirs, files. auto.
    + intros (dirName & subdirs & files & Hin & Hd & Hf & ->).
      exists (dirName, subdirs, files). split; [exact Hin|]. rewrite Hd.
      apply in_map. apply filter_In. split; [exact Hf|reflexivity].
Qed.

Lemma testWalkDirs_collects_witness :
  exists st',
    testWalkDirs [ ("data/116/bills/hr/hr1", [], ["data.json"; "fdsys.xml"]);
                   ("data/116/bills/hr", ["hr1"], []) ]
                 {| filePathList := []; info := []; printed := [] |}
    = (inr (collected
              [ ("data/116/bills/hr/hr1", [], ["data.json"; "fdsys.xml"]);
                ("data/116/bills/hr", ["hr1"], []) ]), st')
    /\ (forall p,
          In p (collected
                  [ ("data/116/bills/hr/hr1", [], ["data.json"; "fdsys.xml"]);
                    ("data/116/bills/hr", ["hr1"], []) ])
          <-> exists dirName subdirList fileList,
                In (dirName, subdirList, fileList)
                   [ ("data/116/bills/hr/hr1", [], ["data.json"; "fdsys.xml"]);
                     ("data/116/bills/hr", ["hr1"], []) ]
                /\ getTopBillLevel dirName = inr true
                /\ In "data.json" fileList
                /\ p = path_join dirName "data.json").
Proof.
  apply (testWalkDirs_collects
           [ ("data/116/bills/hr/hr1", [], ["data.json"; "fdsys.xml"]);
             ("data/116/bills/hr", ["hr1"], []) ]
           {| filePathList := []; info := []; printed := [] |}).
  repeat constructor; eexists; vm_compute; reflexivity.
Defined.

Lemma last_three {A} (l : list A) :
  3 <= length l -> exists front x y z, l = (front ++ [x; y; z])%list.
Proof.
  intros Hlen. rewrite <- (rev_involutive l).
  rewrite <- length_rev in Hlen.
  destruct (rev l) as [|z [|y [|x front]]]; cbn in Hlen; try lia.
  exists (rev front), x, y, z. cbn [rev]. rewrite <- !app_assoc. reflexivity.
Qed.

(** Under the default root every path has three segments, so
    [dirName_parts[-3]] exists. *)
Lemma under_root_answers (entry : string * list string * list string) :
  under_root entry -> answers entry.
Proof.
  intros [rel Hrel]. unfold answers. rewrite Hrel.
  destruct (last_three (Py.split "/" (rootDir +:+ rel)))
    as (front & x & y & z & Hs).
  - rewrite (split_char_length "/"%char), count_char_append.
    change (Py.count_char "/" rootDir) with 2. lia.
  - rewrite (getTopBillLevel_segments _ front x y z Hs). eauto.
Qed.

(** X10: [testWalkDirs] walks the default root, under which every path
    has at least three segments: [getTopBillLevel] raises on none of the
    directories, and [testWalkDirs] returns its list of paths without
    raising. *)
Theorem testWalkDirs_never_raises
    (os_walk : list (string * list string * list string)) (st : WalkSt) :
  Forall under_root os_walk ->
  Forall (fun entry => exists b, getTopBillLevel (fst (fst entry)) = inr b)
         os_walk
  /\ exists st', testWalkDirs os_walk st = (inr (collected os_walk), st').
Proof.
  intros Hroot.
  assert (Forall answers os_walk) as Hall.
  { eapply List.Forall_impl; [|exact Hroot]. apply under_root_answers. }
  split; [exact Hall|].
  unfold testWalkDirs. unfold Eff.bind at 1, Eff.modify.
  destruct (walk_answered os_walk
              {| filePathList := []; info := info st; printed := printed st |}
              Hall) as (st' & Hrun & Hpaths).
  unfold Eff.bind at 1. rewrite Hrun. cbn [filePathList app] in Hpaths.
  exists st'. unfold Eff.bind, Eff.get, Eff.ret. rewrite Hpaths. reflexivity.
Qed.

Lemma testWalkDirs_never_raises_witness :
  Forall (fun entry => exists b, getTopBillLevel (fst (fst entry)) = inr b)
         [ ("../congress/data", ["116"], []);
           ("../congress/data/116", ["bills"], []);
           ("../congress/data/116/bills", ["hr"], []);
           ("../congress/data/116/bills/hr", ["hr1"], []);
           ("../congress/data/116/bills/hr/hr1", [], ["data.json"]) ]
  /\ exists st',
       testWalkDirs
         [ ("../congress/data", ["116"], []);
           ("../congress/data/116", ["bills"], []);
           ("../congress/data/116/bills", ["hr"], []);
           ("../congress/data/116/bills/hr", ["hr1"], []);
           ("../congress/data/116/bills/hr/hr1", [], ["data.json"]) ]
         {| filePathList := []; info := []; printed := [] |}
       = (inr (collected
                 [ ("../congress/data", ["116"], []);
                   ("../congress/data/116", ["bills"], []);
                   ("../congress/data/116/bills", ["hr"], []);
                   ("../congress/data/116/bills/hr", ["hr1"], []);
                   ("../congress/data/116/bills/hr/hr1", [], ["data.json"]) ]),
          st').
Proof.
  apply (testWalkDirs_never_raises
           [ ("../congress/data", ["116"], []);
             ("../congress/data/116", ["bills"], []);
             ("../congress/data/116/bills", ["hr"], []);
             ("../congress/data/116/bills/hr", ["hr1"], []);
             ("../congress/data/116/bills/hr/hr1", [], ["data.json"]) ]
           {| filePathList := []; info := []; printed := [] |}).
  repeat constructor.
  - exists "". reflexivity.
  - exists "/116". reflexivity.
  - exists "/116/bills". reflexivity.
  - exists "/116/bills/hr". reflexivity.
  - exists "/116/bills/hr/hr1". reflexivity.
Defined.

(** The walk of the witness collects the one [data.json] it meets. *)
Example walk_under_root_collects :
  collected [ ("../congress/data", ["116"], []);
              ("../congress/data/116", ["bills"], []);
              ("../congress/data/116/bills", ["hr"], []);
              ("../congress/data/116/bills/hr", ["hr1"], []);
              ("../congress/data/116/bills/hr/hr1", [], ["data.json"]) ]
  = ["../congress/data/116/bills/hr/hr1/data.json"].
Proof. vm_compute. reflexivity. Qed.

End TestWalkDirs.

(** ** The view's normalizer *)

Section ViewNormalizer.

Import views.

Local Open Scope string_scope.

(** Arithmetic on goals that mention string lengths: the lengths are
    named first. *)
Ltac lengths :=
  repeat match goal with
         | |- context [String.length ?x] =>
             let n := fresh "n" in
             set (n := String.length x) in *; clearbody n
         | H : context [String.length ?x] |- _ =>
             let n := fresh "n" in
             set (n := String.length x) in *; clearbody n
         end;
  lia.

Lemma length_append (a b : string) :
  String.length (a +:+ b) = String.length a + String.length b.
Proof.
  induction a as [|x a IH]; [reflexivity|].
  rewrite append_cons_l. cbn [String.length]. rewrite IH. reflexivity.
Qed.

Lemma join_app (l1 l2 : list string) :
  Py.join (l1 ++ l2) = Py.join l1 +:+ Py.join l2.
Proof.
  unfold Py.join. induction l1 as [|p l1 IH]; [reflexivity|].
  cbn [app fold_right]. rewrite IH.
  induction p as [|x p IHp]; [reflexivity|].
  rewrite !append_cons_l, IHp. reflexivity.
Qed.

Lemma join_single (p : string) : Py.join [p] = p.
Proof. unfold Py.join. cbn. apply append_empty_r. Qed.

Lemma join_rev_count (c : ascii) (l : list string) :
  Py.count_char c (Py.join (rev l)) = Py.count_char c (Py.join l).
Proof.
  induction l as [|p l IH]; [reflexivity|].
  cbn [rev]. rewrite join_app, join_single.
  change (p :: l) with ([p] ++ l)%list. rewrite join_app, join_single.
  rewrite !count_char_append, IH. lia.
Qed.

Lemma join_rev_length (l : list string) :
  String.length (Py.join (rev l)) = String.length (Py.join l).
Proof.
  induction l as [|p l IH]; [reflexivity|].
  cbn [rev]. rewrite join_app, join_single.
  change (p :: l) with ([p] ++ l)%list. rewrite join_app, join_single.
  rewrite !length_append, IH. lengths.
Qed.

Lemma join_pieces_count (l : list string) :
  Forall (fun p => Py.count_char hyphen p = 0) l ->
  Py.count_char hyphen (Py.join l) = 0.
Proof.
  induction 1 as [|p l Hp _ IH]; [reflexivity|].
  change (p :: l) with ([p] ++ l)%list.
  rewrite join_app, join_single, count_char_append, Hp, IH. reflexivity.
Qed.

(** The pieces of a split, put together, are the string without its
    hyphens. *)
Lemma join_split_length (s : string) :
  String.length (Py.join (Py.split "-" s)) + Py.count_char hyphen s
  = String.length s.
Proof.
  induction s as [|x s IH]; [reflexivity|].
  rewrite split_hyphen_cons. cbn [Py.count_char String.length].
  destruct (Ascii.eqb x hyphen).
  - change ("" :: Py.split "-" s) with ([""] ++ Py.split "-" s)%list.
    rewrite join_app, join_single, append_empty_l. lengths.
  - destruct (Py.split "-" s) as [|h t].
    + rewrite join_single. cbn in *. lengths.
    + change (String x h :: t) with ([String x h] ++ t)%list.
      change (h :: t) with ([h] ++ t)%list in IH.
      rewrite join_app, join_single, length_append in *.
      cbn [String.length]. lengths.
Qed.

(** X11: [billIdToBillNumber] returns its argument's characters without the
    hyphens (as many characters as there are non-hyphens, none of them a
    hyphen); a string without hyphen comes back as it is, so normalizing
    twice is normalizing once. *)
Theorem billIdToBillNumber_drops_hyphens (bill_id : string) :
  Py.count_char hyphen (billIdToBillNumber bill_id) = 0
  /\ String.length (billIdToBillNumber bill_id) + Py.count_char hyphen bill_id
     = String.length bill_id
  /\ (Py.count_char hyphen bill_id = 0 -> billIdToBillNumber bill_id = bill_id)
  /\ billIdToBillNumber (billIdToBillNumber bill_id)
     = billIdToBillNumber bill_id.
Proof.
  assert (forall s, Py.count_char hyphen s = 0 -> billIdToBillNumber s = s)
    as Hfree.
  { intros s Hs. unfold billIdToBillNumber.
    rewrite split_hyphen_free by exact Hs. apply join_single. }
  assert (Py.count_char hyphen (billIdToBillNumber bill_id) = 0) as Hnone.
  { unfold billIdToBillNumber. rewrite join_rev_count.
    apply join_pieces_count, split_hyphen_pieces. }
  split; [exact Hnone|]. split; [|split].
  - unfold billIdToBillNumber. rewrite join_rev_length.
    apply join_split_length.
  - apply Hfree.
  - apply Hfree. exact Hnone.
Qed.

End ViewNormalizer.

(** ** The bill's committees *)

Section Committees.

Import views committees.

Local Open Scope string_scope.

Lemma deduped_unfold (object : Bill) :
  get_committees_dict_deduped object = dedupe_from (committees_dict object) [].
Proof. reflexivity. Qed.

Lemma dedupe_from_sublist (l : list CommitteeItem) (seen : list string) :
  sublist (dedupe_from l seen) l.
Proof.
  revert seen. induction l as [|c l IH]; intros seen; [constructor|].
  cbn [dedupe_from]. destruct (negb _ || _).
  - apply sublist_cons, IH.
  - apply sublist_skip, IH.
Qed.

(** What is kept has a name, not seen before. *)
Lemma dedupe_from_names (l : list CommitteeItem) (seen : list string) :
  Forall (fun c => exists k, committee c = Some k /\ k <> "" /\ ~ In k seen)
         (dedupe_from l seen).
Proof.
  revert seen. induction l as [|c l IH]; intros seen; [constructor|].
  cbn [dedupe_from].
  destruct (negb _ || _) eqn:Hskip; [apply IH|].
  apply orb_false_iff in Hskip as [Hname Hseen].
  apply negb_false_iff in Hname.
  constructor.
  - destruct (committee c) as [k|]; [|discriminate].
    exists k. split; [reflexivity|]. split.
    + apply truthy_nonempty. exact Hname.
    + intros Hin. apply str_in_In in Hin. congruence.
  - eapply List.Forall_impl; [|apply IH].
    intros c' (k & Hk & Hne & Hout). exists k. split; [exact Hk|].
    split; [exact Hne|]. intros Hin. apply Hout. apply in_or_app. left. exact Hin.
Qed.

Lemma dedupe_from_nodup (l : list CommitteeItem) (seen : list string) :
  List.NoDup (map committee (dedupe_from l seen)).
Proof.
  revert seen. induction l as [|c l IH]; intros seen; [constructor|].
  cbn [dedupe_from].
  destruct (negb _ || _); [apply IH|].
  cbn [map]. constructor; [|apply IH].
  intros Hin. apply in_map_iff in Hin as (c' & Hsame & Hin).
  pose proof (dedupe_from_names l
                (seen ++ [match committee c with Some k => k | None => "" end]))
    as Hnames.
  rewrite Forall_forall in Hnames.
  destruct (Hnames c' (proj2 (list_elem_of_In _ _) Hin)) as (k & Hk & _ & Hout).
  apply Hout. apply in_or_app. right. left.
  rewrite <- Hsame, Hk. reflexivity.
Qed.

Lemma named_eq (k : string) (c : CommitteeItem) :
  named k c = true <-> committee c = Some k.
Proof. unfold named. apply opt_eqb_eq. Qed.

(** The item kept for a name is the first item of that name. *)
Lemma dedupe_from_first (l : list CommitteeItem) (seen : list string)
    (k : string) :
  k <> "" -> ~ In k seen ->
  List.find (named k) (dedupe_from l seen) = List.find (named k) l.
Proof.
  intros Hne. revert seen. induction l as [|c l IH]; intros seen Hout;
    [reflexivity|].
  cbn [dedupe_from List.find].
  destruct (negb _ || _) eqn:Hskip.
  - destruct (named k c) eqn:Hnamed; [|apply IH; exact Hout].
    apply named_eq in Hnamed. rewrite Hnamed in Hskip.
    apply orb_true_iff in Hskip as [Hempty|Hseen].
    + apply negb_true_iff in Hempty.
      apply truthy_nonempty in Hne. congruence.
    + apply str_in_In in Hseen. contradiction.
  - cbn [List.find]. destruct (named k c) eqn:Hnamed; [reflexivity|].
    apply IH. intros Hin. apply in_app_or in Hin as [Hin|[Hin|[]]];
      [contradiction|].
    assert (named k c = true) as Habs; [|congruence].
    apply named_eq. destruct (committee c) as [k'|].
    + congruence.
    + subst k. contradiction.
Qed.

Lemma committees_deduped_names (object : Bill) (c : CommitteeItem) :
  In c (get_committees_dict_deduped object) ->
  exists k, committee c = Some k /\ k <> "" /\ In c (committees_dict object).
Proof.
  rewrite deduped_unfold. intros Hin.
  pose proof (dedupe_from_names (committees_dict object) []) as Hnames.
  rewrite Forall_forall in Hnames.
  destruct (Hnames c (proj2 (list_elem_of_In _ _) Hin)) as (k & Hk & Hne & _).
  exists k. split; [exact Hk|]. split; [exact Hne|].
  apply list_elem_of_In.
  eapply elem_of_sublist; [apply list_elem_of_In; exact Hin|].
  apply dedupe_from_sublist.
Qed.

(** X12: [get_committees_dict_deduped] keeps, in their order, items of
    [committees_dict]; the kept items all have a non-empty name, no two the
    same, and the item kept for a name is the first item of
    [committees_dict] with that name. *)
Theorem committees_deduped_by_first_name (object : Bill) :
  let deduped := get_committees_dict_deduped object in
  sublist deduped (committees_dict object)
  /\ List.NoDup (map committee deduped)
  /\ Forall (fun c => exists k, committee c = Some k /\ k <> "") deduped
  /\ (forall k, k <> "" ->
                List.find (named k) deduped
                = List.find (named k) (committees_dict object)).
Proof.
  cbv zeta. rewrite deduped_unfold.
  split; [apply dedupe_from_sublist|].
  split; [apply dedupe_from_nodup|]. split.
  - eapply List.Forall_impl; [|apply (dedupe_from_names _ [])].
    intros c (k & Hk & Hne & _). eauto.
  - intros k Hne. apply dedupe_from_first; [exact Hne|intros []].
Qed.

Lemma committees_fold_lookup (l : list CommitteeItem)
    (m : gmap (option string) (option string))
    (id : option string) (v : option string) :
  fold_left (fun m c => <[committee_id c := committee c]> m) l m !! id = Some v ->
  (exists c, In c l /\ committee_id c = id /\ committee c = v)
  \/ m !! id = Some v.
Proof.
  revert m. induction l as [|c l IH]; intros m; [right; assumption|].
  cbn [fold_left]. intros H. destruct (IH _ H) as [(c' & H1 & H2 & H3)|Hm].
  - left. exists c'. split; [right|]; auto.
  - destruct (decide (committee_id c = id)) as [E|E].
    + subst id. rewrite lookup_insert_eq in Hm. injection Hm as <-.
      left. exists c. split; [left|]; auto.
    + rewrite lookup_insert_ne in Hm by exact E. right. exact Hm.
Qed.

Lemma committees_fold_covers (l : list CommitteeItem)
    (m : gmap (option string) (option string)) (id : option string) :
  (is_Some (m !! id) \/ exists c, In c l /\ committee_id c = id) ->
  is_Some (fold_left (fun m c => <[committee_id c := committee c]> m) l m !! id).
Proof.
  revert m. induction l as [|c l IH]; intros m H.
  - destruct H as [H|(c & [] & _)]. exact H.
  - cbn [fold_left]. apply IH.
    destruct (decide (committee_id c = id)) as [E|E].
    + left. subst id. rewrite lookup_insert_eq. eauto.
    + rewrite lookup_insert_ne by exact E.
      destruct H as [H|(c' & [->|Hin] & Hid)]; [left; exact H | contradiction|].
      right. exists c'. auto.
Qed.

(** A value of the map is the name of an item kept for its id. *)
Lemma committees_map_value (object : Bill) (id v : option string) :
  get_committees_map object !! id = Some v ->
  exists k c, v = Some k /\ k <> ""
              /\ In c (get_committees_dict_deduped object)
              /\ In c (committees_dict object)
              /\ committee_id c = id /\ committee c = Some k.
Proof.
  unfold get_committees_map. intros Hv.
  apply committees_fold_lookup in Hv as [(c & Hin & Hid & Hc)|H];
    [|rewrite lookup_empty in H; discriminate].
  destruct (committees_deduped_names object c Hin) as (k & Hk & Hne & Horig).
  exists k, c. rewrite <- Hc. auto 10.
Qed.

(** X13: [get_committees_map] has a key for the id of every kept committee and
    for nothing else, and the value under an id is the non-empty name of
    an item of [committees_dict] with that id. *)
Theorem committees_map_names (object : Bill) (id : option string) :
  (is_Some (get_committees_map object !! id)
     <-> exists c, In c (get_committees_dict_deduped object)
                   /\ committee_id c = id)
  /\ (forall v, get_committees_map object !! id = Some v ->
        exists k c, v = Some k /\ k <> ""
                    /\ In c (committees_dict object)
                    /\ committee_id c = id /\ committee c = Some k).
Proof.
  split; [split|].
  - intros [v Hv].
    destruct (committees_map_value object id v Hv)
      as (k & c & _ & _ & Hin & _ & Hid & _).
    exists c. auto.
  - intros H. unfold get_committees_map. apply committees_fold_covers.
    right. exact H.
  - intros v Hv.
    destruct (committees_map_value object id v Hv)
      as (k & c & H1 & H2 & _ & H3 & H4 & H5).
    exists k, c. auto.
Qed.

End Committees.

(** ** The current bill's score *)

Section CurrentScore.

Import views scores.

Local Open Scope string_scope.

Lemma key_listed (k : string) (similar : list SimilarityMatch) :
  str_in k (map key_or_empty similar) = true
  <-> exists b, In b similar /\ key_or_empty b = k.
Proof.
  rewrite str_in_In, in_map_iff.
  split; intros (b & H1 & H2); exists b; auto.
Qed.

(** X14: [get_current_bill_score] changes nothing.  For a bill with a non-empty
    key it returns the score of the first similar bill bearing that key,
    or 0 when there is none.  It raises only [StopIteration], and only for
    a bill whose key is empty when some similar bill has no key and none
    has the empty key. *)
Theorem current_bill_score_cases (object : Bill) (st : ViewSt) :
  let k := b_bill_congress_type_number object in
  let run := get_current_bill_score object st in
  snd run = st
  /\ (k <> "" ->
      fst run = inr (match List.find (has_key k) (get_similar_bills object) with
                     | Some b => score b
                     | None => 0%float
                     end))
  /\ (forall e,
        fst run = inl e
        <-> e = Py.StopIteration
            /\ k = ""
            /\ (exists b, In b (get_similar_bills object)
                          /\ bill_congress_type_number b = None)
            /\ (forall b, In b (get_similar_bills object) ->
                          bill_congress_type_number b <> Some "")).
Proof.
  cbv zeta. unfold get_current_bill_score, get_billnumbers_similar.
  set (k := b_bill_congress_type_number object).
  set (similar := get_similar_bills object).
  change (fun bill => opt_eqb (bill_congress_type_number bill) (Some k))
    with (has_key k).
  destruct (List.find (has_key k) similar) as [b|] eqn:Hfind.
  - (* a similar bill bears the key *)
    apply find_some in Hfind as [Hin Hkey]. apply opt_eqb_eq in Hkey.
    assert (str_in k (map key_or_empty similar) = true) as ->.
    { apply key_listed. exists b. split; [exact Hin|].
      unfold key_or_empty. rewrite Hkey. reflexivity. }
    split; [reflexivity|]. split; [reflexivity|].
    intros e. split; [discriminate|].
    intros (_ & Hk & _ & Hnone). exfalso. apply (Hnone b Hin).
    rewrite Hkey, Hk. reflexivity.
  - (* none does *)
    assert (forall b, In b similar -> bill_congress_type_number b <> Some k)
      as Hnone.
    { intros b Hin Hkey. apply (find_none _ _ Hfind) in Hin.
      unfold has_key in Hin. rewrite Hkey, opt_eqb_refl in Hin. discriminate. }
    destruct (str_in k (map key_or_empty similar)) eqn:Hlisted.
    + apply key_listed in Hlisted as (b & Hin & Hb).
      assert (bill_congress_type_number b = None /\ k = "") as [Hb0 Hk].
      { unfold key_or_empty in Hb.
        destruct (bill_congress_type_number b) as [k'|] eqn:E.
        - exfalso. apply (Hnone b Hin). congruence.
        - auto. }
      split; [reflexivity|]. split; [intros Hne; contradiction|].
      intros e. split.
      * intros [= <-]. split; [reflexivity|]. split; [exact Hk|].
        split; [eauto|]. rewrite <- Hk. exact Hnone.
      * intros (-> & _). reflexivity.
    + split; [reflexivity|]. split; [reflexivity|].
      intros e. split; [discriminate|].
      intros (_ & Hk & (b & Hin & Hb) & _). exfalso.
      assert (str_in k (map key_or_empty similar) = true) as Habs;
        [|congruence].
      apply key_listed. exists b. split; [exact Hin|].
      unfold key_or_empty. rewrite Hb. symmetry. exact Hk.
Qed.

End CurrentScore.

(** ** More on the merged roster *)

Section RosterOrder.

Import views roster.

Variable committees_map : gmap (option string) (option string).
Variable bill_dict : gmap Z string.

Lemma dict_get_keys (k : option string) (d : list (option string * Merged)) :
  is_Some (dict_get k d) <-> In k (map fst d).
Proof.
  split.
  - intros [e He]. apply dict_get_In in He. apply (in_map fst) in He. exact He.
  - intros Hin. destruct (dict_get k d) eqn:Hget; [eauto|].
    destruct (dict_get_None k d Hget Hin).
Qed.

(** The keys of the merged dict, in order: the ids of the rows, each at
    its first occurrence. *)
Lemma merge_rows_keys (rows : list CosponsorRow) :
  map fst (merge_rows committees_map bill_dict rows)
  = rev (nodup (fun a b => decide (a = b)) (rev (map r_bioguide_id rows))).
Proof.
  induction rows as [|r rows IH] using rev_ind; [reflexivity|].
  rewrite merge_rows_snoc, List.map_app, rev_app_distr.
  cbn [map rev app nodup]. unfold merge_row.
  destruct (in_dec _ (r_bioguide_id r) (rev (map r_bioguide_id rows)))
    as [Hin|Hout].
  - assert (is_Some (dict_get (r_bioguide_id r)
                       (merge_rows committees_map bill_dict rows))) as [e He].
    { apply dict_get_keys. rewrite IH. apply in_rev. rewrite rev_involutive.
      apply nodup_In. exact Hin. }
    rewrite He, dict_set_keys, He. exact IH.
  - destruct (dict_get (r_bioguide_id r)
                (merge_rows committees_map bill_dict rows)) as [e|] eqn:He.
    + exfalso. apply Hout.
      assert (In (r_bioguide_id r)
                 (map fst (merge_rows committees_map bill_dict rows))) as Hk
        by (apply dict_get_keys; eauto).
      rewrite IH in Hk. apply in_rev in Hk.
      apply nodup_In in Hk. exact Hk.
    + rewrite dict_set_keys, He, IH. reflexivity.
Qed.

End RosterOrder.

Section RosterFacts.

Import views roster.

Variable Bill_objects_get_id : string -> option Z.
Variable Cosponsor_objects_filter : list Z -> list CosponsorRow.

Lemma roster_run (object : Bill) (st : ViewSt) (billids : list Z) :
  Eff.map_m (lookup_bill_id Bill_objects_get_id)
    (roster_billnumbers object (identical_bill_numbers st)) st
    = (inr billids, st) ->
  get_cosponsors_for_same_bills Bill_objects_get_id Cosponsor_objects_filter
    object st
  = (inr (map snd
            (merge_rows (get_committees_map object)
               (make_bill_dict billids
                  (roster_billnumbers object (identical_bill_numbers st)))
               (Cosponsor_objects_filter billids))), st).
Proof.
  intros Hids. unfold get_cosponsors_for_same_bills.
  unfold Eff.bind at 1, Eff.get. unfold Eff.bind at 1. rewrite Hids.
  reflexivity.
Qed.

(** X15: when the bill lookups succeed, the roster lists the persons in the
    order in which their first rows were fetched. *)
Theorem roster_in_fetch_order
    (object : Bill) (st : ViewSt) (billids : list Z) :
  Eff.map_m (lookup_bill_id Bill_objects_get_id)
    (roster_billnumbers object (identical_bill_numbers st)) st
    = (inr billids, st) ->
  exists out,
    get_cosponsors_for_same_bills Bill_objects_get_id Cosponsor_objects_filter
      object st = (inr out, st)
    /\ map (fun e => r_bioguide_id (row e)) out
       = rev (nodup (fun a b => decide (a = b))
                    (rev (map r_bioguide_id
                              (Cosponsor_objects_filter billids)))).
Proof.
  intros Hids. rewrite (roster_run object st billids Hids).
  eexists. split; [reflexivity|].
  rewrite merged_ids. apply merge_rows_keys.
Qed.

(** The committee map holds, under an id, the name of the last kept
    committee with that id. *)
Lemma committees_fold_last (l : list CommitteeItem)
    (m : gmap (option string) (option string)) (id : option string) :
  fold_left (fun m c => <[committee_id c := committee c]> m) l m !! id
  = match List.find (fun c => opt_eqb (committee_id c) id) (rev l) with
    | Some c => Some (committee c)
    | None => m !! id
    end.
Proof.
  induction l as [|c l IH] using rev_ind; [reflexivity|].
  rewrite fold_left_app, rev_app_distr. cbn [fold_left rev app List.find].
  destruct (opt_eqb (committee_id c) id) eqn:E.
  - apply opt_eqb_eq in E. subst id. apply lookup_insert_eq.
  - rewrite lookup_insert_ne; [exact IH|].
    intros H. apply opt_eqb_eq in H. congruence.
Qed.

Lemma find_rev_existsb {A} (p : A -> bool) (l : list A) :
  match List.find p (rev l) with Some _ => true | None => false end
  = existsb p l.
Proof.
  destruct (List.find p (rev l)) as [x|] eqn:Hfind.
  - apply find_some in Hfind as [Hin Hp]. symmetry.
    apply existsb_exists. exists x. split; [apply in_rev; exact Hin|exact Hp].
  - destruct (existsb p l) eqn:Hex; [|reflexivity].
    apply existsb_exists in Hex as (x & Hin & Hp).
    rewrite (find_none _ _ Hfind x) in Hp; [discriminate|].
    apply in_rev in Hin. exact Hin.
Qed.

Lemma Forall2_map_In {A B} (P : A -> B -> Prop) (f : A -> B) (l : list A) :
  (forall x, In x l -> P x (f x)) -> Forall2 P l (map f l).
Proof.
  induction l as [|x l IH]; intros H; [constructor|].
  cbn [map]. constructor; [apply H; left; reflexivity|].
  apply IH. intros y Hy. apply H. right. exact Hy.
Qed.

(** X16: when the bill lookups succeed, an entry of the roster is built
    from the first fetched row of its person.  Of that row's committees
    it keeps those whose code is the id of a committee of the bill that
    [get_committees_dict_deduped] keeps; its ranks are their ranks, and
    the committee it names for each is the one the last kept committee
    with that id bears, a non-empty name of the bill's committees. *)
Theorem roster_names_the_bill_committees
    (object : Bill) (st : ViewSt) (billids : list Z) :
  Eff.map_m (lookup_bill_id Bill_objects_get_id)
    (roster_billnumbers object (identical_bill_numbers st)) st
    = (inr billids, st) ->
  exists out,
    get_cosponsors_for_same_bills Bill_objects_get_id Cosponsor_objects_filter
      object st = (inr out, st)
    /\ forall e, In e out ->
         let kept := get_committees_dict_deduped object in
         let members :=
           List.filter
             (fun m => existsb (fun c => opt_eqb (committee_id c)
                                                 (m_committee m)) kept)
             (r_committees (row e)) in
         List.find (fun r => opt_eqb (r_bioguide_id r)
                                     (r_bioguide_id (row e)))
                   (Cosponsor_objects_filter billids) = Some (row e)
         /\ ranks e
            = map (fun m => match m_rank m with
                            | Some v => v
                            | None => PyStr EmptyString
                            end) members
         /\ Forall2 (fun m n =>
                       exists c k,
                         List.find (fun c => opt_eqb (committee_id c)
                                                     (m_committee m))
                                   (rev kept) = Some c
                         /\ n = committee c
                         /\ n = Some k /\ k <> EmptyString
                         /\ In c (committees_dict object))
                    members (committees_named e).
Proof.
  intros Hids. rewrite (roster_run object st billids Hids).
  eexists. split; [reflexivity|].
  intros e He. apply in_map_iff in He as ([k e'] & <- & Hin). cbn [snd].
  destruct (merge_rows_values _ _ _ k e' Hin) as (first & others & Hmine & ->).
  destruct (rows_of_head _ _ _ _ Hmine) as [_ Hk].
  cbv zeta. unfold entry_for, first_entry.
  cbn [row committees_named ranks].
  assert (committees_relevant (get_committees_map object) first
          = List.filter
              (fun m => existsb (fun c => opt_eqb (committee_id c)
                                                  (m_committee m))
                                (get_committees_dict_deduped object))
              (r_committees first)) as ->.
  { unfold committees_relevant. apply filter_ext. intros m.
    unfold get_committees_map. rewrite committees_fold_last, lookup_empty.
    rewrite <- find_rev_existsb.
    destruct (List.find _ (rev (get_committees_dict_deduped object)));
      reflexivity. }
  split; [|split; [reflexivity|]].
  - rewrite find_is_first_kept, Hk.
    change (List.filter (fun r => opt_eqb (r_bioguide_id r) k)
                        (Cosponsor_objects_filter billids))
      with (rows_of k (Cosponsor_objects_filter billids)).
    rewrite Hmine. reflexivity.
  - apply Forall2_map_In. intros m Hm.
    apply filter_In in Hm as [_ Hm].
    rewrite <- find_rev_existsb in Hm.
    pose proof (committees_fold_last (get_committees_dict_deduped object)
                  ∅ (m_committee m)) as Hlast.
    fold (get_committees_map object) in Hlast.
    destruct (List.find _ (rev (get_committees_dict_deduped object)))
      as [c|] eqn:Hfind; [|discriminate].
    rewrite Hlast.
    destruct (committees_map_value object _ _ Hlast)
      as (k' & c' & Hv & Hne & _ & _ & _ & _).
    apply find_some in Hfind as [Hc _]. apply in_rev in Hc.
    exists c, k'. split; [reflexivity|]. split; [reflexivity|].
    split; [exact Hv|]. split; [exact Hne|].
    destruct (committees_deduped_names object c Hc) as (_ & _ & _ & Horig).
    exact Horig.
Qed.

Lemma lookups_run (l : list string) (st : ViewSt) :
  Eff.map_m (lookup_bill_id Bill_objects_get_id) l st
  = (match mapM Bill_objects_get_id l with
     | Some ids => inr ids
     | None => inl Py.DoesNotExist
     end, st).
Proof.
  induction l as [|n l IH]; [reflexivity|].
  cbn [Eff.map_m]. unfold Eff.bind at 1, lookup_bill_id at 1.
  change (mapM Bill_objects_get_id (n :: l))
    with (i ← Bill_objects_get_id n; ids ← mapM Bill_objects_get_id l;
          mret (i :: ids)).
  destruct (Bill_objects_get_id n) as [i|]; [|reflexivity].
  unfold Eff.ret at 1. unfold Eff.bind at 1. rewrite IH.
  destruct (mapM Bill_objects_get_id l); reflexivity.
Qed.

Lemma roster_has_current (object : Bill) (identical : list string) :
  In (b_bill_congress_type_number object) (roster_billnumbers object identical).
Proof.
  unfold roster_billnumbers.
  destruct (str_in _ identical) eqn:Hin; cbn [negb].
  - apply str_in_In. exact Hin.
  - left. reflexivity.
Qed.

(** X17: [get_cosponsors_for_same_bills] leaves the view as it is, always asks
    for the bill shown, and raises exactly when one of the bills it asks
    for is not in the database: then the roster is not built at all. *)
Theorem roster_needs_every_bill (object : Bill) (st : ViewSt) :
  let billnumbers := roster_billnumbers object (identical_bill_numbers st) in
  let run := get_cosponsors_for_same_bills Bill_objects_get_id
               Cosponsor_objects_filter object st in
  snd run = st
  /\ In (b_bill_congress_type_number object) billnumbers
  /\ (forall e, fst run = inl e
                <-> e = Py.DoesNotExist
                    /\ exists n, In n billnumbers
                                 /\ Bill_objects_get_id n = None).
Proof.
  cbv zeta. split; [|split; [apply roster_has_current|]].
  - unfold get_cosponsors_for_same_bills, Eff.bind, Eff.get.
    rewrite lookups_run. destruct (mapM _ _); reflexivity.
  - intros e. unfold get_cosponsors_for_same_bills, Eff.bind, Eff.get.
    rewrite lookups_run.
    destruct (mapM Bill_objects_get_id _) as [ids|] eqn:Hm; cbn [fst].
    + split; [discriminate|]. intros (_ & n & Hin & Hn). exfalso.
      assert (mapM Bill_objects_get_id
                (roster_billnumbers object (identical_bill_numbers st)) = None)
        as Habs; [|congruence].
      apply mapM_None, Exists_exists. exists n.
      split; [apply list_elem_of_In; exact Hin|exact Hn].
    + apply mapM_None, Exists_exists in Hm as (n & Hin & Hn).
      apply list_elem_of_In in Hin. split.
      * intros [= <-]. eauto.
      * intros (-> & _). reflexivity.
Qed.

Lemma bill_dict_lookup (ids : list Z) (nums : list string)
    (m : gmap Z string) (i : Z) (n : string) :
  fold_left (fun m p => <[fst p := snd p]> m) (combine ids nums) m !! i = Some n
  -> In n nums \/ m !! i = Some n.
Proof.
  revert nums m. induction ids as [|j ids IH]; intros [|x nums] m;
    cbn [combine fold_left]; try (right; assumption).
  intros H. destruct (IH _ _ H) as [Hin|Hm]; [left; right; exact Hin|].
  cbn [fst snd] in Hm. destruct (decide (j = i)) as [->|Hne].
  - rewrite lookup_insert_eq in Hm. injection Hm as <-. left. left. reflexivity.
  - rewrite lookup_insert_ne in Hm by exact Hne. right. exact Hm.
Qed.

Lemma bill_dict_covers (ids : list Z) (nums : list string)
    (m : gmap Z string) (i : Z) :
  length ids = length nums ->
  In i ids \/ is_Some (m !! i) ->
  is_Some (fold_left (fun m p => <[fst p := snd p]> m) (combine ids nums) m !! i).
Proof.
  revert nums m. induction ids as [|j ids IH]; intros [|x nums] m Hlen H;
    try discriminate.
  - destruct H as [[]|H]. exact H.
  - cbn [combine fold_left fst snd]. apply IH; [cbn in Hlen; lia|].
    destruct (decide (j = i)) as [->|Hne].
    + right. rewrite lookup_insert_eq. eauto.
    + rewrite lookup_insert_ne by exact Hne.
      destruct H as [[E|H]|H]; [contradiction|left; exact H|right; exact H].
Qed.

(** X18: when the bill lookups succeed and the query returns rows of the bills
    asked for only, every entry of the roster lists at least one bill key,
    and every key it lists is the bill shown or one of its identical
    bills. *)
Theorem roster_lists_requested_bills
    (object : Bill) (st : ViewSt) (billids : list Z) :
  let billnumbers := roster_billnumbers object (identical_bill_numbers st) in
  (forall r, In r (Cosponsor_objects_filter billids) -> In (r_bill r) billids) ->
  Eff.map_m (lookup_bill_id Bill_objects_get_id) billnumbers st
    = (inr billids, st) ->
  exists out,
    get_cosponsors_for_same_bills Bill_objects_get_id Cosponsor_objects_filter
      object st = (inr out, st)
    /\ forall e, In e out ->
         bill_congress_type_numbers e <> []
         /\ Forall (fun n => In n billnumbers) (bill_congress_type_numbers e).
Proof.
  cbv zeta. intros Hrows Hids. rewrite (roster_run object st billids Hids).
  eexists. split; [reflexivity|].
  assert (length billids
          = length (roster_billnumbers object (identical_bill_numbers st)))
    as Hlen.
  { rewrite lookups_run in Hids.
    destruct (mapM Bill_objects_get_id _) as [ids|] eqn:Hm; [|discriminate].
    injection Hids as ->. symmetry. eapply length_mapM. exact Hm. }
  intros e He. apply in_map_iff in He as ([k e'] & <- & Hin). cbn [snd].
  destruct (merge_rows_values _ _ _ k e' Hin) as (first & others & Hmine & ->).
  unfold entry_for. cbn [bill_congress_type_numbers].
  split; [discriminate|].
  apply Forall_forall. intros n Hn.
  apply list_elem_of_In, in_map_iff in Hn as (r & <- & Hr).
  assert (In r (Cosponsor_objects_filter billids)) as Hfetched.
  { rewrite <- Hmine in Hr. unfold rows_of in Hr.
    apply filter_In in Hr as [Hr _]. exact Hr. }
  unfold bctn_of, make_bill_dict.
  destruct (bill_dict_covers billids _ ∅ (r_bill r) Hlen
              (or_introl (Hrows r Hfetched))) as [n Hn].
  rewrite Hn. apply bill_dict_lookup in Hn as [Hn|Hn]; [exact Hn|].
  rewrite lookup_empty in Hn. discriminate.
Qed.

End RosterFacts.

Section RosterFactsSamples.

Import views roster samples.

Lemma roster_in_fetch_order_witness :
  exists out,
    get_cosponsors_for_same_bills bill_table cosponsors_of_bills
      hr1 resolved_view = (inr out, resolved_view)
    /\ map (fun e => r_bioguide_id (row e)) out
       = rev (nodup (fun a b => decide (a = b))
                    (rev (map r_bioguide_id
                              (cosponsors_of_bills [1%Z; 2%Z])))).
Proof.
  apply (roster_in_fetch_order bill_table cosponsors_of_bills
           hr1 resolved_view [1%Z; 2%Z]).
  reflexivity.
Defined.

Lemma roster_names_the_bill_committees_witness :
  exists out,
    get_cosponsors_for_same_bills bill_table cosponsors_of_bills
      hr1 resolved_view = (inr out, resolved_view)
    /\ forall e, In e out ->
         let kept := get_committees_dict_deduped hr1 in
         let members :=
           List.filter
             (fun m => existsb (fun c => opt_eqb (committee_id c)
                                                 (m_committee m)) kept)
             (r_committees (row e)) in
         List.find (fun r => opt_eqb (r_bioguide_id r)
                                     (r_bioguide_id (row e)))
                   (cosponsors_of_bills [1%Z; 2%Z]) = Some (row e)
         /\ ranks e
            = map (fun m => match m_rank m with
                            | Some v => v
                            | None => PyStr EmptyString
                            end) members
         /\ Forall2 (fun m n =>
                       exists c k,
                         List.find (fun c => opt_eqb (committee_id c)
                                                     (m_committee m))
                                   (rev kept) = Some c
                         /\ n = committee c
                         /\ n = Some k /\ k <> EmptyString
                         /\ In c (committees_dict hr1))
                    members (committees_named e).
Proof.
  apply (roster_names_the_bill_committees bill_table cosponsors_of_bills
           hr1 resolved_view [1%Z; 2%Z]).
  reflexivity.
Defined.

Lemma cosponsors_of_bills_requested (billids : list Z) (r : CosponsorRow) :
  In r (cosponsors_of_bills billids) -> In (r_bill r) billids.
Proof.
  unfold cosponsors_of_bills. intros H. apply filter_In in H as [_ H].
  apply existsb_exists in H as (i & Hi & E). apply Z.eqb_eq in E.
  rewrite E. exact Hi.
Qed.

Lemma roster_lists_requested_bills_witness :
  exists out,
    get_cosponsors_for_same_bills bill_table cosponsors_of_bills
      hr1 resolved_view = (inr out, resolved_view)
    /\ forall e, In e out ->
         bill_congress_type_numbers e <> []
         /\ Forall (fun n => In n (roster_billnumbers hr1
                                     (identical_bill_numbers resolved_view)))
                   (bill_congress_type_numbers e).
Proof.
  apply (roster_lists_requested_bills bill_table cosponsors_of_bills
           hr1 resolved_view [1%Z; 2%Z]).
  - apply cosponsors_of_bills_requested.
  - reflexivity.
Defined.

End RosterFactsSamples.

(** ** More on the display order *)

Section StableSort.

Context {A : Type}.

Lemma StronglySorted_sublist (R : A -> A -> Prop) (l1 l2 : list A) :
  sublist l1 l2 -> StronglySorted R l2 -> StronglySorted R l1.
Proof.
  induction 1 as [|x l1 l2 Hsub IH|x l1 l2 Hsub IH]; intros Hs.
  - constructor.
  - apply StronglySorted_inv in Hs as [Hs Hx]. constructor; [apply IH, Hs|].
    rewrite Forall_forall in Hx. apply Forall_forall. intros y Hy. apply Hx.
    eapply elem_of_sublist; eassumption.
  - apply StronglySorted_inv in Hs as [Hs _]. exact (IH Hs).
Qed.

Lemma StronglySorted_map {B} (f : A -> B) (R : A -> A -> Prop)
    (R' : B -> B -> Prop) (l : list A) :
  (forall a b, R a b -> R' (f a) (f b)) ->
  StronglySorted R l -> StronglySorted R' (map f l).
Proof.
  intros Hf. induction 1 as [|x l Hs IH Hx]; [constructor|].
  cbn [map]. constructor; [exact IH|].
  rewrite Forall_forall in Hx. apply Forall_forall. intros y Hy.
  apply list_elem_of_In, in_map_iff in Hy as (a & <- & Ha).
  apply Hf, Hx, list_elem_of_In, Ha.
Qed.

Lemma remove_sublist `{EqDecision A} (x : A) (l l' : list A) :
  Py.remove x l = Some l' -> sublist l' l.
Proof.
  revert l'. induction l as [|y l IH]; intros l'; [discriminate|].
  cbn [Py.remove]. destruct (bool_decide (y = x)).
  - intros [= <-]. apply sublist_cons. reflexivity.
  - destruct (Py.remove x l) as [r|]; [|discriminate].
    intros [= <-]. apply sublist_skip. apply IH. reflexivity.
Qed.

Lemma tl_sublist (l : list A) : sublist (tl l) l.
Proof. destruct l; [constructor | apply sublist_cons; reflexivity]. Qed.

Lemma Forall_sorted_by (P : A -> Prop) (lt : A -> A -> bool) (l : list A) :
  Forall P l -> Forall P (Py.sorted_by lt l).
Proof.
  apply Permutation_Forall. symmetry. apply sorted_by_permutation.
Qed.

(** Sorting by a total order gives a sorted list. *)
Lemma sorted_by_sorted (lt : A -> A -> bool) (l : list A) :
  (forall a b, lt a b = true -> lt b a = false) ->
  (forall a b c, lt b a = false -> lt c b = false -> lt c a = false) ->
  StronglySorted (fun a b => lt b a = false) (Py.sorted_by lt l).
Proof.
  intros Hasym Htrans.
  assert (forall x s,
            StronglySorted (fun a b => lt b a = false) s ->
            StronglySorted (fun a b => lt b a = false) (Py.insert_by lt x s))
    as Hinsert.
  { intros x s. induction 1 as [|y s Hs IH Hy]; [repeat constructor|].
    cbn [Py.insert_by]. destruct (lt y x) eqn:Hyx.
    - constructor; [exact IH|].
      apply (Permutation_Forall (Permutation_sym (insert_by_permutation lt x s))).
      constructor; [apply Hasym; exact Hyx | exact Hy].
    - constructor; [constructor; assumption|].
      constructor; [exact Hyx|].
      eapply List.Forall_impl; [|exact Hy].
      intros z Hz. cbn beta in *. eapply Htrans; eassumption. }
  induction l as [|x l IH]; [constructor|].
  unfold Py.sorted_by in *. cbn [fold_right]. apply Hinsert, IH.
Qed.

(** A stable sort by an integer key, of a list in some order [R], gives a
    list in key order where elements of equal keys are in the order [R]. *)
Lemma sorted_by_stable (lt : A -> A -> bool) (key : A -> Z)
    (R : A -> A -> Prop) (P : A -> Prop) (l : list A) :
  (forall a b, P a -> P b -> lt a b = Z.ltb (key a) (key b)) ->
  Forall P l ->
  StronglySorted R l ->
  StronglySorted
    (fun a b => (key a < key b)%Z \/ (key a = key b /\ R a b))
    (Py.sorted_by lt l).
Proof.
  intros Hlt.
  set (lex := fun a b => (key a < key b)%Z \/ (key a = key b /\ R a b)).
  assert (forall x s,
            P x -> Forall P s -> Forall (R x) s ->
            StronglySorted lex s ->
            StronglySorted lex (Py.insert_by lt x s)) as Hinsert.
  { intros x s Hx HP HR Hs. induction Hs as [|y s Hs IH Hy]; [repeat constructor|].
    apply Forall_cons in HP as [HPy HP]. apply Forall_cons in HR as [HRy HR].
    cbn [Py.insert_by]. rewrite (Hlt y x HPy Hx).
    destruct (Z.ltb_spec (key y) (key x)) as [Hyx|Hxy].
    - constructor; [apply IH; assumption|].
      apply (Permutation_Forall (Permutation_sym (insert_by_permutation lt x s))).
      constructor; [left; exact Hyx | exact Hy].
    - constructor; [constructor; assumption|].
      constructor.
      + unfold lex. destruct (Z.eq_dec (key x) (key y)); [right|left]; auto; lia.
      + rewrite Forall_forall in Hy, HR. apply Forall_forall. intros z Hz.
        specialize (Hy z Hz). specialize (HR z Hz). unfold lex in *.
        destruct (Z.eq_dec (key x) (key z)); [right; auto|left].
        destruct Hy as [Hy|[Hy _]]; lia. }
  intros HP Hs. induction Hs as [|x l Hs IH Hx]; [constructor|].
  apply Forall_cons in HP as [HPx HP].
  unfold Py.sorted_by in *. cbn [fold_right]. apply Hinsert.
  - exact HPx.
  - apply Forall_sorted_by. exact HP.
  - apply Forall_sorted_by. exact Hx.
  - apply IH. exact HP.
Qed.

End StableSort.

Section DisplayOrder.

Import views display ordering.

Variable Cosponsor_objects_get : string -> option CosponsorItem.

Lemma StronglySorted_weaken {A} (R R' : A -> A -> Prop) (l : list A) :
  (forall a b, R a b -> R' a b) -> StronglySorted R l -> StronglySorted R' l.
Proof.
  intros HR. induction 1 as [|x l Hs IH Hx]; constructor; [exact IH|].
  eapply List.Forall_impl; [|exact Hx]. intros b. apply HR.
Qed.

(** The cosponsors, sorted by name, are in name order. *)
Lemma sorted_by_name (l : list Person) :
  StronglySorted name_le (Py.sorted_by name_lt l).
Proof.
  apply (StronglySorted_weaken (fun a b => name_lt b a = false)).
  - intros a b. apply string_ltb_leb.
  - apply sorted_by_sorted.
    + intros a b. unfold name_lt, String.ltb.
      rewrite (String.compare_antisym (name b) (name a)).
      destruct (String.compare (name a) (name b)); cbn; congruence.
    + intros a b c. unfold name_lt. rewrite !string_ltb_leb.
      apply string_leb_trans.
Qed.

Lemma name_listed (n : string) (l l' : list Person) :
  Permutation l l' ->
  List.filter (fun c => String.eqb (name c) n) l = [] ->
  existsb (fun c => String.eqb (name c) n) l' = false.
Proof.
  intros Hperm Hnone.
  destruct (existsb _ l') eqn:Hex; [|reflexivity].
  apply existsb_exists in Hex as (c & Hc & Hn).
  assert (In c (List.filter (fun c => String.eqb (name c) n) l)) as Hin.
  { apply filter_In. split; [|exact Hn].
    apply (Permutation_in _ (Permutation_sym Hperm)). exact Hc. }
  rewrite Hnone in Hin. destruct Hin.
Qed.

(** The first part of [get_cosponsors_dict] never raises: it gives the
    cosponsors, with the sponsor's own entry if the sponsor is added, and
    all but the first of them in name order. *)
Lemma place_sponsor_cases (object : Bill) :
  exists placed,
    place_sponsor object = inr placed
    /\ Permutation placed
         (if sponsor_added object
          then with_sponsor true (b_sponsor object) :: cosponsors_dict object
          else cosponsors_dict object)
    /\ StronglySorted name_le (tl placed).
Proof.
  pose proof (sorted_by_permutation name_lt (cosponsors_dict object)) as Hperm.
  pose proof (sorted_by_name (cosponsors_dict object)) as Hsorted.
  unfold place_sponsor, sponsor_added. cbn [name with_sponsor].
  set (sorted := Py.sorted_by name_lt (cosponsors_dict object)) in *.
  destruct (Py.truthy (name (b_sponsor object))); cbn [andb].
  - destruct (List.filter
                (fun c => String.eqb (name c) (name (b_sponsor object))) sorted)
      as [|s0 others] eqn:Hfilter.
    + rewrite (name_listed _ sorted (cosponsors_dict object) Hperm Hfilter).
      cbn [negb]. eexists. split; [reflexivity|].
      split; [apply perm_skip; exact Hperm | exact Hsorted].
    + assert (In s0 sorted /\ name s0 = name (b_sponsor object)) as [Hin Hs0].
      { assert (In s0 (List.filter
                  (fun c => String.eqb (name c) (name (b_sponsor object)))
                  sorted)) as H by (rewrite Hfilter; left; reflexivity).
        apply filter_In in H as [H1 H2]. apply String.eqb_eq in H2. auto. }
      destruct (remove_present s0 sorted Hin) as (l & Hremove & Hl).
      rewrite Hremove.
      assert (existsb (fun c => String.eqb (name c) (name (b_sponsor object)))
                      (cosponsors_dict object) = true) as ->.
      { apply existsb_exists. exists s0. split.
        - apply (Permutation_in _ Hperm). exact Hin.
        - apply String.eqb_eq. exact Hs0. }
      cbn [negb]. eexists. split; [reflexivity|]. split.
      * rewrite <- Hl. exact Hperm.
      * cbn [tl]. eapply StronglySorted_sublist; [|exact Hsorted].
        eapply remove_sublist. exact Hremove.
  - eexists. split; [reflexivity|]. split; [exact Hperm|].
    eapply StronglySorted_sublist; [apply tl_sublist | exact Hsorted].
Qed.

Lemma head_and_tail {A} (l : list A) : (firstn 1 l ++ tl l)%list = l.
Proof. destruct l; reflexivity. Qed.

Lemma enrich_name (object : Bill) (c : Person) :
  name (enrich Cosponsor_objects_get object c) = name c.
Proof. apply (enrich_same_identity Cosponsor_objects_get object c). Qed.

Lemma enrich_original (object : Bill) (c : Person) :
  original_cosponsor (enrich Cosponsor_objects_get object c)
  = original_cosponsor c.
Proof. apply (enrich_same_identity Cosponsor_objects_get object c). Qed.

(** X19: on a bill whose cosponsors all carry a name, [get_cosponsors_dict]
    returns a list: [cosponsors.remove(sponsors[0])] cannot raise
    [ValueError].  The list shows every cosponsor once, with what the
    [Cosponsor] table adds to it, and besides them the sponsor's own entry
    exactly when the sponsor has a name that no cosponsor bears. *)
Theorem display_shows_everyone_once (object : Bill) :
  exists out,
    get_cosponsors_dict Cosponsor_objects_get object = inr out
    /\ Permutation out
         (map (enrich Cosponsor_objects_get object)
              (if sponsor_added object
               then with_sponsor true (b_sponsor object)
                      :: cosponsors_dict object
               else cosponsors_dict object))
    /\ length out
       = length (cosponsors_dict object)
         + (if sponsor_added object then 1 else 0).
Proof.
  destruct (place_sponsor_cases object) as (placed & Hplace & Hperm & _).
  unfold get_cosponsors_dict. rewrite Hplace. cbv zeta.
  eexists. split; [reflexivity|].
  assert (Permutation
            (firstn 1 (map (enrich Cosponsor_objects_get object) placed)
             ++ Py.sorted_by rank_lt
                  (List.filter has_int_rank
                     (List.filter original_cosponsor
                        (tl (map (enrich Cosponsor_objects_get object) placed))))
             ++ List.filter (fun c => negb (has_int_rank c))
                  (List.filter original_cosponsor
                     (tl (map (enrich Cosponsor_objects_get object) placed)))
             ++ Py.sorted_by rank_lt
                  (List.filter has_int_rank
                     (List.filter (fun c => negb (original_cosponsor c))
                        (tl (map (enrich Cosponsor_objects_get object) placed))))
             ++ List.filter (fun c => negb (has_int_rank c))
                  (List.filter (fun c => negb (original_cosponsor c))
                     (tl (map (enrich Cosponsor_objects_get object) placed))))
            (map (enrich Cosponsor_objects_get object)
               (if sponsor_added object
                then with_sponsor true (b_sponsor object)
                       :: cosponsors_dict object
                else cosponsors_dict object))) as Hout.
  { rewrite groups_permutation, head_and_tail.
    apply Permutation_map. exact Hperm. }
  split; [exact Hout|].
  rewrite (Permutation_length Hout), length_map.
  destruct (sponsor_added object); cbn [length]; lia.
Qed.

(** X20: the display order is: at most one entry in front, then the original
    cosponsors with an integer rank, by rank and within a rank by name,
    then the other original cosponsors by name, then the cosponsors that
    are not original, with an integer rank (by rank, then name), then the
    rest of them by name. *)
Theorem display_groups_in_order (object : Bill) :
  exists front ranked_original unranked_original ranked_other unranked_other,
    get_cosponsors_dict Cosponsor_objects_get object
      = inr (front ++ ranked_original ++ unranked_original
                   ++ ranked_other ++ unranked_other)
    /\ length front <= 1
    /\ Forall (fun c => original_cosponsor c = true /\ has_int_rank c = true)
              ranked_original
    /\ StronglySorted by_rank_then_name ranked_original
    /\ Forall (fun c => original_cosponsor c = true /\ has_int_rank c = false)
              unranked_original
    /\ StronglySorted name_le unranked_original
    /\ Forall (fun c => original_cosponsor c = false /\ has_int_rank c = true)
              ranked_other
    /\ StronglySorted by_rank_then_name ranked_other
    /\ Forall (fun c => original_cosponsor c = false /\ has_int_rank c = false)
              unranked_other
    /\ StronglySorted name_le unranked_other.
Proof.
  destruct (place_sponsor_cases object) as (placed & Hplace & _ & Hsorted).
  unfold get_cosponsors_dict. rewrite Hplace. cbv zeta.
  set (rest := tl (map (enrich Cosponsor_objects_get object) placed)).
  assert (StronglySorted name_le rest) as Hrest.
  { unfold rest. replace (tl (map (enrich Cosponsor_objects_get object) placed))
      with (map (enrich Cosponsor_objects_get object) (tl placed))
      by (destruct placed; reflexivity).
    eapply StronglySorted_map; [|exact Hsorted].
    intros a b. unfold name_le. rewrite !enrich_name. auto. }
  assert (forall p, StronglySorted name_le (List.filter p rest)) as Hpart.
  { intros p. eapply StronglySorted_sublist; [apply filter_sublist|exact Hrest]. }
  assert (forall p q : Person -> bool,
            Forall (fun c => p c = true /\ q c = true)
              (List.filter q (List.filter p rest))) as Hgroup.
  { intros p q. apply Forall_forall. intros c Hc.
    apply list_elem_of_In, filter_In in Hc as [Hc Hq].
    apply filter_In in Hc as [_ Hp]. auto. }
  assert (forall l,
            StronglySorted name_le l ->
            StronglySorted by_rank_then_name
              (Py.sorted_by rank_lt (List.filter has_int_rank l))) as Hranked.
  { intros l Hl.
    apply (sorted_by_stable rank_lt rank_of name_le
             (fun c => has_int_rank c = true)).
    - intros a b Ha Hb. unfold rank_lt, rank_of, has_int_rank in *.
      destruct (rank a), (rank b); try discriminate. reflexivity.
    - apply Forall_forall. intros c Hc.
      apply list_elem_of_In, filter_In in Hc as [_ Hc]. exact Hc.
    - eapply StronglySorted_sublist; [apply filter_sublist|exact Hl]. }
  exists (firstn 1 (map (enrich Cosponsor_objects_get object) placed)).
  do 4 eexists. split; [reflexivity|].
  split; [apply firstn_le_length|].
  split; [|split; [apply Hranked, Hpart|]].
  { apply Forall_sorted_by, Hgroup. }
  split; [|split; [eapply StronglySorted_sublist;
                   [apply filter_sublist|apply Hpart]|]].
  { eapply List.Forall_impl; [|apply Hgroup].
    intros c [Ho Hr]. split; [exact Ho|].
    apply negb_true_iff. exact Hr. }
  split; [|split; [apply Hranked, Hpart|]].
  { apply Forall_sorted_by.
    eapply List.Forall_impl; [|apply Hgroup].
    intros c [Ho Hr]. split; [|exact Hr].
    apply negb_true_iff. exact Ho. }
  split; [|eapply StronglySorted_sublist; [apply filter_sublist|apply Hpart]].
  eapply List.Forall_impl; [|apply Hgroup].
  intros c [Ho Hr]. split; apply negb_true_iff; assumption.
Qed.

End DisplayOrder.

(** * The related-document queries *)

Section Related.

Import views related.

(** Slicing counts characters, not bytes: a number whose first character
    takes two bytes still loses three characters, and a number of fewer
    than three characters loses them all. *)
Example slice_from_counts_characters :
  slice_from 3 (String (ascii_of_nat 195) (String (ascii_of_nat 169) "16s5"))
  = "s5"
  /\ slice_from 3 "116hr1" = "hr1"
  /\ slice_from 3 "hr" = "".
Proof. repeat split. Qed.

(** One step of the comprehension keeps the list free of repetitions, adds
    nothing but the number at hand and keeps what is there, in place. *)
Lemma bill_numbers_step (acc : list string) (x : string) :
  let acc' := if str_in x acc then acc else (acc ++ [x])%list in
  (List.NoDup acc -> List.NoDup acc')
  /\ (forall n, In n acc' <-> In n acc \/ n = x)
  /\ exists added, acc' = (acc ++ added)%list.
Proof.
  cbv zeta. destruct (str_in x acc) eqn:Hin.
  - apply str_in_In in Hin. split; [auto|]. split.
    + intros n. split; [auto|]. intros [H | ->]; assumption.
    + exists []. rewrite app_nil_r. reflexivity.
  - assert (~ In x acc) as Hnot.
    { intros H. apply str_in_In in H. congruence. }
    split; [|split].
    + intros Hnd. apply NoDup_app_remove_l with (l := []). cbn.
      apply List.NoDup_rev in Hnd. rewrite <- (rev_involutive (acc ++ [x])).
      apply List.NoDup_rev. rewrite rev_app_distr. cbn.
      constructor; [|exact Hnd]. rewrite <- in_rev. exact Hnot.
    + intros n. rewrite in_app_iff. cbn. intuition congruence.
    + exists [x]. reflexivity.
Qed.

Lemma bill_numbers_fold (ids : list string) : forall acc,
  let out :=
    fold_left
      (fun bill_numbers number =>
         if str_in (slice_from 3 number) bill_numbers then bill_numbers
         else (bill_numbers ++ [slice_from 3 number])%list) ids acc in
  (List.NoDup acc -> List.NoDup out)
  /\ (forall n, In n out <-> In n acc \/ In n (map (slice_from 3) ids))
  /\ exists added, out = (acc ++ added)%list.
Proof.
  induction ids as [|x ids IH]; intros acc; cbv zeta; cbn [fold_left map].
  - split; [auto|]. split.
    + intros n. cbn. tauto.
    + exists []. rewrite app_nil_r. reflexivity.
  - destruct (bill_numbers_step acc (slice_from 3 x)) as (Hnd & Hin & add1 & E1).
    cbv zeta in Hnd, Hin, E1.
    destruct (IH (if str_in (slice_from 3 x) acc then acc
                  else (acc ++ [slice_from 3 x])%list))
      as (Hnd' & Hin' & add2 & E2).
    cbv zeta in Hnd', Hin', E2.
    split; [auto|]. split.
    + intros n. rewrite Hin', Hin. cbn. intuition congruence.
    + exists (add1 ++ add2)%list. rewrite E2, E1, app_assoc. reflexivity.
Qed.

(** X21: the list of numbers that [get_related_statements],
    [get_related_committees] and [get_related_cbo] query for starts with
    the page's own number without its first three characters, holds no
    number twice, and holds exactly the page's number and the identical
    bills' numbers, each without its first three characters. *)
Theorem related_bill_numbers_distinct
    (slug : string) (identical_bill_numbers : list string) :
  let out := bill_numbers slug identical_bill_numbers in
  List.NoDup out
  /\ hd_error out = Some (slice_from 3 slug)
  /\ forall n,
       In n out
       <-> n = slice_from 3 slug
           \/ exists number,
                In number identical_bill_numbers /\ n = slice_from 3 number.
Proof.
  cbv zeta. unfold bill_numbers.
  destruct (bill_numbers_fold identical_bill_numbers [slice_from 3 slug])
    as (Hnd & Hin & added & E).
  cbv zeta in Hnd, Hin, E.
  split; [|split].
  - apply Hnd. constructor; [intros []|constructor].
  - rewrite E. reflexivity.
  - intros n. rewrite Hin, in_map_iff. cbn. split.
    + intros [[<- | []] | (number & <- & H)]; [left; reflexivity|].
      right. exists number. auto.
    + intros [-> | (number & H & ->)]; [left; left; reflexivity|].
      right. exists number. auto.
Qed.

Lemma crs_fold (ids : list string) : forall acc,
  (forall number, In number ids ->
     ~ In (slice_from 3 number) (acc ++ ids)) ->
  fold_left
    (fun bill_numbers number =>
       if str_in (slice_from 3 number) bill_numbers then bill_numbers
       else (bill_numbers ++ [number])%list) ids acc
  = (acc ++ ids)%list.
Proof.
  induction ids as [|x ids IH]; intros acc Hfree; cbn [fold_left].
  - rewrite app_nil_r. reflexivity.
  - destruct (str_in (slice_from 3 x) acc) eqn:Hin.
    + apply str_in_In in Hin. exfalso.
      apply (Hfree x); [left; reflexivity|]. apply in_app_iff. auto.
    + rewrite IH; [rewrite <- app_assoc; reflexivity|].
      intros number Hn. rewrite <- app_assoc. apply Hfree. right. exact Hn.
Qed.

(** X22: [get_crs_reports] tests for the number without its first three
    characters in a list of whole numbers.  When no number, cut so, is
    itself one of the whole numbers at hand, nothing is left out: the list
    is the page's number followed by all the identical bills' numbers,
    repetitions included. *)
Theorem crs_bill_numbers_keep_repetitions
    (slug : string) (identical_bill_numbers : list string) :
  (forall number, In number identical_bill_numbers ->
     ~ In (slice_from 3 number) (slug :: identical_bill_numbers)) ->
  crs_bill_numbers slug identical_bill_numbers
  = slug :: identical_bill_numbers.
Proof.
  intros Hfree. unfold crs_bill_numbers.
  apply (crs_fold identical_bill_numbers [slug]). exact Hfree.
Qed.

Lemma crs_bill_numbers_keep_repetitions_witness :
  crs_bill_numbers "116hr1" ["116hr2"; "116hr2"; "116hr1"]
  = ["116hr1"; "116hr2"; "116hr2"; "116hr1"].
Proof.
  apply (crs_bill_numbers_keep_repetitions "116hr1" ["116hr2"; "116hr2"; "116hr1"]).
  intros number Hn Hin. cbn in Hn, Hin.
  destruct Hn as [<- | [<- | [<- | []]]]; cbn in Hin;
    repeat (destruct Hin as [Hin | Hin]; [discriminate Hin|]); exact Hin.
Defined.

End Related.

(** * [deep_get] *)

Section DeepGet.

Import paths.

Lemma deep_get_none (keys : list string) : deep_get JNone keys = JNone.
Proof. induction keys as [|k keys IH]; [reflexivity | exact IH]. Qed.

(** X23: [deep_get] gives [None] as soon as the path leaves the dicts: when
    the value at [keys] is not a dict, the value at any longer path is
    [None], and nothing is raised. *)
Theorem deep_get_off_the_dicts
    (dictionary : json) (keys : list string) (key : string)
    (more : list string) :
  is_dict (deep_get dictionary keys) = false ->
  deep_get dictionary (keys ++ key :: more) = JNone.
Proof.
  intros Hleaf. unfold deep_get in *. rewrite fold_left_app. cbn [fold_left].
  destruct (fold_left step keys dictionary); try discriminate Hleaf;
    apply deep_get_none.
Qed.

Lemma deep_get_off_the_dicts_witness :
  deep_get (JDict {[ "sponsor" := JDict {[ "name" := JStr "Rep. Clark" ]} ]})
           (["sponsor"; "name"] ++ "first" :: ["initial"]) = JNone.
Proof.
  apply (deep_get_off_the_dicts
           (JDict {[ "sponsor" := JDict {[ "name" := JStr "Rep. Clark" ]} ]})
           ["sponsor"; "name"] "first" ["initial"]).
  vm_compute. reflexivity.
Defined.

End DeepGet.
